(** * Payment checker: a shallow embedding of [Payment/payment_checker.py]

    The handler processes one queued billing message: it parses the message,
    posts a debit request to the provider, records the provider's answer in
    [TBL_DEBITHISTORY] and updates the billing row in [TBL_USER_PAYMENT].

    Conventions of the embedding.
    - Python values that can come out of [json.loads] are the type [value];
      a dict is an association list read by its first binding, and its keys
      are taken to be distinct, as those of a Python dict are.
    - A Python [float] is an IEEE binary64 given by sign, integer mantissa and
      binary exponent; conversions to and from it are exact integer
      arithmetic with rounding to nearest, ties to even.
    - A Python [str] is a [string] of ASCII characters: its length is its
      number of characters.  [int()] and [float()] are modelled on such
      texts, with the blanks they skip, the underscores they allow and the
      interpreter's limit of 4300 digits on integer texts; the digits and
      blanks outside ASCII that they also accept are not, and a statement
      about every text they reject says that the text is ASCII.  An f-string
      prints an integer in full: the integers at hand come out of the
      decoder, whose own [int()] refuses those of more than 4300 digits.
    - A function that can raise returns [res]; code with effects runs in the
      monad [M], whose state holds the database and the trace of the
      outbound calls (HTTP posts, SQL statements, the post-success sleep).
    - A [ValueError] carries a tag for its message instead of the text.
    - Logging is not an observable effect here and is left out.
    - The JSON decoder, the HTTP endpoint and the printing of floats, lists
      and dicts are taken from a [World]; the SQL engine is a parameter of
      the store operations.  [MySQL.execute] is one for the UPDATE
      statements on the billing table alone, and [Server.execute] one for
      both tables, with the INSERT into the history table. *)

From Stdlib Require Import ZArith List String Ascii Bool Lia DecimalString.
From Stdlib Require DecimalPos DecimalFacts.
Import ListNotations.

#[local] Set Warnings "-register-all".
#[local] Open Scope string_scope.
#[local] Open Scope Z_scope.

(** ** Values and exceptions *)

Inductive pyfloat : Type :=
| FNan
| FInf (neg : bool)
| FFinite (neg : bool) (m e : Z).   (* (-1)^neg * m * 2^e, with 0 <= m *)

Inductive value : Type :=
| VNone
| VBool (b : bool)
| VInt (z : Z)
| VFloat (f : pyfloat)
| VStr (s : string)
| VList (l : list value)
| VDict (d : list (string * value)).

(** The [ValueError]s of the program, by the message they carry;
    [ConversionError] stands for the ones raised by [int()] and [float()]. *)
Inductive value_error : Type :=
| InvalidJSONFormat                       (* "Invalid JSON format" *)
| MissingRequiredField (field : string)   (* "Missing required field: {field}" *)
| FieldCannotBeNull (field : string)      (* "Field '{field}' cannot be null" *)
| InvalidAmount (raw_amount : value)      (* "Invalid amount: {raw_amount}" *)
| StatusIsDisabled                        (* "status is disabled" *)
| ConversionError.

Inductive exn : Type :=
| AssertionError
| AttributeError
| TypeError
| KeyError (key : string)
| IndexError
| OverflowError
| ValueError (err : value_error)
| JSONDecodeError                         (* a subclass of ValueError *)
| HTTPError
| RequestException
| RecursionError.

Inductive res (A : Type) : Type :=
| Ok (a : A)
| Raise (e : exn).
Arguments Ok {A} a.
Arguments Raise {A} e.

Definition res_bind {A B} (r : res A) (k : A -> res B) : res B :=
  match r with
  | Ok a => k a
  | Raise e => Raise e
  end.

Declare Scope res_scope.
Delimit Scope res_scope with res.
Notation "x <- c ;; k" := (res_bind c (fun x => k))
  (at level 100, c at next level, right associativity) : res_scope.

(** [isinstance(e, ValueError)] *)
Definition is_ValueError (e : exn) : bool :=
  match e with
  | ValueError _ | JSONDecodeError => true
  | _ => false
  end.

(** [try: body / except <caught> as e: handler e] *)
Definition try_except {A} (body : res A) (caught : exn -> bool) (handler : exn -> res A) : res A :=
  match body with
  | Ok a => Ok a
  | Raise e => if caught e then handler e else Raise e
  end.

(** ** Dictionaries, membership and subscripts *)

Fixpoint dict_lookup (k : string) (d : list (string * value)) : option value :=
  match d with
  | [] => None
  | (k', v) :: d' => if String.eqb k k' then Some v else dict_lookup k d'
  end.

Fixpoint is_substring (k s : string) : bool :=
  prefix k s ||
  match s with
  | EmptyString => false
  | String _ s' => is_substring k s'
  end.

Definition is_VStr (k : string) (v : value) : bool :=
  match v with
  | VStr s => String.eqb s k
  | _ => false
  end.

(** [k in v] for a string [k] *)
Definition py_in (k : string) (v : value) : res bool :=
  match v with
  | VDict d => Ok (match dict_lookup k d with Some _ => true | None => false end)
  | VList l => Ok (existsb (is_VStr k) l)
  | VStr s => Ok (is_substring k s)
  | _ => Raise TypeError
  end.

(** [v[k]] for a string [k] *)
Definition py_getitem (v : value) (k : string) : res value :=
  match v with
  | VDict d =>
      match dict_lookup k d with
      | Some x => Ok x
      | None => Raise (KeyError k)
      end
  | _ => Raise TypeError
  end.

(** [v.get(k, default)]: only a dict has the method *)
Definition py_get (v : value) (k : string) (default : value) : res value :=
  match v with
  | VDict d =>
      Ok (match dict_lookup k d with Some x => x | None => default end)
  | _ => Raise AttributeError
  end.

Definition is_None (v : value) : bool :=
  match v with
  | VNone => true
  | _ => false
  end.

(** ** Numbers: [int()], [float()], [str()] *)

(** The blanks of an ASCII text that [str.strip()] removes: tab to carriage
    return, the separators 28 to 31, and space *)
Definition is_space (c : ascii) : bool :=
  let n := N_of_ascii c in
  ((9 <=? n) && (n <=? 13) || (28 <=? n) && (n <=? 32))%N.

Definition is_digit (c : ascii) : bool :=
  let n := N_of_ascii c in ((48 <=? n) && (n <=? 57))%N.

Definition digit_val (c : ascii) : Z := Z.of_N (N_of_ascii c) - 48.

Definition digits_val (ds : list ascii) : Z :=
  fold_left (fun acc c => 10 * acc + digit_val c) ds 0.

(** [s.lstrip()], [s.rstrip()] and [s.strip()] *)
Fixpoint lstrip (s : string) : string :=
  match s with
  | String c s' => if is_space c then lstrip s' else s
  | EmptyString => EmptyString
  end.

Fixpoint rstrip (s : string) : string :=
  match s with
  | EmptyString => EmptyString
  | String c s' =>
      match rstrip s' with
      | EmptyString => if is_space c then EmptyString else String c EmptyString
      | t => String c t
      end
  end.

Definition py_strip (s : string) : string := rstrip (lstrip s).

(** The blanks that [int()] and [float()] skip around a number: tab, line
    feed, vertical tab, form feed, carriage return and space.  The
    separators 28 to 31, which [str.strip()] removes, are not among them. *)
Definition is_number_space (c : ascii) : bool :=
  let n := N_of_ascii c in ((9 <=? n) && (n <=? 13) || (n =? 32))%N.

Fixpoint skip_left (s : string) : string :=
  match s with
  | String c s' => if is_number_space c then skip_left s' else s
  | EmptyString => EmptyString
  end.

Fixpoint skip_right (s : string) : string :=
  match s with
  | EmptyString => EmptyString
  | String c s' =>
      match skip_right s' with
      | EmptyString => if is_number_space c then EmptyString else String c EmptyString
      | t => String c t
      end
  end.

Definition skip_blanks (s : string) : string := skip_right (skip_left s).

(** [sys.int_max_str_digits], at its default: [int()] refuses a text of more
    digits and [str()] an integer of more digits, each with a [ValueError]. *)
Definition int_max_str_digits : Z := 4300.

(** An underscore is accepted only between two digits, and is then dropped. *)
Fixpoint remove_underscores (prev : ascii) (l : list ascii) : option (list ascii) :=
  match l with
  | [] => if Ascii.eqb prev "_" then None else Some []
  | c :: l' =>
      if Ascii.eqb c "_" then
        if is_digit prev then remove_underscores c l' else None
      else if Ascii.eqb prev "_" && negb (is_digit c) then None
      else option_map (cons c) (remove_underscores c l')
  end.

Definition split_sign (l : list ascii) : bool * list ascii :=
  match l with
  | c :: r =>
      if Ascii.eqb c "-" then (true, r)
      else if Ascii.eqb c "+" then (false, r)
      else (false, l)
  | [] => (false, [])
  end.

Fixpoint span_digits (l : list ascii) : list ascii * list ascii :=
  match l with
  | c :: r =>
      if is_digit c then let (ds, rest) := span_digits r in (c :: ds, rest)
      else ([], l)
  | [] => ([], [])
  end.

Definition signed (neg : bool) (z : Z) : Z := if neg then - z else z.

(** The integer literals of [int(s)], base 10 *)
Definition py_int_of_str (s : string) : option Z :=
  match remove_underscores zero (list_ascii_of_string (skip_blanks s)) with
  | None => None
  | Some l =>
      let (neg, r) := split_sign l in
      match span_digits r with
      | ((_ :: _) as ds, []) =>
          if Z.of_nat (List.length ds) <=? int_max_str_digits
          then Some (signed neg (digits_val ds))
          else None
      | _ => None
      end
  end.

(** Division rounded to the nearest integer, ties to the even one
    ([0 <= p], [0 < q]) *)
Definition rne_div (p q : Z) : Z :=
  let f := p / q in
  let r2 := 2 * (p mod q) in
  if r2 <? q then f
  else if q <? r2 then f + 1
  else if Z.even f then f else f + 1.

(** [floor (log2 (p / q))] for [0 < p], [0 < q] *)
Definition log2_ratio (p q : Z) : Z :=
  let d := Z.log2 p - Z.log2 q in
  if q * 2 ^ Z.max 0 d <=? p * 2 ^ Z.max 0 (- d) then d else d - 1.

(** The binary64 nearest to [p / q] ([0 <= p], [0 < q]): 53 bits of mantissa,
    exponent not below that of the subnormals, infinity from [2^1024] on. *)
Definition binary64_round (neg : bool) (p q : Z) : pyfloat :=
  if p =? 0 then FFinite neg 0 0
  else
    let e := Z.max (log2_ratio p q - 52) (-1074) in
    let m := rne_div (p * 2 ^ Z.max 0 (- e)) (q * 2 ^ Z.max 0 e) in
    if (0 <=? e) && (2 ^ 1024 <=? m * 2 ^ e) then FInf neg
    else FFinite neg m e.

(** The value [p * 10^x] as a binary64 *)
Definition binary64_of_decimal (neg : bool) (p x : Z) : pyfloat :=
  if 0 <=? x then binary64_round neg (p * 10 ^ x) 1
  else binary64_round neg p (10 ^ (- x)).

Definition to_lower (c : ascii) : ascii :=
  let n := N_of_ascii c in
  if ((65 <=? n) && (n <=? 90))%N then ascii_of_N (n + 32) else c.

Definition is_exp_mark (c : ascii) : bool := Ascii.eqb c "e" || Ascii.eqb c "E".

(** digits [. digits] [e [sign] digits]: the mantissa digits as an integer
    and the power of ten that scales it *)
Definition parse_decimal (l : list ascii) : option (Z * Z) :=
  let (d1, r1) := span_digits l in
  let (d2, r2) :=
    match r1 with
    | c :: r => if Ascii.eqb c "." then span_digits r else ([], r1)
    | [] => ([], r1)
    end in
  match (d1 ++ d2)%list with
  | [] => None
  | ds =>
      let frac := Z.of_nat (List.length d2) in
      match r2 with
      | [] => Some (digits_val ds, - frac)
      | c :: r3 =>
          if is_exp_mark c then
            let (eneg, r4) := split_sign r3 in
            match span_digits r4 with
            | ((_ :: _) as d3, []) => Some (digits_val ds, signed eneg (digits_val d3) - frac)
            | _ => None
            end
          else None
      end
  end.

(** The literals of [float(s)] *)
Definition py_float_of_str (s : string) : option pyfloat :=
  match remove_underscores zero (list_ascii_of_string (skip_blanks s)) with
  | None => None
  | Some l =>
      let (neg, r) := split_sign l in
      let w := string_of_list_ascii (map to_lower r) in
      if String.eqb w "inf" || String.eqb w "infinity" then Some (FInf neg)
      else if String.eqb w "nan" then Some FNan
      else
        match parse_decimal r with
        | Some (p, x) => Some (binary64_of_decimal neg p x)
        | None => None
        end
  end.

(** [float(v)] *)
Definition py_float (v : value) : res pyfloat :=
  match v with
  | VStr s =>
      match py_float_of_str s with
      | Some f => Ok f
      | None => Raise (ValueError ConversionError)
      end
  | VInt z =>
      match binary64_round (z <? 0) (Z.abs z) 1 with
      | FInf _ => Raise OverflowError
      | f => Ok f
      end
  | VBool b => Ok (FFinite false (if b then 1 else 0) 0)
  | VFloat f => Ok f
  | VNone | VList _ | VDict _ => Raise TypeError
  end.

(** [int(f)] for a float: truncation toward zero *)
Definition py_int_of_float (f : pyfloat) : res Z :=
  match f with
  | FNan => Raise (ValueError ConversionError)
  | FInf _ => Raise OverflowError
  | FFinite neg m e =>
      Ok (signed neg (if 0 <=? e then m * 2 ^ e else m / 2 ^ (- e)))
  end.

(** [int(v)] *)
Definition py_int (v : value) : res Z :=
  match v with
  | VStr s =>
      match py_int_of_str s with
      | Some z => Ok z
      | None => Raise (ValueError ConversionError)
      end
  | VInt z => Ok z
  | VBool b => Ok (if b then 1 else 0)
  | VFloat f => py_int_of_float f
  | VNone | VList _ | VDict _ => Raise TypeError
  end.

(** The decimal text of an integer *)
Definition str_of_int (z : Z) : string := NilZero.string_of_int (Z.to_int z).

(** The number of decimal digits of an integer *)
Definition num_digits (z : Z) : Z := Z.of_nat (String.length (str_of_int (Z.abs z))).

(** [str(z)] for an int *)
Definition py_str_of_int (z : Z) : res string :=
  if num_digits z <=? int_max_str_digits then Ok (str_of_int z)
  else Raise (ValueError ConversionError).

(** [v == n] for an int [n] *)
Definition py_eq_int (v : value) (n : Z) : bool :=
  match v with
  | VInt z => z =? n
  | VBool b => (if b then 1 else 0) =? n
  | VFloat (FFinite neg m e) =>
      if 0 <=? e then signed neg (m * 2 ^ e) =? n
      else signed neg m =? n * 2 ^ (- e)
  | _ => false
  end.

(** ** The outside world *)

(** The request body sent to the provider ([get_request_body]) *)
Record DebitRequest : Type := {
  customer_id : Z;
  amount : Z;
  tax : Z;
  ship_fee : Z;
  transfer_type : Z;
  status : Z
}.

(** What the handler reads of a [requests.Response]: [response.ok], and
    [response.json()], which is [None] when the body is not JSON. *)
Record Response : Type := {
  ok : bool;
  json : option value
}.

Record World : Type := {
  (** [json.loads] on a string; [None] when it raises *)
  json_loads : string -> option value;
  (** what it raises then: [JSONDecodeError] on a text that is not JSON, the
      [ValueError] of [int()] on an integer of too many digits,
      [RecursionError] on a text nested too deeply *)
  json_loads_error : string -> exn;
  (** [requests.post] to the debit endpoint *)
  requests_post : DebitRequest -> res Response;
  (** how an f-string prints a float, a list or a dict *)
  py_repr : value -> string
}.

(** The text an f-string puts for [{v}] *)
Definition py_format (w : World) (v : value) : string :=
  match v with
  | VNone => "None"
  | VBool true => "True"
  | VBool false => "False"
  | VInt z => str_of_int z
  | VStr s => s
  | VFloat _ | VList _ | VDict _ => py_repr w v
  end.

(** [json.loads(body_str)] *)
Definition loads (w : World) (body_str : value) : res value :=
  match body_str with
  | VStr s =>
      match json_loads w s with
      | Some v => Ok v
      | None => Raise (json_loads_error w s)
      end
  | _ => Raise TypeError
  end.

Definition is_JSONDecodeError (e : exn) : bool :=
  match e with
  | JSONDecodeError => true
  | _ => false
  end.

(** ** The message parser *)

Definition required_fields : list string :=
  ["billing_id"; "merchant_code"; "user_code"; "direct_debit_id"; "amount"].

(** The loop over [required_fields] *)
Fixpoint check_required (message_data : value) (fields : list string) : res unit :=
  match fields with
  | [] => Ok tt
  | field :: rest =>
      (present <- py_in field message_data ;;
       if negb present then Raise (ValueError (MissingRequiredField field))
       else
         v <- py_getitem message_data field ;;
         if is_None v then Raise (ValueError (FieldCannotBeNull field))
         else check_required message_data rest)%res
  end.

(** [str(int(float(raw_amount)))] *)
Definition convert_amount (raw_amount : value) : res string :=
  (f <- py_float raw_amount ;;
   z <- py_int_of_float f ;;
   py_str_of_int z)%res.

(** The tuple returned by [parse_message] *)
Record Parsed : Type := {
  message_data : value;
  billing_id : value;
  merchant_code : value;
  user_code : value;
  direct_debit_id : value;
  total_amount : string
}.

Definition parse_message (w : World) (record : value) : res Parsed :=
  (body_str <- py_get record "body" (VStr "") ;;
   message_data <-
     try_except (loads w body_str) is_JSONDecodeError
       (fun _ => Raise (ValueError InvalidJSONFormat)) ;;
   _ <- check_required message_data required_fields ;;
   raw_amount <- py_getitem message_data "amount" ;;
   amount <-
     try_except (convert_amount raw_amount) is_ValueError
       (fun _ => Raise (ValueError (InvalidAmount raw_amount))) ;;
   billing_id <- py_getitem message_data "billing_id" ;;
   merchant_code <- py_getitem message_data "merchant_code" ;;
   user_code <- py_getitem message_data "user_code" ;;
   direct_debit_id <- py_getitem message_data "direct_debit_id" ;;
   Ok {| message_data := message_data;
         billing_id := billing_id;
         merchant_code := merchant_code;
         user_code := user_code;
         direct_debit_id := direct_debit_id;
         total_amount := amount |})%res.

(** ** The debit request *)

Definition get_request_body (direct_debit_id : value) (total_amount : string) : res DebitRequest :=
  (cid <- py_int direct_debit_id ;;
   amt <- py_int (VStr total_amount) ;;
   Ok {| customer_id := cid;
         amount := amt;
         tax := 0;
         ship_fee := 0;
         transfer_type := 1;
         status := 1 |})%res.

(** ** Effects: the database and the trace of outbound calls *)

Inductive call : Type :=
| EvPost (body : DebitRequest)     (* [requests.post] called with this body *)
| EvQuery (query : string)         (* [execution_query] called with this text *)
| EvSleep (seconds : Z).           (* [time.sleep] *)

Record State (DB : Type) : Type := {
  db : DB;
  trace : list call
}.
Arguments db {DB} s.
Arguments trace {DB} s.

Definition M (DB A : Type) : Type := State DB -> res A * State DB.

Definition ret {DB A} (a : A) : M DB A := fun st => (Ok a, st).

Definition raise {DB A} (e : exn) : M DB A := fun st => (Raise e, st).

Definition bind {DB A B} (m : M DB A) (k : A -> M DB B) : M DB B :=
  fun st =>
    match m st with
    | (Ok a, st') => k a st'
    | (Raise e, st') => (Raise e, st')
    end.

Definition lift {DB A} (r : res A) : M DB A := fun st => (r, st).

Definition log {DB} (ev : call) : M DB unit :=
  fun st => (Ok tt, {| db := db st; trace := trace st ++ [ev] |}).

(** [try: body / except Exception as e: handler e]: what the body did
    before it raised stays done. *)
Definition try_catch {DB A} (body : M DB A) (handler : exn -> M DB A) : M DB A :=
  fun st =>
    match body st with
    | (Ok a, st') => (Ok a, st')
    | (Raise e, st') => handler e st'
    end.

Declare Scope M_scope.
Delimit Scope M_scope with M.
Notation "x <- c ;; k" := (bind c (fun x => k))
  (at level 100, c at next level, right associativity) : M_scope.
Notation "c ;; k" := (bind c (fun _ => k))
  (at level 100, right associativity) : M_scope.

(** ** Constants *)

Record LambdaResponse : Type := {
  statusCode : Z;
  body : string     (* the string handed to [json.dumps] *)
}.

Definition ERROR_CODE_REQUEST : LambdaResponse :=
  {| statusCode := 500; body := "error: APIRequestに失敗しました" |}.

Definition SUCCESS_FLAG : Z := 1.
Definition BILLING_FLAG_PENDING : string := "1".
Definition BILLING_FLAG_FINISHED : string := "2".
Definition SETTLEMENT_SUCCESS : string := "1".
Definition SETTLEMENT_FAILURE : string := "2".

(** ** The SQL texts *)

Definition nl : string := String (ascii_of_nat 10) EmptyString.

(** The f-string of [insert_debit_history], given the printed fields *)
Definition insert_debit_history_text
    (request_id merchant_code user_code amount tax ship_fee custom_code
     next_transfer transfer_type transfer_count status item_code : string) : string :=
  nl ++ "    INSERT INTO TBL_DEBITHISTORY (" ++
  nl ++ "        request_id, Merchant_Code, User_Code, amount, tax, ship_fee," ++
  nl ++ "        custom_code, next_transfer, transfer_type, transfer_count, status, item_code" ++
  nl ++ "    ) VALUES (" ++
  nl ++ "        '" ++ request_id ++ "'," ++
  nl ++ "        '" ++ merchant_code ++ "'," ++
  nl ++ "        '" ++ user_code ++ "'," ++
  nl ++ "        " ++ amount ++ "," ++
  nl ++ "        " ++ tax ++ "," ++
  nl ++ "        " ++ ship_fee ++ "," ++
  nl ++ "        '" ++ custom_code ++ "'," ++
  nl ++ "        '" ++ next_transfer ++ "'," ++
  nl ++ "        '" ++ transfer_type ++ "'," ++
  nl ++ "        " ++ transfer_count ++ "," ++
  nl ++ "        '" ++ status ++ "'," ++
  nl ++ "        '" ++ item_code ++ "'" ++
  nl ++ "    );" ++
  nl ++ "    ".

(** The f-string of [update_billing_to_settled], after [.strip()] *)
Definition update_billing_to_settled_text (merchant_code user_code : string) : string :=
  py_strip
    (nl ++ "    UPDATE TBL_USER_PAYMENT" ++
     nl ++ "    SET `Billing_FLG` = '" ++ BILLING_FLAG_FINISHED ++
           "', `Settlement_FLG` = '" ++ SETTLEMENT_SUCCESS ++ "'" ++
     nl ++ "    WHERE `Merchant_Code` = '" ++ merchant_code ++ "'" ++
     nl ++ "      AND `User_Code` = '" ++ user_code ++ "'" ++
     nl ++ "      AND `Billing_FLG` = '" ++ BILLING_FLAG_PENDING ++ "'" ++
     nl ++ "    ").

(** The f-string of [update_billing_error], after [.strip()] *)
Definition update_billing_error_text (merchant_code user_code error : string) : string :=
  py_strip
    (nl ++ "    UPDATE TBL_USER_PAYMENT" ++
     nl ++ "    SET `Billing_FLG` = '" ++ BILLING_FLAG_FINISHED ++
           "', `Settlement_FLG` = '" ++ SETTLEMENT_FAILURE ++
           "', `Error_Comment` = '" ++ error ++ "'" ++
     nl ++ "    WHERE `Merchant_Code` = '" ++ merchant_code ++ "'" ++
     nl ++ "      AND `User_Code` = '" ++ user_code ++ "'" ++
     nl ++ "      AND `Billing_FLG` = '" ++ BILLING_FLAG_PENDING ++ "'" ++
     nl ++ "    ").

(** ** The ledger store, the debit client and the coordinator *)

Section Coordinator.

Context {DB : Type}.
Variable w : World.
(** [cursor.execute(query)] and [connection.commit()] on the cached
    connection: the database after the statement, or [None] when connecting,
    executing or committing raised. *)
Variable mysql_execute : string -> DB -> option DB.

#[local] Open Scope M_scope.

Definition execution_query (query : string) : M DB bool :=
  fun st =>
    let st' := {| db := db st; trace := trace st ++ [EvQuery query] |} in
    match mysql_execute query (db st) with
    | Some db' => (Ok true, {| db := db'; trace := trace st' |})
    | None => (Ok false, st')
    end.

Definition insert_debit_history (data merchant_code user_code : value) : M DB unit :=
  request_id <- lift (py_get data "request_id" VNone) ;;
  amount <- lift (py_get data "amount" VNone) ;;
  tax <- lift (py_get data "tax" VNone) ;;
  ship_fee <- lift (py_get data "ship_fee" VNone) ;;
  custom_code <- lift (py_get data "custom_code" VNone) ;;
  next_transfer <- lift (py_get data "next_transfer" VNone) ;;
  transfer_type <- lift (py_get data "transfer_type" VNone) ;;
  transfer_count <- lift (py_get data "transfer_count" VNone) ;;
  status <- lift (py_get data "status" VNone) ;;
  item_code <- lift (py_get data "item_code" VNone) ;;
  let sql :=
    insert_debit_history_text
      (py_format w request_id) (py_format w merchant_code) (py_format w user_code)
      (py_format w amount) (py_format w tax) (py_format w ship_fee)
      (py_format w custom_code) (py_format w next_transfer)
      (py_format w transfer_type) (py_format w transfer_count)
      (py_format w status) (py_format w item_code) in
  try_catch (execution_query sql ;; ret tt) (fun e => raise e).

Definition update_billing_to_settled (merchant_code user_code : value) : M DB unit :=
  execution_query
    (update_billing_to_settled_text (py_format w merchant_code) (py_format w user_code)) ;;
  ret tt.

Definition update_billing_error (merchant_code user_code error : value) : M DB unit :=
  execution_query
    (update_billing_error_text (py_format w merchant_code) (py_format w user_code)
       (py_format w error)) ;;
  ret tt.

Definition send_request_debit (body : DebitRequest) : M DB Response :=
  try_catch (log (EvPost body) ;; lift (requests_post w body)) (fun e => raise e).

(** [response.json()] *)
Definition response_json (response : Response) : res value :=
  match json response with
  | Some v => Ok v
  | None => Raise JSONDecodeError
  end.

(** [response.raise_for_status()]: raises exactly when [response.ok] is false *)
Definition raise_for_status (response : Response) : M DB unit :=
  if ok response then ret tt else raise HTTPError.

(** [len(records)] and [records[0]] *)
Definition py_len (v : value) : res Z :=
  match v with
  | VList l => Ok (Z.of_nat (List.length l))
  | VStr s => Ok (Z.of_nat (String.length s))
  | VDict d => Ok (Z.of_nat (List.length d))
  | _ => Raise TypeError
  end.

Definition py_first (v : value) : res value :=
  match v with
  | VList (x :: _) => Ok x
  | VStr (String c _) => Ok (VStr (String c EmptyString))
  | VList [] | VStr EmptyString => Raise IndexError
  | VDict _ => Raise (KeyError "0")
  | _ => Raise TypeError
  end.

Definition success_response (success_count num_records : Z) : LambdaResponse :=
  {| statusCode := 200;
     body := "successed success_count / num_records = " ++ str_of_int success_count
             ++ " / " ++ str_of_int num_records |}.

(** The body of the [try] block of [lambda_handler]; it yields the response
    returned after the block. *)
Definition process_record (record : value) (success_count num_records : Z) : M DB LambdaResponse :=
  msg <- lift (parse_message w record) ;;
  let merchant_code := merchant_code msg in
  let user_code := user_code msg in
  body <- lift (get_request_body (direct_debit_id msg) (total_amount msg)) ;;
  response <- send_request_debit body ;;
  response_json <- lift (response_json response) ;;
  (if negb (ok response) then
     err <- lift (py_getitem response_json "err") ;;
     ec <- lift (py_getitem err "ec") ;;
     update_billing_error merchant_code user_code ec ;;
     raise_for_status response
   else ret tt) ;;
  insert_debit_history response_json merchant_code user_code ;;
  status <- lift (py_getitem response_json "status") ;;
  (if py_eq_int status SUCCESS_FLAG then
     update_billing_to_settled merchant_code user_code
   else
     update_billing_error merchant_code user_code (VStr "error") ;;
     raise (ValueError StatusIsDisabled)) ;;
  log (EvSleep 1) ;;
  let success_count := (success_count + 1)%Z in
  ret (success_response success_count num_records).

Definition lambda_handler (event : value) : M DB LambdaResponse :=
  records <- lift (py_get event "Records" (VList [])) ;;
  let success_count := 0%Z in
  num_records <- lift (py_len records) ;;
  (if (num_records =? 1)%Z then ret tt else raise AssertionError) ;;
  record <- lift (py_first records) ;;
  try_catch (process_record record success_count num_records)
    (fun e => ret ERROR_CODE_REQUEST).

End Coordinator.

(** ** The billing table and the UPDATE statements the store sends

    [TBL_USER_PAYMENT] is a list of rows, and [MySQL.execute] runs the text
    of an UPDATE on it the way the server does: it reads the text into
    tokens (blanks, bare words, back-quoted names, single-quoted literals
    with their two escapes, [=] and [,]), parses
    [UPDATE t SET c = 'v', ... WHERE a = b AND ... OR ...] with AND binding
    tighter than OR, checks the table and column names, and rewrites the rows
    on which the condition holds.  A text outside this fragment is refused,
    as a statement the server rejects is.  Strings compare by equality. *)

Record BillingRow : Type := {
  Merchant_Code : string;
  User_Code : string;
  Billing_FLG : string;
  Settlement_FLG : string;
  Error_Comment : string
}.

Module MySQL.

Inductive token : Type :=
| TWord (s : string)      (* UPDATE, SET, WHERE, AND, OR, a table name *)
| TName (s : string)      (* `name` *)
| TString (s : string)    (* 'literal' *)
| TEq
| TComma.

Inductive mode : Type :=
| Normal
| InWord (acc : string)
| InName (acc : string)
| InString (acc : string)
| AfterQuote (acc : string)     (* a quote inside a literal: its end, or the first of two *)
| AfterBackslash (acc : string).

Definition is_blank (c : ascii) : bool :=
  let n := N_of_ascii c in ((n =? 32) || (n =? 9) || (n =? 10) || (n =? 13))%N.

Definition is_word_char (c : ascii) : bool :=
  let n := N_of_ascii c in
  ((48 <=? n) && (n <=? 57) || (65 <=? n) && (n <=? 90)
   || (97 <=? n) && (n <=? 122) || (n =? 95))%N.

Definition snoc (acc : string) (c : ascii) : string := acc ++ String c EmptyString.

(** The character after a backslash inside a literal *)
Definition unescape (c : ascii) : string :=
  let n := N_of_ascii c in
  if (n =? 48)%N then String zero EmptyString                  (* \0 *)
  else if (n =? 98)%N then String (ascii_of_nat 8) EmptyString  (* \b *)
  else if (n =? 110)%N then String (ascii_of_nat 10) EmptyString (* \n *)
  else if (n =? 114)%N then String (ascii_of_nat 13) EmptyString (* \r *)
  else if (n =? 116)%N then String (ascii_of_nat 9) EmptyString  (* \t *)
  else if (n =? 90)%N then String (ascii_of_nat 26) EmptyString  (* \Z *)
  else if ((n =? 37) || (n =? 95))%N then String "\" (String c EmptyString)  (* \% \_ *)
  else String c EmptyString.

(** A character read outside words, names and literals: the tokens it closes
    and the mode it opens *)
Definition start (c : ascii) : option (list token * mode) :=
  if is_blank c then Some ([], Normal)
  else if Ascii.eqb c "`" then Some ([], InName EmptyString)
  else if Ascii.eqb c "'" then Some ([], InString EmptyString)
  else if Ascii.eqb c "=" then Some ([TEq], Normal)
  else if Ascii.eqb c "," then Some ([TComma], Normal)
  else if is_word_char c then Some ([], InWord (String c EmptyString))
  else None.

Definition emit (ts : list token) (r : option (list token)) : option (list token) :=
  option_map (app ts) r.

Fixpoint lex (m : mode) (s : string) : option (list token) :=
  match s with
  | EmptyString =>
      match m with
      | Normal => Some []
      | InWord acc => Some [TWord acc]
      | AfterQuote acc => Some [TString acc]
      | InName _ | InString _ | AfterBackslash _ => None
      end
  | String c s' =>
      match m with
      | Normal =>
          match start c with
          | Some (ts, m') => emit ts (lex m' s')
          | None => None
          end
      | InWord acc =>
          if is_word_char c then lex (InWord (snoc acc c)) s'
          else
            match start c with
            | Some (ts, m') => emit (TWord acc :: ts) (lex m' s')
            | None => None
            end
      | InName acc =>
          if Ascii.eqb c "`" then emit [TName acc] (lex Normal s')
          else lex (InName (snoc acc c)) s'
      | InString acc =>
          if Ascii.eqb c "'" then lex (AfterQuote acc) s'
          else if Ascii.eqb c "\" then lex (AfterBackslash acc) s'
          else lex (InString (snoc acc c)) s'
      | AfterQuote acc =>
          if Ascii.eqb c "'" then lex (InString (snoc acc c)) s'
          else
            match start c with
            | Some (ts, m') => emit (TString acc :: ts) (lex m' s')
            | None => None
            end
      | AfterBackslash acc => lex (InString (acc ++ unescape c)) s'
      end
  end.

Inductive operand : Type :=
| Col (name : string)
| Lit (s : string).

Definition comparison : Type := operand * operand.

Record update : Type := {
  table : string;
  assignments : list (string * string);
  (** a disjunction of conjunctions *)
  condition : list (list comparison)
}.

Definition operand_of (t : token) : option operand :=
  match t with
  | TName n => Some (Col n)
  | TString s => Some (Lit s)
  | _ => None
  end.

(** [`c` = 'v' , ... WHERE]: the assignments and what follows WHERE *)
Fixpoint parse_set (ts : list token) : option (list (string * string) * list token) :=
  match ts with
  | TName c :: TEq :: TString v :: rest =>
      match rest with
      | TComma :: rest' =>
          match parse_set rest' with
          | Some (l, r) => Some ((c, v) :: l, r)
          | None => None
          end
      | TWord k :: rest' =>
          if String.eqb k "WHERE" then Some ([(c, v)], rest') else None
      | _ => None
      end
  | _ => None
  end.

(** [a = b AND ... OR ...] up to the end of the statement *)
Fixpoint parse_where (ts : list token) : option (list (list comparison)) :=
  match ts with
  | a :: TEq :: b :: rest =>
      match operand_of a, operand_of b with
      | Some x, Some y =>
          match rest with
          | [] => Some [[(x, y)]]
          | TWord k :: rest' =>
              match parse_where rest' with
              | Some (cs :: ds) =>
                  if String.eqb k "AND" then Some (((x, y) :: cs) :: ds)
                  else if String.eqb k "OR" then Some ([(x, y)] :: cs :: ds)
                  else None
              | _ => None
              end
          | _ => None
          end
      | _, _ => None
      end
  | _ => None
  end.

Definition parse (ts : list token) : option update :=
  match ts with
  | TWord k1 :: TWord t :: TWord k2 :: rest =>
      if String.eqb k1 "UPDATE" && String.eqb k2 "SET" then
        match parse_set rest with
        | Some (l, rest') =>
            match parse_where rest' with
            | Some c => Some {| table := t; assignments := l; condition := c |}
            | None => None
            end
        | None => None
        end
      else None
  | _ => None
  end.

Definition column (r : BillingRow) (name : string) : option string :=
  if String.eqb name "Merchant_Code" then Some (Merchant_Code r)
  else if String.eqb name "User_Code" then Some (User_Code r)
  else if String.eqb name "Billing_FLG" then Some (Billing_FLG r)
  else if String.eqb name "Settlement_FLG" then Some (Settlement_FLG r)
  else if String.eqb name "Error_Comment" then Some (Error_Comment r)
  else None.

Definition set_column (r : BillingRow) (name v : string) : option BillingRow :=
  if String.eqb name "Merchant_Code" then
    Some {| Merchant_Code := v; User_Code := User_Code r; Billing_FLG := Billing_FLG r;
            Settlement_FLG := Settlement_FLG r; Error_Comment := Error_Comment r |}
  else if String.eqb name "User_Code" then
    Some {| Merchant_Code := Merchant_Code r; User_Code := v; Billing_FLG := Billing_FLG r;
            Settlement_FLG := Settlement_FLG r; Error_Comment := Error_Comment r |}
  else if String.eqb name "Billing_FLG" then
    Some {| Merchant_Code := Merchant_Code r; User_Code := User_Code r; Billing_FLG := v;
            Settlement_FLG := Settlement_FLG r; Error_Comment := Error_Comment r |}
  else if String.eqb name "Settlement_FLG" then
    Some {| Merchant_Code := Merchant_Code r; User_Code := User_Code r;
            Billing_FLG := Billing_FLG r; Settlement_FLG := v;
            Error_Comment := Error_Comment r |}
  else if String.eqb name "Error_Comment" then
    Some {| Merchant_Code := Merchant_Code r; User_Code := User_Code r;
            Billing_FLG := Billing_FLG r; Settlement_FLG := Settlement_FLG r;
            Error_Comment := v |}
  else None.

Definition eval_operand (r : BillingRow) (o : operand) : option string :=
  match o with
  | Col n => column r n
  | Lit s => Some s
  end.

(** [None]: the comparison names an unknown column *)
Definition eval_comparison (r : BillingRow) (c : comparison) : option bool :=
  match eval_operand r (fst c), eval_operand r (snd c) with
  | Some x, Some y => Some (String.eqb x y)
  | _, _ => None
  end.

Fixpoint eval_conj (r : BillingRow) (cs : list comparison) : option bool :=
  match cs with
  | [] => Some true
  | c :: cs' =>
      match eval_comparison r c, eval_conj r cs' with
      | Some b, Some b' => Some (b && b')
      | _, _ => None
      end
  end.

Fixpoint eval_condition (r : BillingRow) (ds : list (list comparison)) : option bool :=
  match ds with
  | [] => Some false
  | cs :: ds' =>
      match eval_conj r cs, eval_condition r ds' with
      | Some b, Some b' => Some (b || b')
      | _, _ => None
      end
  end.

Fixpoint assign (r : BillingRow) (l : list (string * string)) : option BillingRow :=
  match l with
  | [] => Some r
  | (c, v) :: l' =>
      match set_column r c v with
      | Some r' => assign r' l'
      | None => None
      end
  end.

Definition row_eqb (a b : BillingRow) : bool :=
  String.eqb (Merchant_Code a) (Merchant_Code b)
  && String.eqb (User_Code a) (User_Code b)
  && String.eqb (Billing_FLG a) (Billing_FLG b)
  && String.eqb (Settlement_FLG a) (Settlement_FLG b)
  && String.eqb (Error_Comment a) (Error_Comment b).

(** The rows after the statement and the number of rows it changed;
    [None] when a column is unknown *)
Fixpoint apply (u : update) (rows : list BillingRow) : option (list BillingRow * Z) :=
  match rows with
  | [] =>
      (* the names are checked even when the table is empty *)
      let blank := {| Merchant_Code := ""; User_Code := ""; Billing_FLG := "";
                      Settlement_FLG := ""; Error_Comment := "" |} in
      match eval_condition blank (condition u), assign blank (assignments u) with
      | Some _, Some _ => Some ([], 0)
      | _, _ => None
      end
  | r :: rows' =>
      match eval_condition r (condition u), assign r (assignments u), apply u rows' with
      | Some hit, Some r', Some (out, n) =>
          if hit then Some (r' :: out, if row_eqb r r' then n else n + 1)
          else Some (r :: out, n)
      | _, _, _ => None
      end
  end.

(** [cursor.execute(query)] on [TBL_USER_PAYMENT] *)
Definition run (query : string) (rows : list BillingRow) : option (list BillingRow * Z) :=
  match lex Normal query with
  | Some ts =>
      match parse ts with
      | Some u =>
          if String.eqb (table u) "TBL_USER_PAYMENT" then apply u rows else None
      | None => None
      end
  | None => None
  end.

Definition execute (query : string) (rows : list BillingRow) : option (list BillingRow) :=
  option_map fst (run query rows).

End MySQL.

(** ** The history table, and a server for both tables

    [TBL_DEBITHISTORY] is a list of rows, each the columns named by the
    statement that wrote it with the values stored.  The table's
    declaration is not in the repository: its columns are taken to be the
    twelve that [insert_debit_history] names, without types, keys or
    defaults, so a value is stored as the statement writes it.

    [Server.execute] runs a statement on the two tables.  An UPDATE goes to
    [MySQL.run].  An
    [INSERT INTO t (c, ...) VALUES (v, ...)], with or without a closing
    semicolon, is read into tokens (blanks, bare words, single-quoted
    literals with their two escapes, parentheses, commas, the minus sign and
    the semicolon) and adds one row when the table and the columns are known,
    no column is named twice, and there are as many values as columns.  A
    value is a quoted literal, an integer with or without a minus sign, or
    one of the words TRUE, FALSE and NULL in any case.  Any other bare word
    would name a column, and [None], which is what an f-string prints for
    Python's [None], names none: the statement is refused.  Decimal and
    floating literals and compound expressions are outside this fragment and
    refused as well. *)

Inductive sql_value : Type :=
| SqlInt (z : Z)
| SqlText (s : string)
| SqlNull.

Definition HistoryRow : Type := list (string * sql_value).

Record Tables : Type := {
  user_payment : list BillingRow;     (* TBL_USER_PAYMENT *)
  debit_history : list HistoryRow     (* TBL_DEBITHISTORY *)
}.

Module Server.

Inductive token : Type :=
| TWord (s : string)
| TString (s : string)
| TOpen
| TClose
| TComma
| TMinus
| TSemicolon.

Inductive mode : Type :=
| Normal
| InWord (acc : string)
| InString (acc : string)
| AfterQuote (acc : string)
| AfterBackslash (acc : string).

Definition start (c : ascii) : option (list token * mode) :=
  if MySQL.is_blank c then Some ([], Normal)
  else if Ascii.eqb c "'" then Some ([], InString EmptyString)
  else if Ascii.eqb c "(" then Some ([TOpen], Normal)
  else if Ascii.eqb c ")" then Some ([TClose], Normal)
  else if Ascii.eqb c "," then Some ([TComma], Normal)
  else if Ascii.eqb c "-" then Some ([TMinus], Normal)
  else if Ascii.eqb c ";" then Some ([TSemicolon], Normal)
  else if MySQL.is_word_char c then Some ([], InWord (String c EmptyString))
  else None.

Definition emit (ts : list token) (r : option (list token)) : option (list token) :=
  option_map (app ts) r.

Fixpoint lex (m : mode) (s : string) : option (list token) :=
  match s with
  | EmptyString =>
      match m with
      | Normal => Some []
      | InWord acc => Some [TWord acc]
      | AfterQuote acc => Some [TString acc]
      | InString _ | AfterBackslash _ => None
      end
  | String c s' =>
      match m with
      | Normal =>
          match start c with
          | Some (ts, m') => emit ts (lex m' s')
          | None => None
          end
      | InWord acc =>
          if MySQL.is_word_char c then lex (InWord (MySQL.snoc acc c)) s'
          else
            match start c with
            | Some (ts, m') => emit (TWord acc :: ts) (lex m' s')
            | None => None
            end
      | InString acc =>
          if Ascii.eqb c "'" then lex (AfterQuote acc) s'
          else if Ascii.eqb c "\" then lex (AfterBackslash acc) s'
          else lex (InString (MySQL.snoc acc c)) s'
      | AfterQuote acc =>
          if Ascii.eqb c "'" then lex (InString (MySQL.snoc acc c)) s'
          else
            match start c with
            | Some (ts, m') => emit (TString acc :: ts) (lex m' s')
            | None => None
            end
      | AfterBackslash acc => lex (InString (acc ++ MySQL.unescape c)) s'
      end
  end.

Definition is_number (s : string) : bool :=
  match list_ascii_of_string s with
  | [] => false
  | l => forallb is_digit l
  end.

Definition lower (s : string) : string :=
  string_of_list_ascii (map to_lower (list_ascii_of_string s)).

(** The value of a bare word *)
Definition word_value (s : string) : option sql_value :=
  if is_number s then Some (SqlInt (digits_val (list_ascii_of_string s)))
  else if String.eqb (lower s) "true" then Some (SqlInt 1)
  else if String.eqb (lower s) "false" then Some (SqlInt 0)
  else if String.eqb (lower s) "null" then Some SqlNull
  else None.

(** [c, c, ... )]: the names and what follows the parenthesis *)
Fixpoint parse_names (ts : list token) : option (list string * list token) :=
  match ts with
  | TWord c :: TComma :: rest =>
      match parse_names rest with
      | Some (l, r) => Some (c :: l, r)
      | None => None
      end
  | TWord c :: TClose :: rest => Some ([c], rest)
  | _ => None
  end.

(** What comes after a value: a comma and more values, or the parenthesis *)
Definition after_value (v : sql_value) (sep : token) (rest : list token)
    (more : option (list sql_value * list token)) : option (list sql_value * list token) :=
  match sep with
  | TComma =>
      match more with
      | Some (l, r) => Some (v :: l, r)
      | None => None
      end
  | TClose => Some ([v], rest)
  | _ => None
  end.

(** [v, v, ... )]: the values and what follows the parenthesis *)
Fixpoint parse_values (ts : list token) : option (list sql_value * list token) :=
  match ts with
  | TString s :: sep :: rest => after_value (SqlText s) sep rest (parse_values rest)
  | TMinus :: TWord s :: sep :: rest =>
      if is_number s
      then after_value (SqlInt (- digits_val (list_ascii_of_string s))) sep rest
             (parse_values rest)
      else None
  | TWord s :: sep :: rest =>
      match word_value s with
      | Some v => after_value v sep rest (parse_values rest)
      | None => None
      end
  | _ => None
  end.

Record insert : Type := {
  into : string;
  columns : list string;
  values : list sql_value
}.

Definition parse (ts : list token) : option insert :=
  match ts with
  | TWord k1 :: TWord k2 :: TWord t :: TOpen :: rest =>
      if String.eqb k1 "INSERT" && String.eqb k2 "INTO" then
        match parse_names rest with
        | Some (cs, TWord k3 :: TOpen :: rest') =>
            if String.eqb k3 "VALUES" then
              match parse_values rest' with
              | Some (vs, []) | Some (vs, [TSemicolon]) =>
                  Some {| into := t; columns := cs; values := vs |}
              | _ => None
              end
            else None
        | _ => None
        end
      else None
  | _ => None
  end.

(** The columns of [TBL_DEBITHISTORY] that the program names *)
Definition history_columns : list string :=
  ["request_id"; "Merchant_Code"; "User_Code"; "amount"; "tax"; "ship_fee";
   "custom_code"; "next_transfer"; "transfer_type"; "transfer_count"; "status";
   "item_code"].

Definition known (names : list string) (c : string) : bool := existsb (String.eqb c) names.

Fixpoint distinct (names : list string) : bool :=
  match names with
  | [] => true
  | c :: rest => negb (known rest c) && distinct rest
  end.

(** The row an INSERT adds to [TBL_DEBITHISTORY]; [None] when the server
    refuses the statement *)
Definition new_row (i : insert) : option HistoryRow :=
  if String.eqb (into i) "TBL_DEBITHISTORY"
     && forallb (known history_columns) (columns i)
     && distinct (columns i)
     && (List.length (columns i) =? List.length (values i))%nat
  then Some (combine (columns i) (values i))
  else None.

Definition insert_row (query : string) : option HistoryRow :=
  match lex Normal query with
  | Some ts =>
      match parse ts with
      | Some i => new_row i
      | None => None
      end
  | None => None
  end.

(** [cursor.execute(query)] and [connection.commit()] on the two tables *)
Definition execute (query : string) (t : Tables) : option Tables :=
  match MySQL.run query (user_payment t) with
  | Some (rows, _) => Some {| user_payment := rows; debit_history := debit_history t |}
  | None =>
      match insert_row query with
      | Some row =>
          Some {| user_payment := user_payment t;
                  debit_history := debit_history t ++ [row] |}
      | None => None
      end
  end.

End Server.

(** * Properties of the coordinator *)

(** The database after [execution_query]: a failed statement leaves it as it was. *)
Definition db_after {DB} (mysql_execute : string -> DB -> option DB) (query : string) (d : DB) : DB :=
  match mysql_execute query d with
  | Some d' => d'
  | None => d
  end.

Definition succeeds {DB} (mysql_execute : string -> DB -> option DB) (query : string) (d : DB) : bool :=
  match mysql_execute query d with
  | Some _ => true
  | None => false
  end.

(** The state after [execution_query query] *)
Definition ran {DB} (mysql_execute : string -> DB -> option DB) (query : string) (st : State DB) : State DB :=
  {| db := db_after mysql_execute query (db st); trace := trace st ++ [EvQuery query] |}.

(** [data.get(k)] on a dict *)
Definition field (d : list (string * value)) (k : string) : value :=
  match dict_lookup k d with
  | Some x => x
  | None => VNone
  end.

(** The statements of the three store operations *)
Definition history_query (w : World) (d : list (string * value)) (merchant_code user_code : value) : string :=
  insert_debit_history_text
    (py_format w (field d "request_id")) (py_format w merchant_code) (py_format w user_code)
    (py_format w (field d "amount")) (py_format w (field d "tax"))
    (py_format w (field d "ship_fee")) (py_format w (field d "custom_code"))
    (py_format w (field d "next_transfer")) (py_format w (field d "transfer_type"))
    (py_format w (field d "transfer_count")) (py_format w (field d "status"))
    (py_format w (field d "item_code")).

Definition settled_query (w : World) (merchant_code user_code : value) : string :=
  update_billing_to_settled_text (py_format w merchant_code) (py_format w user_code).

Definition error_query (w : World) (merchant_code user_code error : value) : string :=
  update_billing_error_text (py_format w merchant_code) (py_format w user_code)
    (py_format w error).

(** The event carries one record, the record parses to [msg], the request
    built from it is [req], and the provider answers [resp]. *)
Definition debit_answered (w : World) (event : value) (msg : Parsed)
    (req : DebitRequest) (resp : Response) : Prop :=
  exists record,
    py_get event "Records" (VList []) = Ok (VList [record])
    /\ parse_message w record = Ok msg
    /\ get_request_body (direct_debit_id msg) (total_amount msg) = Ok req
    /\ requests_post w req = Ok resp.

(** Two runs of one computation on two databases are compared: they must
    leave the same trace and end alike, with results related by [R] or with
    the same exception. *)
Definition same_outcome {DB1 DB2 A B} (R : A -> B -> Prop)
    (r1 : res A * State DB1) (r2 : res B * State DB2) : Prop :=
  trace (snd r1) = trace (snd r2)
  /\ match fst r1, fst r2 with
     | Ok a, Ok b => R a b
     | Raise e1, Raise e2 => e1 = e2
     | _, _ => False
     end.

Definition oblivious (DB1 DB2 : Type) {A B} (R : A -> B -> Prop)
    (m1 : M DB1 A) (m2 : M DB2 B) : Prop :=
  forall st1 st2, trace st1 = trace st2 -> same_outcome R (m1 st1) (m2 st2).

(** A text of ASCII characters only *)
Fixpoint is_ascii_text (s : string) : bool :=
  match s with
  | EmptyString => true
  | String c s' => (N_of_ascii c <? 128)%N && is_ascii_text s'
  end.

(** ** Plain decimal texts: an optional minus sign, digits, an optional
    point with digits *)

Definition frac_of (frac_digits : option (list ascii)) : list ascii :=
  match frac_digits with
  | Some fs => fs
  | None => []
  end.

Definition decimal_chars (neg : bool) (int_digits : list ascii)
    (frac_digits : option (list ascii)) : list ascii :=
  (if neg then ["-"%char] else [])
  ++ int_digits
  ++ match frac_digits with
     | Some fs => "."%char :: fs
     | None => []
     end.

Definition decimal_text (neg : bool) (int_digits : list ascii)
    (frac_digits : option (list ascii)) : string :=
  string_of_list_ascii (decimal_chars neg int_digits frac_digits).

(** The characters of a plain decimal: digits, the minus sign, the point *)
Definition is_plain (c : ascii) : bool :=
  is_digit c || Ascii.eqb c "-" || Ascii.eqb c ".".

(** ** The UPDATE statements, taken apart *)

(** No quote and no backslash: the text stays inside a literal *)
Fixpoint sql_plain (s : string) : bool :=
  match s with
  | EmptyString => true
  | String c s' => negb (Ascii.eqb c "'") && negb (Ascii.eqb c "\") && sql_plain s'
  end.

(** The fixed parts of the two UPDATE texts *)
Definition settled_head : string :=
  "UPDATE TBL_USER_PAYMENT" ++ nl ++
  "    SET `Billing_FLG` = '2', `Settlement_FLG` = '1'" ++ nl ++
  "    WHERE `Merchant_Code` = '".
Definition error_head : string :=
  "UPDATE TBL_USER_PAYMENT" ++ nl ++
  "    SET `Billing_FLG` = '2', `Settlement_FLG` = '2', `Error_Comment` = '".
Definition where_merchant : string := "'" ++ nl ++ "    WHERE `Merchant_Code` = '".
Definition and_user : string := "'" ++ nl ++ "      AND `User_Code` = '".
Definition and_pending : string := "'" ++ nl ++ "      AND `Billing_FLG` = '1'".

(** The statements they denote *)
Definition guard (merchant_code user_code : string) : list (list MySQL.comparison) :=
  [[(MySQL.Col "Merchant_Code", MySQL.Lit merchant_code);
    (MySQL.Col "User_Code", MySQL.Lit user_code);
    (MySQL.Col "Billing_FLG", MySQL.Lit "1")]].

Definition settled_update (merchant_code user_code : string) : MySQL.update :=
  {| MySQL.table := "TBL_USER_PAYMENT";
     MySQL.assignments := [("Billing_FLG", "2"); ("Settlement_FLG", "1")];
     MySQL.condition := guard merchant_code user_code |}.

Definition error_update (merchant_code user_code error : string) : MySQL.update :=
  {| MySQL.table := "TBL_USER_PAYMENT";
     MySQL.assignments :=
       [("Billing_FLG", "2"); ("Settlement_FLG", "2"); ("Error_Comment", error)];
     MySQL.condition := guard merchant_code user_code |}.

(** ** The INSERT statement, taken apart *)

(** The fixed parts of the text: its head up to the first quote, what stands
    between two values (after a quoted or a bare one, before a quoted or a
    bare one), and its tail from the last quote on *)
Definition history_head : string :=
  nl ++ "    INSERT INTO TBL_DEBITHISTORY (" ++
  nl ++ "        request_id, Merchant_Code, User_Code, amount, tax, ship_fee," ++
  nl ++ "        custom_code, next_transfer, transfer_type, transfer_count, status, item_code" ++
  nl ++ "    ) VALUES (" ++
  nl ++ "        '".
Definition quote_to_quote : string := "'," ++ nl ++ "        '".
Definition quote_to_bare : string := "'," ++ nl ++ "        ".
Definition bare_to_bare : string := "," ++ nl ++ "        ".
Definition bare_to_quote : string := "," ++ nl ++ "        '".
Definition history_tail : string := "'" ++ nl ++ "    );" ++ nl ++ "    ".

(** The tokens of an integer as an f-string prints it *)
Definition int_tokens (z : Z) : list Server.token :=
  (if z <? 0 then [Server.TMinus] else []) ++ [Server.TWord (str_of_int (Z.abs z))].

(** The row [insert_debit_history] writes for the answer [d]: there is one
    when the four values that go bare into the statement are integers and
    the eight that go between quotes print without quote or backslash. *)
Definition history_row (w : World) (d : list (string * value))
    (merchant_code user_code : value) : option HistoryRow :=
  let text k := py_format w (field d k) in
  match field d "amount", field d "tax", field d "ship_fee", field d "transfer_count" with
  | VInt amount, VInt tax, VInt ship_fee, VInt transfer_count =>
      if forallb sql_plain
           [text "request_id"; py_format w merchant_code; py_format w user_code;
            text "custom_code"; text "next_transfer"; text "transfer_type";
            text "status"; text "item_code"]
      then Some [("request_id", SqlText (text "request_id"));
                 ("Merchant_Code", SqlText (py_format w merchant_code));
                 ("User_Code", SqlText (py_format w user_code));
                 ("amount", SqlInt amount);
                 ("tax", SqlInt tax);
                 ("ship_fee", SqlInt ship_fee);
                 ("custom_code", SqlText (text "custom_code"));
                 ("next_transfer", SqlText (text "next_transfer"));
                 ("transfer_type", SqlText (text "transfer_type"));
                 ("transfer_count", SqlInt transfer_count);
                 ("status", SqlText (text "status"));
                 ("item_code", SqlText (text "item_code"))]
      else None
  | _, _, _, _ => None
  end.

(** ** Concrete messages, answers and tables *)

Module Scenario.

Definition dq : string := String (ascii_of_nat 34) EmptyString.

(** ["k":"v"] *)
Definition pair (k v : string) : string := dq ++ k ++ dq ++ ":" ++ dq ++ v ++ dq.

(** The text of a message with the five fields *)
Definition payload (billing_id merchant_code user_code direct_debit_id amount : string) : string :=
  "{" ++ pair "billing_id" billing_id ++ "," ++ pair "merchant_code" merchant_code ++ ","
  ++ pair "user_code" user_code ++ "," ++ pair "direct_debit_id" direct_debit_id ++ ","
  ++ pair "amount" amount ++ "}".

(** and the object [json.loads] makes of it *)
Definition message (billing_id merchant_code user_code direct_debit_id amount : string) : value :=
  VDict [("billing_id", VStr billing_id); ("merchant_code", VStr merchant_code);
         ("user_code", VStr user_code); ("direct_debit_id", VStr direct_debit_id);
         ("amount", VStr amount)].

(** A world that knows one message text and gives one answer to a post *)
Definition world (text : string) (decoded : value) (answer : res Response) : World :=
  {| json_loads := fun s => if String.eqb s text then Some decoded else None;
     json_loads_error := fun _ => JSONDecodeError;
     requests_post := fun _ => answer;
     py_repr := fun _ => "<repr>" |}.

Definition sqs_event (text : string) : value :=
  VDict [("Records", VList [VDict [("body", VStr text)]])].

(** The end-to-end message of the specification *)
Definition text1 : string := payload "b1" "m1" "u1" "42" "500.00".
Definition message1 : value := message "b1" "m1" "u1" "42" "500.00".
Definition parsed1 : Parsed :=
  {| message_data := message1; billing_id := VStr "b1"; merchant_code := VStr "m1";
     user_code := VStr "u1"; direct_debit_id := VStr "42"; total_amount := "500" |}.
Definition request1 : DebitRequest :=
  {| customer_id := 42; amount := 500; tax := 0; ship_fee := 0; transfer_type := 1;
     status := 1 |}.

Definition answer_settled : Response :=
  {| ok := true; json := Some (VDict [("status", VInt 1); ("request_id", VStr "r1")]) |}.
Definition answer_disabled : Response :=
  {| ok := true; json := Some (VDict [("status", VInt 2)]) |}.
Definition answer_rejected : Response :=
  {| ok := false; json := Some (VDict [("err", VDict [("ec", VStr "E001")])]) |}.
Definition answer_no_code : Response :=
  {| ok := false; json := Some (VDict [("message", VStr "Bad Gateway")]) |}.

Definition row (merchant_code user_code billing settlement comment : string) : BillingRow :=
  {| Merchant_Code := merchant_code; User_Code := user_code; Billing_FLG := billing;
     Settlement_FLG := settlement; Error_Comment := comment |}.

Definition pending1 : list BillingRow := [row "m1" "u1" "1" "" ""].

Definition start (rows : list BillingRow) : State (list BillingRow) :=
  {| db := rows; trace := [] |}.

(** A table whose records are all finished, and a user code with quotes in it *)
Definition quoted_user : string := "u2' OR 'a' = 'b".
Definition finished2 : list BillingRow :=
  [row "m1" quoted_user "2" "1" ""; row "m1" "u2" "2" "1" ""].

(** A finished record beside a pending one of another merchant *)
Definition mixed2 : list BillingRow :=
  [row "m1" "u1" "2" "1" ""; row "m2" "u1" "1" "" ""].

(** Amounts: a decimal, an integer beyond 2^53, and a word *)
Definition text_decimal : string := payload "b1" "m1" "u1" "42" "1000.99".
Definition message_decimal : value := message "b1" "m1" "u1" "42" "1000.99".
Definition text_big : string := payload "b1" "m1" "u1" "42" "9007199254740993".
Definition message_big : value := message "b1" "m1" "u1" "42" "9007199254740993".
Definition text_word : string := payload "b1" "m1" "u1" "42" "invalid_amount".
Definition message_word : value := message "b1" "m1" "u1" "42" "invalid_amount".

Definition record_of (text : string) : value := VDict [("body", VStr text)].

(** A world in which the provider is never reached *)
Definition offline (text : string) (decoded : value) : World :=
  world text decoded (Raise RequestException).

(** A message whose first field is null and whose second is absent *)
Definition text_null : string := "{" ++ dq ++ "billing_id" ++ dq ++ ":null}".
Definition message_null : value := VDict [("billing_id", VNone)].

(** Answers that carry every field of the history row, with a status and
    without one *)
Definition history_fields : list (string * value) :=
  [("request_id", VStr "r1"); ("amount", VInt 500); ("tax", VInt 0); ("ship_fee", VInt 0);
   ("custom_code", VStr "c1"); ("next_transfer", VStr "20240401");
   ("transfer_type", VInt 1); ("transfer_count", VInt 1); ("item_code", VStr "i1")].
Definition answer_complete (status : Z) : Response :=
  {| ok := true; json := Some (VDict (("status", VInt status) :: history_fields)) |}.
Definition answer_without_status : Response :=
  {| ok := true; json := Some (VDict history_fields) |}.

(** The two tables: one pending record, no history yet *)
Definition tables1 : Tables :=
  {| user_payment := pending1; debit_history := [] |}.

(** The history statements for the two answers of the specification's
    examples, [{"status": 1, "request_id": "r1"}] and [{"status": 2}] *)
Definition history_text_settled : string :=
  insert_debit_history_text "r1" "m1" "u1" "None" "None" "None" "None" "None" "None"
    "None" "1" "None".
Definition history_text_disabled : string :=
  insert_debit_history_text "None" "m1" "u1" "None" "None" "None" "None" "None" "None"
    "None" "2" "None".

(** The history row of the complete answers *)
Definition history_row1 (status : string) : HistoryRow :=
  [("request_id", SqlText "r1"); ("Merchant_Code", SqlText "m1");
   ("User_Code", SqlText "u1"); ("amount", SqlInt 500); ("tax", SqlInt 0);
   ("ship_fee", SqlInt 0); ("custom_code", SqlText "c1");
   ("next_transfer", SqlText "20240401"); ("transfer_type", SqlText "1");
   ("transfer_count", SqlInt 1); ("status", SqlText status); ("item_code", SqlText "i1")].

End Scenario.

(** ** What the two UPDATE statements do to a row *)

(** The rows the WHERE clause of both statements selects *)
Definition pending_for (merchant_code user_code : string) (r : BillingRow) : bool :=
  String.eqb (Merchant_Code r) merchant_code
  && String.eqb (User_Code r) user_code
  && String.eqb (Billing_FLG r) BILLING_FLAG_PENDING.

(** The SET clause of [update_billing_to_settled] *)
Definition settled_row (r : BillingRow) : BillingRow :=
  {| Merchant_Code := Merchant_Code r; User_Code := User_Code r;
     Billing_FLG := BILLING_FLAG_FINISHED; Settlement_FLG := SETTLEMENT_SUCCESS;
     Error_Comment := Error_Comment r |}.

(** The SET clause of [update_billing_error] *)
Definition failed_row (error : string) (r : BillingRow) : BillingRow :=
  {| Merchant_Code := Merchant_Code r; User_Code := User_Code r;
     Billing_FLG := BILLING_FLAG_FINISHED; Settlement_FLG := SETTLEMENT_FAILURE;
     Error_Comment := error |}.

(** A table with the selected rows rewritten *)
Definition rewrite_rows (hit : BillingRow -> bool) (f : BillingRow -> BillingRow)
    (rows : list BillingRow) : list BillingRow :=
  map (fun r => if hit r then f r else r) rows.

Definition count_rows (hit : BillingRow -> bool) (rows : list BillingRow) : Z :=
  Z.of_nat (List.length (filter hit rows)).

(** ** The cached connection

    [get_mysql_connection] and [execution_query] once more, with the calls
    to the driver made explicit.  A connection object is known by a number;
    what the driver answers, and whether a connection is open, depends on a
    state [Net] of the network and the server that the program does not see.
    Opening and closing the cursor are taken not to raise. *)

Module Connection.

Definition connection : Type := nat.

Inductive driver_call : Type :=
| Connect                                       (* [pymysql.connect(...)] *)
| Execute (c : connection) (query : string)     (* [cursor.execute(query)] *)
| Commit (c : connection).                      (* [connection.commit()] *)

Record Driver (Net : Type) : Type := {
  (** [connection.open] *)
  is_open : connection -> Net -> bool;
  connect : Net -> res connection * Net;
  execute : connection -> string -> Net -> res unit * Net;
  commit : connection -> Net -> res unit * Net
}.
Arguments is_open {Net} d c n.
Arguments connect {Net} d n.
Arguments execute {Net} d c query n.
Arguments commit {Net} d c n.

(** The process: the global [_mysql_connection], the state of the outside,
    and the calls made to the driver so far *)
Record Process (Net : Type) : Type := {
  net : Net;
  _mysql_connection : option connection;
  driver_calls : list driver_call
}.
Arguments net {Net} p.
Arguments _mysql_connection {Net} p.
Arguments driver_calls {Net} p.

Section WithDriver.

Context {Net : Type}.
Variable drv : Driver Net.

#[local] Open Scope M_scope.

(** A call to the driver, recorded *)
Definition call_driver {A} (ev : driver_call) (f : Net -> res A * Net) : M (Process Net) A :=
  fun st =>
    let p := db st in
    let (r, n) := f (net p) in
    (r, {| db := {| net := n; _mysql_connection := _mysql_connection p;
                    driver_calls := driver_calls p ++ [ev] |};
           trace := trace st |}).

Definition get_process : M (Process Net) (Process Net) := fun st => (Ok (db st), st).

(** [_mysql_connection = c] *)
Definition set_mysql_connection (c : connection) : M (Process Net) unit :=
  fun st =>
    (Ok tt, {| db := {| net := net (db st); _mysql_connection := Some c;
                        driver_calls := driver_calls (db st) |};
               trace := trace st |}).

Definition get_mysql_connection : M (Process Net) connection :=
  p <- get_process ;;
  let cached_and_open :=
    match _mysql_connection p with
    | Some c => if is_open drv c (net p) then Some c else None
    | None => None
    end in
  match cached_and_open with
  | Some c => ret c
  | None =>
      c <- call_driver Connect (connect drv) ;;
      set_mysql_connection c ;;
      ret c
  end.

Definition execution_query (query : string) : M (Process Net) bool :=
  try_catch
    (connection <- get_mysql_connection ;;
     call_driver (Execute connection query) (execute drv connection query) ;;
     call_driver (Commit connection) (commit drv connection) ;;
     ret true)
    (fun e => ret false).

End WithDriver.

End Connection.

(** ** More messages, answers and drivers *)

Module Cases.

(** The message of the repository's tests: its debit id is no integer *)
Definition text_debit_word : string := Scenario.payload "bill_123" "merchant_456" "user_789" "debit_101" "1000".
Definition message_debit_word : value :=
  Scenario.message "bill_123" "merchant_456" "user_789" "debit_101" "1000".

(** Amounts: a JSON integer, a text whose float is infinite, a list *)
Definition with_amount (amount : value) : value :=
  VDict [("billing_id", VStr "b1"); ("merchant_code", VStr "m1");
         ("user_code", VStr "u1"); ("direct_debit_id", VStr "42");
         ("amount", amount)].
Definition text_amount : string := "<a message with the amount given>".

(** A decoder that reads no text: a text that opens with a digit is for it
    an integer of too many digits, one that opens with a bracket is nested
    too deeply, and any other text is not JSON. *)
Definition refusing_world : World :=
  {| json_loads := fun _ => None;
     json_loads_error :=
       fun s =>
         match s with
         | String c _ =>
             if is_digit c then ValueError ConversionError
             else if Ascii.eqb c "[" then RecursionError
             else JSONDecodeError
         | EmptyString => JSONDecodeError
         end;
     requests_post := fun _ => Raise RequestException;
     py_repr := fun _ => "<repr>" |}.

(** Answers: a page that is not JSON, a list, an object without status *)
Definition answer_page : Response := {| ok := false; json := None |}.
Definition answer_list : Response := {| ok := true; json := Some (VList []) |}.
Definition answer_no_status : Response :=
  {| ok := true; json := Some (VDict [("request_id", VStr "r1")]) |}.

(** A driver whose network state is the number of connections made: it
    connects unless told to refuse, keeps every connection open, and
    executes and commits without error. *)
Definition driver (refuse : bool) : Connection.Driver nat :=
  {| Connection.is_open := fun _ _ => true;
     Connection.connect :=
       fun n => if refuse then (Raise RequestException, n) else (Ok (S n), S n);
     Connection.execute := fun _ _ n => (Ok tt, n);
     Connection.commit := fun _ n => (Ok tt, n) |}.

Definition fresh : State (Connection.Process nat) :=
  {| db := {| Connection.net := 0%nat; Connection._mysql_connection := None;
              Connection.driver_calls := [] |};
     trace := [] |}.

End Cases.

Section CoordinatorFacts.

Context {DB : Type}.
Variable w : World.
Variable mysql_execute : string -> DB -> option DB.

Lemma execution_query_eq (query : string) (st : State DB) :
  execution_query mysql_execute query st
  = (Ok (succeeds mysql_execute query (db st)), ran mysql_execute query st).
Proof.
  unfold execution_query, succeeds, ran, db_after.
  destruct (mysql_execute query (db st)); reflexivity.
Qed.

Lemma insert_debit_history_eq d merchant_code user_code (st : State DB) :
  insert_debit_history w mysql_execute (VDict d) merchant_code user_code st
  = (Ok tt, ran mysql_execute (history_query w d merchant_code user_code) st).
Proof.
  unfold insert_debit_history, bind, lift, try_catch; cbn.
  rewrite execution_query_eq; reflexivity.
Qed.

Lemma update_billing_to_settled_eq merchant_code user_code (st : State DB) :
  update_billing_to_settled w mysql_execute merchant_code user_code st
  = (Ok tt, ran mysql_execute (settled_query w merchant_code user_code) st).
Proof.
  unfold update_billing_to_settled, bind. rewrite execution_query_eq; reflexivity.
Qed.

Lemma update_billing_error_eq merchant_code user_code error (st : State DB) :
  update_billing_error w mysql_execute merchant_code user_code error st
  = (Ok tt, ran mysql_execute (error_query w merchant_code user_code error) st).
Proof.
  unfold update_billing_error, bind. rewrite execution_query_eq; reflexivity.
Qed.

Lemma send_request_debit_eq req (st : State DB) :
  send_request_debit w req st
  = (requests_post w req, {| db := db st; trace := trace st ++ [EvPost req] |}).
Proof.
  unfold send_request_debit, try_catch, bind, log, lift, raise.
  destruct (requests_post w req); reflexivity.
Qed.

(** With one record delivered, the handler is the [try] block around
    [process_record]. *)
Lemma lambda_handler_single event record (st : State DB) :
  py_get event "Records" (VList []) = Ok (VList [record]) ->
  lambda_handler w mysql_execute event st
  = try_catch (process_record w mysql_execute record 0 1)
      (fun _ => ret ERROR_CODE_REQUEST) st.
Proof.
  intros H. unfold lambda_handler, bind, lift. rewrite H. reflexivity.
Qed.

(** The [try] block up to the provider's answer *)
Lemma process_record_answered record msg req resp success_count num_records (st : State DB) :
  parse_message w record = Ok msg ->
  get_request_body (direct_debit_id msg) (total_amount msg) = Ok req ->
  requests_post w req = Ok resp ->
  process_record w mysql_execute record success_count num_records st
  = (let merchant_code := merchant_code msg in
     let user_code := user_code msg in
     response_json <- lift (response_json resp) ;;
     (if negb (ok resp) then
        err <- lift (py_getitem response_json "err") ;;
        ec <- lift (py_getitem err "ec") ;;
        update_billing_error w mysql_execute merchant_code user_code ec ;;
        raise_for_status resp
      else ret tt) ;;
     insert_debit_history w mysql_execute response_json merchant_code user_code ;;
     status <- lift (py_getitem response_json "status") ;;
     (if py_eq_int status SUCCESS_FLAG then
        update_billing_to_settled w mysql_execute merchant_code user_code
      else
        update_billing_error w mysql_execute merchant_code user_code (VStr "error") ;;
        raise (ValueError StatusIsDisabled)) ;;
     log (EvSleep 1) ;;
     ret (success_response (success_count + 1) num_records))%M
      {| db := db st; trace := trace st ++ [EvPost req] |}.
Proof.
  intros Hp Hb Hr. unfold process_record.
  unfold bind at 1. unfold lift at 1. rewrite Hp.
  unfold bind at 1. unfold lift at 1. rewrite Hb.
  unfold bind at 1. rewrite send_request_debit_eq, Hr. reflexivity.
Qed.

End CoordinatorFacts.

(** ** Reading a run backwards *)

Lemma bind_Ok_inv {DB A B} (m : M DB A) (k : A -> M DB B) st b st' :
  bind m k st = (Ok b, st') ->
  exists a st1, m st = (Ok a, st1) /\ k a st1 = (Ok b, st').
Proof.
  unfold bind. destruct (m st) as [[a|e] st1]; intros H.
  - exists a, st1. auto.
  - discriminate.
Qed.

Lemma process_record_Ok {DB} w (mysql_execute : string -> DB -> option DB)
    record success_count num_records st r st' :
  process_record w mysql_execute record success_count num_records st = (Ok r, st') ->
  r = success_response (success_count + 1) num_records.
Proof.
  unfold process_record. intros H.
  repeat (apply bind_Ok_inv in H; destruct H as (? & ? & _ & H)).
  unfold ret in H. congruence.
Qed.

(** A failed parse ends the handler at once. *)
Lemma lambda_handler_parse_failure {DB} (w : World) (engine : string -> DB -> option DB)
    event record e (st : State DB) :
  py_get event "Records" (VList []) = Ok (VList [record]) ->
  parse_message w record = Raise e ->
  lambda_handler w engine event st = (Ok ERROR_CODE_REQUEST, st).
Proof.
  intros Hrec Hparse.
  rewrite (lambda_handler_single _ _ _ _ _ Hrec).
  unfold try_catch, process_record, bind, lift. rewrite Hparse. reflexivity.
Qed.

#[local] Arguments insert_debit_history : simpl never.
#[local] Arguments update_billing_to_settled : simpl never.

(** The run on an ok answer whose [status] equals 1 *)
Lemma lambda_handler_settled {DB} (w : World) (engine : string -> DB -> option DB)
    event msg req resp d s (st : State DB) :
  debit_answered w event msg req resp ->
  ok resp = true ->
  json resp = Some (VDict d) ->
  dict_lookup "status" d = Some s ->
  py_eq_int s 1 = true ->
  let q1 := history_query w d (merchant_code msg) (user_code msg) in
  let q2 := settled_query w (merchant_code msg) (user_code msg) in
  lambda_handler w engine event st
  = (Ok {| statusCode := 200;
           body := "successed success_count / num_records = 1 / 1" |},
     {| db := db_after engine q2 (db_after engine q1 (db st));
        trace := trace st ++ [EvPost req; EvQuery q1; EvQuery q2; EvSleep 1] |}).
Proof.
  intros (record & Hrec & Hp & Hb & Hr) Hok Hj Hs H1 q1 q2.
  rewrite (lambda_handler_single _ _ _ _ _ Hrec). unfold try_catch.
  rewrite (process_record_answered _ _ _ _ _ _ _ _ _ Hp Hb Hr).
  unfold bind, lift, response_json. rewrite Hj, Hok. cbn.
  rewrite insert_debit_history_eq. rewrite Hs. unfold SUCCESS_FLAG. rewrite H1.
  rewrite update_billing_to_settled_eq.
  unfold ran, ret, log; cbn. repeat rewrite <- app_assoc. reflexivity.
Qed.

Section Outcomes.

Context {DB : Type}.
Variable w : World.
Variable mysql_execute : string -> DB -> option DB.

#[local] Arguments insert_debit_history : simpl never.
#[local] Arguments update_billing_error : simpl never.
#[local] Arguments update_billing_to_settled : simpl never.

(** C7. When [parse_message] raises, whatever the exception, the handler
    returns [ERROR_CODE_REQUEST] and the state is the one it started from:
    nothing was posted, no statement was sent, the database is unchanged. *)
Theorem parser_failure_has_no_effect :
  forall (event record : value) (e : exn) (st : State DB),
    py_get event "Records" (VList []) = Ok (VList [record]) ->
    parse_message w record = Raise e ->
    lambda_handler w mysql_execute event st = (Ok ERROR_CODE_REQUEST, st).
Proof.
  intros event record e st Hrec Hparse.
  exact (lambda_handler_parse_failure w mysql_execute event record e st Hrec Hparse).
Qed.

(** C2. When the provider's answer is not ok and its body holds
    [err.ec = ec], the handler sends, after the post, exactly one statement,
    the one of [update_billing_error] for the message's merchant and user
    codes with [ec]; no history statement is sent, and the response is
    [ERROR_CODE_REQUEST]. *)
Theorem provider_rejection_marks_failed_once :
  forall (event : value) (msg : Parsed) (req : DebitRequest) (resp : Response)
         (body err ec : value) (st : State DB),
    debit_answered w event msg req resp ->
    ok resp = false ->
    json resp = Some body ->
    py_getitem body "err" = Ok err ->
    py_getitem err "ec" = Ok ec ->
    let q := error_query w (merchant_code msg) (user_code msg) ec in
    lambda_handler w mysql_execute event st
    = (Ok ERROR_CODE_REQUEST,
       {| db := db_after mysql_execute q (db st);
          trace := trace st ++ [EvPost req; EvQuery q] |}).
Proof.
  intros event msg req resp body err ec st (record & Hrec & Hp & Hb & Hr) Hok Hj He Hc q.
  rewrite (lambda_handler_single _ _ _ _ _ Hrec). unfold try_catch.
  rewrite (process_record_answered _ _ _ _ _ _ _ _ _ Hp Hb Hr).
  unfold bind, lift, response_json, raise_for_status. rewrite Hj, Hok. cbn.
  rewrite He, Hc, update_billing_error_eq. cbn.
  unfold ran, ret; cbn. rewrite <- app_assoc. reflexivity.
Qed.

(** An ok answer whose [status] is present and differs from 1: the history
    statement, then the statement of [update_billing_error] with the marker
    ["error"], and [ERROR_CODE_REQUEST]. *)
Lemma lambda_handler_disabled :
  forall (event : value) (msg : Parsed) (req : DebitRequest) (resp : Response)
         (d : list (string * value)) (s : value) (st : State DB),
    debit_answered w event msg req resp ->
    ok resp = true ->
    json resp = Some (VDict d) ->
    dict_lookup "status" d = Some s ->
    py_eq_int s 1 = false ->
    let q1 := history_query w d (merchant_code msg) (user_code msg) in
    let q2 := error_query w (merchant_code msg) (user_code msg) (VStr "error") in
    lambda_handler w mysql_execute event st
    = (Ok ERROR_CODE_REQUEST,
       {| db := db_after mysql_execute q2 (db_after mysql_execute q1 (db st));
          trace := trace st ++ [EvPost req; EvQuery q1; EvQuery q2] |}).
Proof.
  intros event msg req resp d s st (record & Hrec & Hp & Hb & Hr) Hok Hj Hs H1 q1 q2.
  rewrite (lambda_handler_single _ _ _ _ _ Hrec). unfold try_catch.
  rewrite (process_record_answered _ _ _ _ _ _ _ _ _ Hp Hb Hr).
  unfold bind, lift, response_json. rewrite Hj, Hok. cbn.
  rewrite insert_debit_history_eq. rewrite Hs. unfold SUCCESS_FLAG. rewrite H1.
  rewrite update_billing_error_eq.
  unfold ran, ret, raise; cbn. repeat rewrite <- app_assoc. reflexivity.
Qed.

(** C10. When the provider's answer is not ok and its body is an object
    without the key [err], or with an [err] object without the key [ec], the
    lookup raises before any statement is sent: the trace grows by the post
    alone, the database is unchanged, and the response is
    [ERROR_CODE_REQUEST]. *)
Theorem missing_error_code_leaves_record_pending :
  forall (event : value) (msg : Parsed) (req : DebitRequest) (resp : Response)
         (d : list (string * value)) (st : State DB),
    debit_answered w event msg req resp ->
    ok resp = false ->
    json resp = Some (VDict d) ->
    (dict_lookup "err" d = None
     \/ exists d', dict_lookup "err" d = Some (VDict d') /\ dict_lookup "ec" d' = None) ->
    lambda_handler w mysql_execute event st
    = (Ok ERROR_CODE_REQUEST, {| db := db st; trace := trace st ++ [EvPost req] |}).
Proof.
  intros event msg req resp d st (record & Hrec & Hp & Hb & Hr) Hok Hj Herr.
  rewrite (lambda_handler_single _ _ _ _ _ Hrec). unfold try_catch.
  rewrite (process_record_answered _ _ _ _ _ _ _ _ _ Hp Hb Hr).
  unfold bind, lift, response_json. rewrite Hj, Hok. cbn.
  destruct Herr as [He | (d' & He & Hc)]; rewrite He; cbn.
  - reflexivity.
  - rewrite Hc. reflexivity.
Qed.

End Outcomes.

(** ** The entry point *)

Section EntryPoint.

Context {DB : Type}.
Variable w : World.
Variable mysql_execute : string -> DB -> option DB.

(** C8, as the code has it.  For an event whose [Records] is a list: when the
    list has exactly one element the handler returns a response, either
    status 500 with the request-failure message or status 200 with the
    success message, and raises nothing; when the list has any other length
    (an event without [Records] has the empty one) the [assert] fails and
    [AssertionError] leaves the handler, before any effect. *)
Theorem handler_returns_or_asserts :
  forall (event : value) (records : list value) (st : State DB),
    py_get event "Records" (VList []) = Ok (VList records) ->
    (List.length records = 1%nat ->
     exists r st',
       lambda_handler w mysql_execute event st = (Ok r, st')
       /\ (r = ERROR_CODE_REQUEST
           \/ r = {| statusCode := 200;
                     body := "successed success_count / num_records = 1 / 1" |}))
    /\ (List.length records <> 1%nat ->
        lambda_handler w mysql_execute event st = (Raise AssertionError, st)).
Proof.
  intros event records st Hrec. split.
  - intros Hlen.
    destruct records as [|record [|]]; try discriminate.
    rewrite (lambda_handler_single _ _ _ _ _ Hrec). unfold try_catch.
    destruct (process_record w mysql_execute record 0 1 st) as [[r|e] st'] eqn:E.
    + exists r, st'. split; [reflexivity|]. right.
      apply process_record_Ok in E. subst r. reflexivity.
    + exists ERROR_CODE_REQUEST, st'. split; [reflexivity|]. left. reflexivity.
  - intros Hlen. unfold lambda_handler, bind, lift. rewrite Hrec. cbn [py_len].
    destruct (Z.eqb_spec (Z.of_nat (List.length records)) 1) as [E|E].
    + exfalso. apply Hlen. lia.
    + reflexivity.
Qed.

End EntryPoint.

(** ** Isolation of storage failures *)

Section Isolation.

Context {DB1 DB2 : Type}.
Variable w : World.
Variable engine1 : string -> DB1 -> option DB1.
Variable engine2 : string -> DB2 -> option DB2.

Lemma oblivious_ret {A B} (R : A -> B -> Prop) a b :
  R a b -> oblivious DB1 DB2 R (ret a) (ret b).
Proof. intros H st1 st2 Ht. split; assumption. Qed.

Lemma oblivious_raise {A B} (R : A -> B -> Prop) e :
  oblivious DB1 DB2 R (raise e) (raise e).
Proof. intros st1 st2 Ht. split; [assumption | reflexivity]. Qed.

Lemma oblivious_lift {A} (r : res A) : oblivious DB1 DB2 eq (lift r) (lift r).
Proof. intros st1 st2 Ht. split; [assumption | destruct r; reflexivity]. Qed.

Lemma oblivious_log ev : oblivious DB1 DB2 eq (log ev) (log ev).
Proof. intros st1 st2 Ht. split; cbn; [congruence | reflexivity]. Qed.

Lemma oblivious_bind {A1 A2 B1 B2} (R : A1 -> A2 -> Prop) (S : B1 -> B2 -> Prop)
    (m1 : M DB1 A1) (m2 : M DB2 A2) (k1 : A1 -> M DB1 B1) (k2 : A2 -> M DB2 B2) :
  oblivious DB1 DB2 R m1 m2 ->
  (forall a1 a2, R a1 a2 -> oblivious DB1 DB2 S (k1 a1) (k2 a2)) ->
  oblivious DB1 DB2 S (bind m1 k1) (bind m2 k2).
Proof.
  intros Hm Hk st1 st2 Ht. unfold bind.
  destruct (Hm st1 st2 Ht) as [Htr Hres].
  destruct (m1 st1) as [[a1|e1] s1], (m2 st2) as [[a2|e2] s2]; cbn in *;
    try contradiction.
  - apply Hk; assumption.
  - split; assumption.
Qed.

Lemma oblivious_try_catch {A B} (R : A -> B -> Prop)
    (m1 : M DB1 A) (m2 : M DB2 B) (h1 : exn -> M DB1 A) (h2 : exn -> M DB2 B) :
  oblivious DB1 DB2 R m1 m2 ->
  (forall e, oblivious DB1 DB2 R (h1 e) (h2 e)) ->
  oblivious DB1 DB2 R (try_catch m1 h1) (try_catch m2 h2).
Proof.
  intros Hm Hh st1 st2 Ht. unfold try_catch.
  destruct (Hm st1 st2 Ht) as [Htr Hres].
  destruct (m1 st1) as [[a1|e1] s1], (m2 st2) as [[a2|e2] s2]; cbn in *;
    try contradiction.
  - split; assumption.
  - subst e2. apply Hh; assumption.
Qed.

(** The flag may differ between the two runs; nothing else does. *)
Lemma oblivious_execution_query query :
  oblivious DB1 DB2 (fun _ _ => True) (execution_query engine1 query) (execution_query engine2 query).
Proof.
  intros st1 st2 Ht. rewrite !execution_query_eq. split; cbn; [congruence | exact I].
Qed.

Lemma oblivious_update_billing_error merchant_code user_code error :
  oblivious DB1 DB2 eq (update_billing_error w engine1 merchant_code user_code error)
    (update_billing_error w engine2 merchant_code user_code error).
Proof.
  unfold update_billing_error.
  eapply oblivious_bind; [apply oblivious_execution_query|].
  intros; apply oblivious_ret; reflexivity.
Qed.

Lemma oblivious_update_billing_to_settled merchant_code user_code :
  oblivious DB1 DB2 eq (update_billing_to_settled w engine1 merchant_code user_code)
    (update_billing_to_settled w engine2 merchant_code user_code).
Proof.
  unfold update_billing_to_settled.
  eapply oblivious_bind; [apply oblivious_execution_query|].
  intros; apply oblivious_ret; reflexivity.
Qed.

Ltac step_lift :=
  eapply oblivious_bind; [apply oblivious_lift | intros ? ? <-].

Lemma oblivious_insert_debit_history data merchant_code user_code :
  oblivious DB1 DB2 eq (insert_debit_history w engine1 data merchant_code user_code)
    (insert_debit_history w engine2 data merchant_code user_code).
Proof.
  unfold insert_debit_history.
  do 10 step_lift.
  apply oblivious_try_catch; [|intros; apply oblivious_raise].
  eapply oblivious_bind; [apply oblivious_execution_query|].
  intros; apply oblivious_ret; reflexivity.
Qed.

Lemma oblivious_send_request_debit req :
  oblivious DB1 DB2 eq (send_request_debit (DB:=DB1) w req) (send_request_debit (DB:=DB2) w req).
Proof.
  unfold send_request_debit.
  apply oblivious_try_catch; [|intros; apply oblivious_raise].
  eapply oblivious_bind; [apply oblivious_log|].
  intros; apply oblivious_lift.
Qed.

Lemma oblivious_process_record record success_count num_records :
  oblivious DB1 DB2 eq (process_record w engine1 record success_count num_records)
    (process_record w engine2 record success_count num_records).
Proof.
  unfold process_record.
  do 2 step_lift.
  eapply oblivious_bind; [apply oblivious_send_request_debit | intros response ? <-].
  step_lift.
  eapply oblivious_bind with (R := eq).
  { destruct (negb (ok response)).
    - do 2 step_lift.
      eapply oblivious_bind; [apply oblivious_update_billing_error | intros ? ? <-].
      unfold raise_for_status. destruct (ok response).
      + apply oblivious_ret; reflexivity.
      + apply oblivious_raise.
    - apply oblivious_ret; reflexivity. }
  intros ? ? <-.
  eapply oblivious_bind; [apply oblivious_insert_debit_history | intros ? ? <-].
  step_lift.
  eapply oblivious_bind with (R := eq).
  { match goal with |- context [py_eq_int ?s ?n] => destruct (py_eq_int s n) end.
    - apply oblivious_update_billing_to_settled.
    - eapply oblivious_bind; [apply oblivious_update_billing_error | intros ? ? <-].
      apply oblivious_raise. }
  intros ? ? <-.
  eapply oblivious_bind; [apply oblivious_log | intros ? ? <-].
  apply oblivious_ret; reflexivity.
Qed.

Lemma oblivious_lambda_handler event :
  oblivious DB1 DB2 eq (lambda_handler w engine1 event) (lambda_handler w engine2 event).
Proof.
  unfold lambda_handler.
  do 2 step_lift.
  eapply oblivious_bind with (R := eq).
  { match goal with |- context [Z.eqb ?a ?b] => destruct (Z.eqb a b) end.
    - apply oblivious_ret; reflexivity.
    - apply oblivious_raise. }
  intros ? ? <-.
  step_lift.
  apply oblivious_try_catch.
  - apply oblivious_process_record.
  - intros; apply oblivious_ret; reflexivity.
Qed.

End Isolation.

(** C1. [execution_query] never raises: it returns a flag, false exactly when
    the engine failed, and a failed statement leaves the database as it was;
    the two updates and, on an object, the history insert return normally
    whatever the engine did.  For every event the handler's result (the
    response, or the exception that leaves it) and the sequence of posts and
    statements it issues are the same whatever the engine does with the
    statements, so the same as with an engine on which every write
    succeeds.  In particular, when the history insert fails on an ok answer
    whose [status] equals 1, the statement of [update_billing_to_settled] is
    still sent and the success response is returned. *)
Theorem storage_failure_is_isolated :
  forall (w : World) (event : value) (calls : list call),
    (forall DB (engine : string -> DB -> option DB) (query : string) (rows : DB),
        exists flag : bool,
          execution_query engine query {| db := rows; trace := calls |}
          = (Ok flag,
             {| db := (if flag then db_after engine query rows else rows);
                trace := calls ++ [EvQuery query] |})
          /\ (flag = false <-> engine query rows = None))
    /\ (forall DB (engine : string -> DB -> option DB) (st : State DB)
               (d : list (string * value)) (merchant_code user_code error : value),
           fst (insert_debit_history w engine (VDict d) merchant_code user_code st) = Ok tt
           /\ fst (update_billing_to_settled w engine merchant_code user_code st) = Ok tt
           /\ fst (update_billing_error w engine merchant_code user_code error st) = Ok tt)
    /\ (forall DB1 DB2 (engine1 : string -> DB1 -> option DB1)
               (engine2 : string -> DB2 -> option DB2) (rows1 : DB1) (rows2 : DB2),
           let r1 := lambda_handler w engine1 event {| db := rows1; trace := calls |} in
           let r2 := lambda_handler w engine2 event {| db := rows2; trace := calls |} in
           fst r1 = fst r2 /\ trace (snd r1) = trace (snd r2))
    /\ (forall DB (engine : string -> DB -> option DB) (rows : DB)
               (msg : Parsed) (req : DebitRequest) (resp : Response)
               (d : list (string * value)) (s : value),
           debit_answered w event msg req resp ->
           ok resp = true ->
           json resp = Some (VDict d) ->
           dict_lookup "status" d = Some s ->
           py_eq_int s 1 = true ->
           let q1 := history_query w d (merchant_code msg) (user_code msg) in
           let q2 := settled_query w (merchant_code msg) (user_code msg) in
           engine q1 rows = None ->
           exists st',
             lambda_handler w engine event {| db := rows; trace := calls |}
             = (Ok {| statusCode := 200;
                      body := "successed success_count / num_records = 1 / 1" |}, st')
             /\ trace st' = (calls ++ [EvPost req; EvQuery q1; EvQuery q2; EvSleep 1])%list).
Proof.
  intros w event calls. split; [|split; [|split]].
  - intros DB engine query rows. rewrite execution_query_eq.
    unfold succeeds, ran, db_after; cbn.
    destruct (engine query rows) as [rows'|].
    + exists true. split; [reflexivity|]. split; discriminate.
    + exists false. split; [reflexivity|]. split; reflexivity.
  - intros DB engine st d merchant_code user_code error.
    rewrite insert_debit_history_eq, update_billing_to_settled_eq, update_billing_error_eq.
    repeat split.
  - intros DB1 DB2 engine1 engine2 rows1 rows2 r1 r2.
    destruct (oblivious_lambda_handler w engine1 engine2 event
                {| db := rows1; trace := calls |} {| db := rows2; trace := calls |} eq_refl)
      as [Htr Hres].
    fold r1 r2 in Htr, Hres. split; [|exact Htr].
    destruct (fst r1), (fst r2); try contradiction; congruence.
  - intros DB engine rows msg req resp d s Hans Hok Hj Hs H1 q1 q2 _.
    eexists. split.
    + exact (lambda_handler_settled w engine event msg req resp d s _ Hans Hok Hj Hs H1).
    + reflexivity.
Qed.

Lemma storage_failure_is_isolated_witness :
  exists st',
    lambda_handler (Scenario.world Scenario.text1 Scenario.message1 (Ok Scenario.answer_settled))
      (fun (_ : string) (_ : list BillingRow) => None)
      (Scenario.sqs_event Scenario.text1) (Scenario.start Scenario.pending1)
    = (Ok {| statusCode := 200; body := "successed success_count / num_records = 1 / 1" |}, st')
    /\ trace st'
       = [EvPost Scenario.request1;
          EvQuery (history_query
                     (Scenario.world Scenario.text1 Scenario.message1 (Ok Scenario.answer_settled))
                     [("status", VInt 1); ("request_id", VStr "r1")] (VStr "m1") (VStr "u1"));
          EvQuery (update_billing_to_settled_text "m1" "u1");
          EvSleep 1].
Proof.
  apply (proj2 (proj2 (proj2 (storage_failure_is_isolated
           (Scenario.world Scenario.text1 Scenario.message1 (Ok Scenario.answer_settled))
           (Scenario.sqs_event Scenario.text1) []))))
    with (resp := Scenario.answer_settled) (s := VInt 1) (msg := Scenario.parsed1).
  - exists (VDict [("body", VStr Scenario.text1)]). repeat split; vm_compute; reflexivity.
  - reflexivity.
  - reflexivity.
  - reflexivity.
  - reflexivity.
  - reflexivity.
Defined.

(** ** The required fields *)

Section RequiredFields.

Variable w : World.

(** A required field that is present and not null lets the loop go on. *)
Lemma check_required_skip d fields rest :
  Forall (fun g => exists v, dict_lookup g d = Some v /\ v <> VNone) fields ->
  check_required (VDict d) (fields ++ rest)%list = check_required (VDict d) rest.
Proof.
  induction 1 as [|g fields (v & Hg & Hv) _ IH]; [reflexivity|].
  cbn. rewrite Hg. cbn. destruct v; try contradiction; exact IH.
Qed.

#[local] Arguments check_required : simpl never.

Lemma parse_message_object record text d :
  py_get record "body" (VStr "") = Ok (VStr text) ->
  json_loads w text = Some (VDict d) ->
  forall e, check_required (VDict d) required_fields = Raise e ->
            parse_message w record = Raise e.
Proof.
  intros Hb Hj e He. unfold parse_message. rewrite Hb. cbn. rewrite Hj. cbn.
  rewrite He. reflexivity.
Qed.

(** C6, as the code has it.  For a payload that decodes to an object, the
    loop reports the first required field, in the order [billing_id],
    [merchant_code], [user_code], [direct_debit_id], [amount], that is absent
    or null: with the fields before it present and not null, an absent field
    gives the missing-field error naming it, and a null one the null-field
    error naming it. *)
Theorem first_defective_field_is_reported :
  forall (record : value) (text : string) (d : list (string * value))
         (before after : list string) (field : string),
    py_get record "body" (VStr "") = Ok (VStr text) ->
    json_loads w text = Some (VDict d) ->
    required_fields = (before ++ field :: after)%list ->
    Forall (fun g => exists v, dict_lookup g d = Some v /\ v <> VNone) before ->
    (dict_lookup field d = None ->
     parse_message w record = Raise (ValueError (MissingRequiredField field)))
    /\ (dict_lookup field d = Some VNone ->
        parse_message w record = Raise (ValueError (FieldCannotBeNull field))).
Proof.
  intros record text d before after field Hb Hj Hsplit Hbefore.
  split; intros Hf; apply (parse_message_object _ _ _ Hb Hj);
    rewrite Hsplit, check_required_skip by assumption;
    unfold check_required; cbn; rewrite Hf; reflexivity.
Qed.

End RequiredFields.

(** C6 as stated fails: in [{"billing_id": null}] the field [merchant_code]
    is absent, and the error is the null-field error of [billing_id], not
    the missing-field error naming [merchant_code]. *)
Lemma absent_field_hidden_by_earlier_null :
  ~ (forall (w : World) (record : value) (text : string)
            (d : list (string * value)) (field : string),
        py_get record "body" (VStr "") = Ok (VStr text) ->
        json_loads w text = Some (VDict d) ->
        In field required_fields ->
        dict_lookup field d = None ->
        parse_message w record = Raise (ValueError (MissingRequiredField field))).
Proof.
  intros H.
  specialize (H (Scenario.world Scenario.text_null Scenario.message_null (Raise RequestException))
                (VDict [("body", VStr Scenario.text_null)]) Scenario.text_null
                [("billing_id", VNone)] "merchant_code").
  assert (E : parse_message
                (Scenario.world Scenario.text_null Scenario.message_null (Raise RequestException))
                (VDict [("body", VStr Scenario.text_null)])
              = Raise (ValueError (FieldCannotBeNull "billing_id")))
    by (vm_compute; reflexivity).
  rewrite E in H.
  assert (C : @Raise Parsed (ValueError (FieldCannotBeNull "billing_id"))
              = Raise (ValueError (MissingRequiredField "merchant_code"))).
  { apply H.
    - reflexivity.
    - vm_compute; reflexivity.
    - cbn; auto.
    - reflexivity. }
  discriminate C.
Qed.

Lemma first_defective_field_is_reported_witness :
  parse_message
    (Scenario.world Scenario.text_null Scenario.message_null (Raise RequestException))
    (VDict [("body", VStr Scenario.text_null)])
  = Raise (ValueError (FieldCannotBeNull "billing_id")).
Proof.
  refine (proj2 (first_defective_field_is_reported
                   (Scenario.world Scenario.text_null Scenario.message_null
                      (Raise RequestException))
                   (VDict [("body", VStr Scenario.text_null)]) Scenario.text_null
                   [("billing_id", VNone)] []
                   ["merchant_code"; "user_code"; "direct_debit_id"; "amount"]
                   "billing_id" _ _ _ _) _).
  - reflexivity.
  - vm_compute; reflexivity.
  - reflexivity.
  - constructor.
  - reflexivity.
Defined.

(** ** The scenarios of the specification, run on the table *)

Lemma debit_answered_scenario (answer : Response) :
  debit_answered (Scenario.world Scenario.text1 Scenario.message1 (Ok answer))
    (Scenario.sqs_event Scenario.text1) Scenario.parsed1 Scenario.request1 answer.
Proof.
  exists (VDict [("body", VStr Scenario.text1)]).
  repeat split; vm_compute; reflexivity.
Qed.

Lemma parser_failure_has_no_effect_witness :
  lambda_handler
    (Scenario.world Scenario.text_null Scenario.message_null (Raise RequestException))
    MySQL.execute (Scenario.sqs_event Scenario.text_null) (Scenario.start Scenario.pending1)
  = (Ok ERROR_CODE_REQUEST, Scenario.start Scenario.pending1).
Proof.
  apply (parser_failure_has_no_effect _ _ _
           (VDict [("body", VStr Scenario.text_null)])
           (ValueError (FieldCannotBeNull "billing_id"))).
  - reflexivity.
  - vm_compute; reflexivity.
Defined.

Lemma provider_rejection_marks_failed_once_witness :
  lambda_handler (Scenario.world Scenario.text1 Scenario.message1 (Ok Scenario.answer_rejected))
    MySQL.execute (Scenario.sqs_event Scenario.text1) (Scenario.start Scenario.pending1)
  = (Ok ERROR_CODE_REQUEST,
     {| db := [Scenario.row "m1" "u1" "2" "2" "E001"];
        trace := [EvPost Scenario.request1;
                  EvQuery (update_billing_error_text "m1" "u1" "E001")] |}).
Proof.
  rewrite (provider_rejection_marks_failed_once _ MySQL.execute _ _ _ _
             (VDict [("err", VDict [("ec", VStr "E001")])])
             (VDict [("ec", VStr "E001")]) (VStr "E001")
             (Scenario.start Scenario.pending1)
             (debit_answered_scenario Scenario.answer_rejected)
             eq_refl eq_refl eq_refl eq_refl).
  vm_compute; reflexivity.
Defined.

Lemma missing_error_code_leaves_record_pending_witness :
  lambda_handler (Scenario.world Scenario.text1 Scenario.message1 (Ok Scenario.answer_no_code))
    MySQL.execute (Scenario.sqs_event Scenario.text1) (Scenario.start Scenario.pending1)
  = (Ok ERROR_CODE_REQUEST,
     {| db := Scenario.pending1; trace := [EvPost Scenario.request1] |}).
Proof.
  apply (missing_error_code_leaves_record_pending _ MySQL.execute _ _ _ _
           [("message", VStr "Bad Gateway")] (Scenario.start Scenario.pending1)
           (debit_answered_scenario Scenario.answer_no_code) eq_refl eq_refl).
  left. reflexivity.
Defined.

Lemma handler_returns_or_asserts_witness :
  (exists r st',
      lambda_handler
        (Scenario.world Scenario.text1 Scenario.message1 (Ok Scenario.answer_settled))
        MySQL.execute (Scenario.sqs_event Scenario.text1) (Scenario.start Scenario.pending1)
      = (Ok r, st')
      /\ (r = ERROR_CODE_REQUEST
          \/ r = {| statusCode := 200;
                    body := "successed success_count / num_records = 1 / 1" |}))
  /\ lambda_handler
       (Scenario.world Scenario.text1 Scenario.message1 (Ok Scenario.answer_settled))
       MySQL.execute (VDict []) (Scenario.start Scenario.pending1)
     = (Raise AssertionError, Scenario.start Scenario.pending1).
Proof.
  split.
  - apply (proj1 (handler_returns_or_asserts _ MySQL.execute
                    (Scenario.sqs_event Scenario.text1)
                    [VDict [("body", VStr Scenario.text1)]]
                    (Scenario.start Scenario.pending1) eq_refl)).
    reflexivity.
  - apply (proj2 (handler_returns_or_asserts _ MySQL.execute (VDict []) []
                    (Scenario.start Scenario.pending1) eq_refl)).
    discriminate.
Defined.

(** C8 as stated fails: an event without records makes the [assert] fail,
    and the exception leaves the handler. *)
Lemma assertion_error_escapes :
  fst (lambda_handler
         (Scenario.world Scenario.text1 Scenario.message1 (Ok Scenario.answer_settled))
         MySQL.execute (VDict [("Records", VList [])]) (Scenario.start Scenario.pending1))
  = Raise AssertionError.
Proof. vm_compute; reflexivity. Qed.

(** ** The amount

    Rounding to binary64 and truncating gives back the integer part of a
    quotient whose numerator is below 2^53. *)

#[local] Close Scope string_scope.

Lemma rne_div_bounds (p q : Z) :
  0 <= p -> 0 < q ->
  p / q <= rne_div p q /\ 2 * q * rne_div p q <= 2 * p + q.
Proof.
  intros Hp Hq. unfold rne_div.
  pose proof (Z.div_mod p q ltac:(lia)) as E.
  pose proof (Z.mod_pos_bound p q Hq) as B.
  destruct (2 * (p mod q) <? q) eqn:C1; [apply Z.ltb_lt in C1; split; nia|].
  apply Z.ltb_ge in C1.
  destruct (q <? 2 * (p mod q)) eqn:C2; [apply Z.ltb_lt in C2; split; nia|].
  apply Z.ltb_ge in C2.
  destruct (Z.even (p / q)); split; nia.
Qed.

Lemma log2_ratio_lower (p q : Z) :
  0 < p -> 0 < q ->
  let k := log2_ratio p q in
  q * 2 ^ Z.max 0 k <= p * 2 ^ Z.max 0 (- k).
Proof.
  intros Hp Hq. unfold log2_ratio.
  set (d := Z.log2 p - Z.log2 q).
  destruct (q * 2 ^ Z.max 0 d <=? p * 2 ^ Z.max 0 (- d)) eqn:T; cbv zeta.
  - apply Z.leb_le in T. exact T.
  - clear T.
    destruct (Z.log2_spec p Hp) as [Lp _], (Z.log2_spec q Hq) as [_ Uq].
    pose proof (Z.log2_nonneg p). pose proof (Z.log2_nonneg q).
    destruct (Z.le_gt_cases 1 d) as [Hd|Hd].
    + rewrite (Z.max_r 0 (d - 1)), (Z.max_l 0 (- (d - 1))) by lia.
      rewrite Z.pow_0_r, Z.mul_1_r.
      apply Z.le_trans with (2 ^ Z.log2 p); [|exact Lp].
      replace (Z.log2 p) with (Z.succ (Z.log2 q) + (d - 1)) by (unfold d; lia).
      rewrite Z.pow_add_r by lia.
      apply Z.mul_le_mono_nonneg_r; [apply Z.pow_nonneg|]; lia.
    + rewrite (Z.max_l 0 (d - 1)), (Z.max_r 0 (- (d - 1))) by lia.
      rewrite Z.pow_0_r, Z.mul_1_r.
      apply Z.le_trans with (2 ^ Z.succ (Z.log2 q)); [lia|].
      replace (Z.succ (Z.log2 q)) with (Z.log2 p + - (d - 1)) by (unfold d; lia).
      rewrite Z.pow_add_r by lia.
      apply Z.mul_le_mono_nonneg_r; [apply Z.pow_nonneg|]; lia.
Qed.

Lemma log2_ratio_upper (p q : Z) :
  0 < p -> 0 < q ->
  let k := log2_ratio p q in
  p * 2 ^ Z.max 0 (- (k + 1)) < q * 2 ^ Z.max 0 (k + 1).
Proof.
  intros Hp Hq. unfold log2_ratio.
  set (d := Z.log2 p - Z.log2 q).
  destruct (q * 2 ^ Z.max 0 d <=? p * 2 ^ Z.max 0 (- d)) eqn:T; cbv zeta.
  - clear T.
    destruct (Z.log2_spec p Hp) as [_ Up], (Z.log2_spec q Hq) as [Lq _].
    pose proof (Z.log2_nonneg p). pose proof (Z.log2_nonneg q).
    destruct (Z.le_gt_cases 0 (d + 1)) as [Hd|Hd].
    + rewrite (Z.max_l 0 (- (d + 1))), (Z.max_r 0 (d + 1)) by lia.
      rewrite Z.pow_0_r, Z.mul_1_r.
      apply Z.lt_le_trans with (2 ^ Z.succ (Z.log2 p)); [exact Up|].
      replace (Z.succ (Z.log2 p)) with (Z.log2 q + (d + 1)) by (unfold d; lia).
      rewrite Z.pow_add_r by lia.
      apply Z.mul_le_mono_nonneg_r; [apply Z.pow_nonneg|]; lia.
    + rewrite (Z.max_r 0 (- (d + 1))), (Z.max_l 0 (d + 1)) by lia.
      rewrite Z.pow_0_r, Z.mul_1_r.
      apply Z.lt_le_trans with (2 ^ Z.log2 q); [|exact Lq].
      replace (Z.log2 q) with (Z.succ (Z.log2 p) + - (d + 1)) by (unfold d; lia).
      rewrite Z.pow_add_r by lia.
      apply Z.mul_lt_mono_pos_r; [apply Z.pow_pos_nonneg|]; lia.
  - apply Z.leb_gt in T. replace (d - 1 + 1) with d by lia. exact T.
Qed.

(** The mantissa of a quotient below 2^53 lies between the scaled floor and
    the next one. *)
Lemma mantissa_between (p q a : Z) :
  0 < p -> 0 < q -> 0 <= a ->
  (q < 2 * 2 ^ a \/ (p < q /\ p * 2 ^ a < q * 2 ^ 52 /\ 52 < a)) ->
  let m := rne_div (p * 2 ^ a) q in
  (p / q) * 2 ^ a <= m < (p / q + 1) * 2 ^ a.
Proof.
  intros Hp Hq Ha Hcase m.
  assert (HA : 0 < 2 ^ a) by (apply Z.pow_pos_nonneg; lia).
  destruct (rne_div_bounds (p * 2 ^ a) q ltac:(nia) Hq) as [Lo Hi]. fold m in Lo, Hi.
  pose proof (Z.div_mod p q ltac:(lia)) as E.
  pose proof (Z.mod_pos_bound p q Hq) as B.
  split.
  - apply Z.le_trans with (p * 2 ^ a / q); [|exact Lo].
    apply Z.div_le_lower_bound; [lia|]. nia.
  - destruct Hcase as [Hsmall | (Hpq & Htiny & Hbig)].
    + assert (q * m < q * ((p / q + 1) * 2 ^ a)) by nia.
      apply Z.mul_lt_mono_pos_l with q; assumption.
    + rewrite (Z.div_small p q) by lia.
      assert (m <= 2 ^ 52) by nia.
      assert (2 ^ 52 < 2 ^ a) by (apply Z.pow_lt_mono_r; lia).
      lia.
Qed.

Lemma int_of_binary64_round (neg : bool) (p q : Z) :
  0 <= p < 2 ^ 53 -> 0 < q ->
  py_int_of_float (binary64_round neg p q) = Ok (signed neg (p / q)).
Proof.
  intros [Hp0 Hp] Hq. unfold binary64_round.
  destruct (Z.eqb_spec p 0) as [->|Hnz].
  { cbn. destruct neg; reflexivity. }
  assert (Hpos : 0 < p) by lia.
  pose proof (log2_ratio_lower p q Hpos Hq) as L.
  pose proof (log2_ratio_upper p q Hpos Hq) as U.
  cbv zeta in L, U.
  set (k := log2_ratio p q) in *.
  assert (Hk : k <= 52).
  { destruct (Z.le_gt_cases k 52) as [|Hk]; [assumption|exfalso].
    rewrite (Z.max_r 0 k), (Z.max_l 0 (- k)), Z.pow_0_r, Z.mul_1_r in L by lia.
    assert (2 ^ 53 <= 2 ^ k) by (apply Z.pow_le_mono_r; lia).
    nia. }
  set (e := Z.max (k - 52) (-1074)).
  assert (He : -1074 <= e <= 0) by (unfold e; lia).
  rewrite (Z.max_r 0 (- e)), (Z.max_l 0 e), Z.pow_0_r, Z.mul_1_r by lia.
  set (a := - e) in *.
  assert (Ea : a = - e) by reflexivity. clearbody a.
  assert (Hm : (p / q) * 2 ^ a <= rne_div (p * 2 ^ a) q < (p / q + 1) * 2 ^ a).
  { apply mantissa_between; try lia.
    destruct (Z.le_gt_cases (-1074) (k - 52)) as [Hn|Hc].
    - left. replace a with (52 - k) by (unfold e in Ea; lia).
      replace (2 * 2 ^ (52 - k)) with (2 ^ (53 - k))
        by (replace (53 - k) with (Z.succ (52 - k)) by lia; rewrite Z.pow_succ_r by lia; lia).
      destruct (Z.le_gt_cases 0 k) as [Hk0|Hk0].
      + rewrite (Z.max_r 0 k), (Z.max_l 0 (- k)), Z.pow_0_r, Z.mul_1_r in L by lia.
        assert (E53 : 2 ^ 53 = 2 ^ (53 - k) * 2 ^ k)
          by (rewrite <- Z.pow_add_r by lia; f_equal; lia).
        assert (0 < 2 ^ k) by (apply Z.pow_pos_nonneg; lia).
        apply Z.mul_lt_mono_pos_r with (2 ^ k); [assumption|]. lia.
      + rewrite (Z.max_l 0 k), (Z.max_r 0 (- k)), Z.pow_0_r, Z.mul_1_r in L by lia.
        assert (E53 : 2 ^ (53 - k) = 2 ^ 53 * 2 ^ (- k))
          by (rewrite <- Z.pow_add_r by lia; f_equal; lia).
        assert (0 < 2 ^ (- k)) by (apply Z.pow_pos_nonneg; lia).
        nia.
    - right. replace a with 1074 by (unfold e in Ea; lia).
      rewrite (Z.max_r 0 (- (k + 1))), (Z.max_l 0 (k + 1)), Z.pow_0_r, Z.mul_1_r in U by lia.
      assert (H1022 : 2 ^ 1022 <= 2 ^ (- (k + 1))) by (apply Z.pow_le_mono_r; lia).
      assert (E1074 : 2 ^ 1074 = 2 ^ 1022 * 2 ^ 52) by (rewrite <- Z.pow_add_r by lia; reflexivity).
      assert (0 < 2 ^ 1022) by (apply Z.pow_pos_nonneg; lia).
      assert (0 < 2 ^ 52) by (apply Z.pow_pos_nonneg; lia).
      assert (p * 2 ^ 1022 < q) by nia.
      split; [nia | split; [rewrite E1074; nia | lia]]. }
  set (m := rne_div (p * 2 ^ a) q) in *. clearbody m. clearbody e.
  assert (HA : 0 < 2 ^ a) by (apply Z.pow_pos_nonneg; lia).
  assert (Hdiv : m / 2 ^ a = p / q).
  { symmetry. apply Z.div_unique with (m - p / q * 2 ^ a); lia. }
  assert (Hnov : ((0 <=? e) && (2 ^ 1024 <=? m * 2 ^ e)) = false).
  { destruct (Z.leb_spec 0 e); [|reflexivity]. cbn.
    assert (e = 0) by lia. subst e. apply Z.leb_gt.
    assert (a = 0) by lia. subst a. rewrite Z.pow_0_r in *.
    assert (p / q <= p) by (apply Z.div_le_upper_bound; nia).
    assert (2 ^ 53 < 2 ^ 1024) by (apply Z.pow_lt_mono_r; lia). lia. }
  rewrite Hnov. cbn [py_int_of_float]. f_equal. f_equal.
  destruct (Z.leb_spec 0 e).
  - assert (e = 0) by lia. subst e. assert (a = 0) by lia. subst a.
    rewrite Z.pow_0_r in *. rewrite Z.div_1_r in Hdiv. lia.
  - rewrite <- Ea. exact Hdiv.
Qed.

(** ** The number of digits of an integer *)

Lemma little_double_digits (d : Decimal.uint) :
  (Decimal.nb_digits (Decimal.Little.double d) <= S (Decimal.nb_digits d))%nat
  /\ (Decimal.nb_digits (Decimal.Little.succ_double d) <= S (Decimal.nb_digits d))%nat.
Proof. induction d; cbn; lia. Qed.

Lemma little_uint_digits (p : positive) :
  Z.of_nat (Decimal.nb_digits (Pos.to_little_uint p)) <= Z.pos (Pos.size p).
Proof.
  induction p as [p IH|p IH|]; cbn [Pos.to_little_uint Pos.size].
  - pose proof (proj2 (little_double_digits (Pos.to_little_uint p))). lia.
  - pose proof (proj1 (little_double_digits (Pos.to_little_uint p))). lia.
  - cbn. lia.
Qed.

Lemma uint_text_length (d : Decimal.uint) :
  String.length (NilEmpty.string_of_uint d) = Decimal.nb_digits d.
Proof. induction d; cbn; congruence. Qed.

Lemma num_digits_pos (p : positive) :
  num_digits (Z.pos p) = Z.of_nat (Decimal.nb_digits (Pos.to_uint p)).
Proof.
  unfold num_digits, str_of_int. cbn [Z.abs Z.to_int].
  unfold NilZero.string_of_int, NilZero.string_of_uint.
  pose proof (DecimalPos.Unsigned.to_uint_nonnil p) as Hn.
  rewrite <- uint_text_length.
  destruct (Pos.to_uint p); [contradiction|reflexivity..].
Qed.

(** An integer has no more decimal digits than binary ones. *)
Lemma num_digits_below (z : Z) (n : Z) :
  0 < n -> Z.abs z < 2 ^ n -> num_digits z <= n.
Proof.
  intros Hn Hz.
  assert (H : forall p, Z.pos p < 2 ^ n -> num_digits (Z.pos p) <= n).
  { intros p Hp. rewrite num_digits_pos. unfold Pos.to_uint.
    rewrite DecimalFacts.nb_digits_rev.
    pose proof (little_uint_digits p) as Hd.
    pose proof (Pos.size_le p) as Hs.
    assert (Hs' : 2 ^ Z.pos (Pos.size p) <= 2 * Z.pos p).
    { rewrite <- Pos2Z.inj_pow. change (2 * Z.pos p) with (Z.pos p~0). 
      apply Pos2Z.pos_le_pos. exact Hs. }
    assert (Z.pos (Pos.size p) < n + 1); [|lia].
    apply (Z.pow_lt_mono_r_iff 2); [lia|lia|].
    rewrite Z.pow_add_r by lia. lia. }
  destruct z as [|p|p].
  - cbn. lia.
  - apply H. exact Hz.
  - unfold num_digits. cbn [Z.abs]. apply (H p). exact Hz.
Qed.

Lemma py_str_of_int_small (z : Z) :
  Z.abs z < 2 ^ 53 -> py_str_of_int z = Ok (str_of_int z).
Proof.
  intros Hz. unfold py_str_of_int.
  pose proof (num_digits_below z 53 ltac:(lia) Hz) as H.
  destruct (Z.leb_spec (num_digits z) int_max_str_digits) as [_|Hgt]; [reflexivity|].
  unfold int_max_str_digits in Hgt. lia.
Qed.

Ltac by_cases_on_ascii c :=
  destruct c as [[|] [|] [|] [|] [|] [|] [|] [|]]; cbn; intros; try reflexivity; try discriminate.

Lemma is_plain_facts c :
  is_plain c = true ->
  is_number_space c = false /\ Ascii.eqb c "_" = false.
Proof. by_cases_on_ascii c; split; reflexivity. Qed.

Lemma is_digit_facts c :
  is_digit c = true ->
  Ascii.eqb c "-" = false /\ Ascii.eqb c "+" = false /\ Ascii.eqb c "." = false
  /\ Ascii.eqb (to_lower c) "i" = false /\ Ascii.eqb (to_lower c) "n" = false.
Proof. by_cases_on_ascii c; repeat split; reflexivity. Qed.

Lemma skip_right_plain (l : list ascii) :
  forallb is_plain l = true ->
  skip_right (string_of_list_ascii l) = string_of_list_ascii l.
Proof.
  induction l as [|c l IH]; [reflexivity|]. cbn [forallb string_of_list_ascii skip_right].
  intros H. apply andb_prop in H as [Hc Hl]. rewrite (IH Hl).
  destruct (is_plain_facts c Hc) as [Hs _]. rewrite Hs.
  destruct (string_of_list_ascii l); reflexivity.
Qed.

Lemma skip_left_plain (l : list ascii) :
  forallb is_plain l = true ->
  skip_left (string_of_list_ascii l) = string_of_list_ascii l.
Proof.
  destruct l as [|c l]; [reflexivity|]. cbn [forallb string_of_list_ascii skip_left].
  intros H. apply andb_prop in H as [Hc _].
  destruct (is_plain_facts c Hc) as [Hs _]. rewrite Hs. reflexivity.
Qed.

Lemma remove_underscores_plain (l : list ascii) : forall prev,
  Ascii.eqb prev "_" = false ->
  forallb is_plain l = true ->
  remove_underscores prev l = Some l.
Proof.
  induction l as [|c l IH]; intros prev Hprev H; cbn [remove_underscores].
  - rewrite Hprev. reflexivity.
  - cbn [forallb] in H. apply andb_prop in H as [Hc Hl].
    destruct (is_plain_facts c Hc) as [_ Hu]. rewrite Hu, Hprev. cbn [andb].
    rewrite (IH c Hu Hl). reflexivity.
Qed.

Lemma span_digits_app (ds rest : list ascii) :
  forallb is_digit ds = true ->
  match rest with [] => True | c :: _ => is_digit c = false end ->
  span_digits (ds ++ rest) = (ds, rest).
Proof.
  intros Hds Hrest. induction ds as [|c ds IH]; cbn [app span_digits].
  - destruct rest as [|c rest]; [reflexivity|]. cbn. rewrite Hrest. reflexivity.
  - cbn [forallb] in Hds. apply andb_prop in Hds as [Hc Hds].
    rewrite Hc, (IH Hds). reflexivity.
Qed.

Lemma forallb_digit_plain ds :
  forallb is_digit ds = true -> forallb is_plain ds = true.
Proof.
  induction ds as [|c ds IH]; [reflexivity|]. cbn [forallb]. intros H.
  apply andb_prop in H as [Hc Hds]. unfold is_plain at 1. rewrite Hc, (IH Hds). reflexivity.
Qed.

Lemma decimal_chars_plain neg ds fs :
  forallb is_digit ds = true -> forallb is_digit (frac_of fs) = true ->
  forallb is_plain (decimal_chars neg ds fs) = true.
Proof.
  intros Hds Hfs. unfold decimal_chars. rewrite !forallb_app.
  rewrite (forallb_digit_plain ds Hds).
  destruct neg, fs as [fs|]; cbn in *; try rewrite (forallb_digit_plain fs Hfs); reflexivity.
Qed.

Lemma parse_decimal_plain ds fs :
  ds <> [] ->
  forallb is_digit ds = true -> forallb is_digit (frac_of fs) = true ->
  parse_decimal (ds ++ match fs with Some fs => "."%char :: fs | None => [] end)
  = Some (digits_val (ds ++ frac_of fs), - Z.of_nat (List.length (frac_of fs))).
Proof.
  intros Hne Hds Hfs. unfold parse_decimal.
  rewrite span_digits_app; [|assumption|destruct fs; [reflexivity|exact I]].
  destruct fs as [fs|]; cbn [frac_of] in *.
  - rewrite Ascii.eqb_refl.
    rewrite <- (app_nil_r fs) at 1. rewrite span_digits_app by (assumption || exact I).
    destruct (ds ++ fs) eqn:E; [apply app_eq_nil in E; tauto|]. reflexivity.
  - destruct (ds ++ []) eqn:E; [apply app_eq_nil in E; tauto|]. reflexivity.
Qed.

Lemma py_float_of_decimal_text neg ds fs :
  ds <> [] ->
  forallb is_digit ds = true -> forallb is_digit (frac_of fs) = true ->
  py_float_of_str (decimal_text neg ds fs)
  = Some (binary64_of_decimal neg (digits_val (ds ++ frac_of fs))
            (- Z.of_nat (List.length (frac_of fs)))).
Proof.
  intros Hne Hds Hfs. unfold py_float_of_str, skip_blanks, decimal_text.
  pose proof (decimal_chars_plain neg ds fs Hds Hfs) as Hplain.
  rewrite skip_left_plain, skip_right_plain, list_ascii_of_string_of_list_ascii by assumption.
  rewrite remove_underscores_plain by (assumption || reflexivity).
  destruct ds as [|c ds]; [contradiction|].
  cbn [forallb] in Hds. pose proof Hds as Hds'. apply andb_prop in Hds as [Hc _].
  destruct (is_digit_facts c Hc) as (Hm & Hp & _ & Hi & Hn).
  assert (Hsign : split_sign (decimal_chars neg (c :: ds) fs)
                  = (neg, (c :: ds) ++ match fs with Some fs => "."%char :: fs | None => [] end)).
  { unfold decimal_chars. destruct neg; cbn; [reflexivity|]. rewrite Hm, Hp. reflexivity. }
  rewrite Hsign.
  rewrite parse_decimal_plain by (assumption || discriminate).
  cbn [app map string_of_list_ascii String.eqb]. rewrite Hi, Hn. reflexivity.
Qed.

Lemma digit_val_range c : is_digit c = true -> 0 <= digit_val c <= 9.
Proof. by_cases_on_ascii c; unfold digit_val; cbn; lia. Qed.

Lemma digits_fold (ds : list ascii) : forall acc,
  forallb is_digit ds = true ->
  let v := fold_left (fun acc c => 10 * acc + digit_val c) ds 0 in
  fold_left (fun acc c => 10 * acc + digit_val c) ds acc
  = acc * 10 ^ Z.of_nat (List.length ds) + v
  /\ 0 <= v < 10 ^ Z.of_nat (List.length ds).
Proof.
  induction ds as [|c ds IH]; intros acc H; cbn [fold_left List.length].
  - cbn. lia.
  - cbn [forallb] in H. apply andb_prop in H as [Hc Hds].
    pose proof (digit_val_range c Hc) as Hr.
    destruct (IH (10 * acc + digit_val c) Hds) as [E1 _].
    destruct (IH (10 * 0 + digit_val c) Hds) as [E2 B].
    cbv zeta in *. rewrite E1, E2.
    rewrite Nat2Z.inj_succ, Z.pow_succ_r by lia.
    set (v := fold_left _ ds 0) in *. set (t := 10 ^ Z.of_nat (List.length ds)) in *.
    split; nia.
Qed.

Lemma digits_val_app ds fs :
  forallb is_digit ds = true -> forallb is_digit fs = true ->
  digits_val (ds ++ fs) = digits_val ds * 10 ^ Z.of_nat (List.length fs) + digits_val fs
  /\ 0 <= digits_val ds
  /\ 0 <= digits_val fs < 10 ^ Z.of_nat (List.length fs).
Proof.
  intros Hds Hfs. unfold digits_val. rewrite fold_left_app.
  destruct (digits_fold fs (fold_left (fun acc c => 10 * acc + digit_val c) ds 0) Hfs) as [E B].
  destruct (digits_fold ds 0 Hds) as [_ B'].
  cbv zeta in *. rewrite E. repeat split; lia.
Qed.

Lemma digits_val_int_part ds fs :
  forallb is_digit ds = true -> forallb is_digit fs = true ->
  digits_val (ds ++ fs) / 10 ^ Z.of_nat (List.length fs) = digits_val ds.
Proof.
  intros Hds Hfs. destruct (digits_val_app ds fs Hds Hfs) as (E & _ & B).
  symmetry. apply Z.div_unique with (digits_val fs); lia.
Qed.

Lemma int_of_binary64_of_decimal neg p n :
  0 <= p < 2 ^ 53 ->
  py_int_of_float (binary64_of_decimal neg p (- Z.of_nat n))
  = Ok (signed neg (p / 10 ^ Z.of_nat n)).
Proof.
  intros Hp. unfold binary64_of_decimal.
  destruct (Z.leb_spec 0 (- Z.of_nat n)) as [H|H].
  - assert (E : Z.of_nat n = 0) by lia. rewrite E. cbn [Z.opp].
    rewrite Z.pow_0_r, Z.mul_1_r. apply int_of_binary64_round; lia.
  - rewrite Z.opp_involutive. apply int_of_binary64_round; [assumption|].
    apply Z.pow_pos_nonneg; lia.
Qed.

(** [str(int(float(s)))] of a plain decimal below 2^53 is its integer part *)
Lemma convert_amount_decimal neg ds fs :
  ds <> [] ->
  forallb is_digit ds = true -> forallb is_digit (frac_of fs) = true ->
  digits_val (ds ++ frac_of fs) < 2 ^ 53 ->
  convert_amount (VStr (decimal_text neg ds fs)) = Ok (str_of_int (signed neg (digits_val ds))).
Proof.
  intros Hne Hds Hfs Hlt. unfold convert_amount. cbn [py_float].
  rewrite py_float_of_decimal_text by assumption. cbn [res_bind].
  destruct (digits_val_app ds (frac_of fs) Hds Hfs) as (E & B1 & B2).
  rewrite int_of_binary64_of_decimal.
  - cbn [res_bind]. rewrite digits_val_int_part by assumption.
    apply py_str_of_int_small. unfold signed. destruct neg; nia.
  - split; [|assumption]. rewrite E. nia.
Qed.

#[local] Open Scope string_scope.

(** A message that passed the loop has its five fields, none of them null. *)
Lemma check_required_Ok d fields :
  check_required (VDict d) fields = Ok tt ->
  Forall (fun g => exists v, dict_lookup g d = Some v /\ is_None v = false) fields.
Proof.
  induction fields as [|g fields IH]; intros H; [constructor|].
  cbn in H. destruct (dict_lookup g d) as [v|] eqn:E; cbn in H; [|discriminate].
  destruct (is_None v) eqn:N; [discriminate|].
  constructor; [exists v; auto | apply IH; assumption].
Qed.

Lemma py_getitem_field d k v :
  dict_lookup k d = Some v -> py_getitem (VDict d) k = Ok (field d k).
Proof. intros H. unfold py_getitem, field. rewrite H. reflexivity. Qed.

(** [parse_message] on an object that passed the loop: what is left is the
    conversion of the amount. *)
Lemma parse_message_checked (w : World) record text d raw_amount :
  py_get record "body" (VStr "") = Ok (VStr text) ->
  json_loads w text = Some (VDict d) ->
  check_required (VDict d) required_fields = Ok tt ->
  dict_lookup "amount" d = Some raw_amount ->
  parse_message w record
  = match convert_amount raw_amount with
    | Ok amount =>
        Ok {| message_data := VDict d;
              billing_id := field d "billing_id";
              merchant_code := field d "merchant_code";
              user_code := field d "user_code";
              direct_debit_id := field d "direct_debit_id";
              total_amount := amount |}
    | Raise e =>
        if is_ValueError e then Raise (ValueError (InvalidAmount raw_amount))
        else Raise e
    end.
Proof.
  intros Hb Hj Hc Ha.
  pose proof (check_required_Ok _ _ Hc) as F. unfold required_fields in F.
  repeat match goal with
         | H : Forall _ (_ :: _) |- _ => inversion H; subst; clear H
         end.
  repeat match goal with
         | H : exists _, _ /\ _ |- _ => destruct H as (? & ? & _)
         end.
  unfold parse_message. rewrite Hb. cbn [res_bind loads]. rewrite Hj.
  cbn [try_except res_bind]. rewrite Hc. cbn [res_bind].
  unfold py_getitem at 1. rewrite Ha. cbn [res_bind].
  repeat match goal with
         | H : dict_lookup _ d = Some _ |- _ => rewrite (py_getitem_field _ _ _ H); clear H
         end.
  destruct (convert_amount raw_amount) as [amount|e]; cbn [try_except res_bind].
  - reflexivity.
  - destruct (is_ValueError e); reflexivity.
Qed.

(** C5, as the code has it.  For a message with its five fields, none null:
    when the amount is a plain decimal text (an optional minus sign, digits,
    an optional point followed by digits) whose digits, read without the
    point, make an integer below 2^53, parsing succeeds and the amount is the
    integer text of the value truncated toward zero; when the amount is an
    ASCII text that [float()] rejects or reads as NaN, parsing fails with
    the invalid-amount error, and the handler returns the failure response
    with nothing posted and no statement sent. *)
Theorem amount_is_truncated_below_2_53 :
  forall (w : World) (record : value) (text : string) (d : list (string * value)),
    py_get record "body" (VStr "") = Ok (VStr text) ->
    json_loads w text = Some (VDict d) ->
    check_required (VDict d) required_fields = Ok tt ->
    (forall (neg : bool) (ds : list ascii) (fs : option (list ascii)),
        dict_lookup "amount" d = Some (VStr (decimal_text neg ds fs)) ->
        ds <> [] ->
        forallb is_digit ds = true ->
        forallb is_digit (frac_of fs) = true ->
        (digits_val (ds ++ frac_of fs) < 2 ^ 53)%Z ->
        parse_message w record
        = Ok {| message_data := VDict d;
                billing_id := field d "billing_id";
                merchant_code := field d "merchant_code";
                user_code := field d "user_code";
                direct_debit_id := field d "direct_debit_id";
                total_amount := str_of_int (signed neg (digits_val ds)) |})
    /\ (forall s : string,
           dict_lookup "amount" d = Some (VStr s) ->
           is_ascii_text s = true ->
           py_float_of_str s = None \/ py_float_of_str s = Some FNan ->
           parse_message w record = Raise (ValueError (InvalidAmount (VStr s)))
           /\ forall DB (engine : string -> DB -> option DB) (event : value) (st : State DB),
               py_get event "Records" (VList []) = Ok (VList [record]) ->
               lambda_handler w engine event st = (Ok ERROR_CODE_REQUEST, st)).
Proof.
  intros w record text d Hb Hj Hc. split.
  - intros neg ds fs Ha Hne Hds Hfs Hlt.
    rewrite (parse_message_checked _ _ _ _ _ Hb Hj Hc Ha).
    rewrite convert_amount_decimal by assumption. reflexivity.
  - intros s Ha _ Hs.
    assert (E : parse_message w record = Raise (ValueError (InvalidAmount (VStr s)))).
    { rewrite (parse_message_checked _ _ _ _ _ Hb Hj Hc Ha).
      unfold convert_amount. cbn [py_float].
      destruct Hs as [-> | ->]; reflexivity. }
    split; [exact E|].
    intros DB engine event st Hrec.
    exact (lambda_handler_parse_failure w engine event record _ st Hrec E).
Qed.

Lemma amount_is_truncated_below_2_53_witness :
  parse_message (Scenario.offline Scenario.text_decimal Scenario.message_decimal)
    (Scenario.record_of Scenario.text_decimal)
  = Ok {| message_data := Scenario.message_decimal;
          billing_id := VStr "b1"; merchant_code := VStr "m1"; user_code := VStr "u1";
          direct_debit_id := VStr "42"; total_amount := "1000" |}
  /\ parse_message (Scenario.offline Scenario.text_word Scenario.message_word)
       (Scenario.record_of Scenario.text_word)
     = Raise (ValueError (InvalidAmount (VStr "invalid_amount"))).
Proof.
  split.
  - refine (proj1 (amount_is_truncated_below_2_53
                     (Scenario.offline Scenario.text_decimal Scenario.message_decimal)
                     (Scenario.record_of Scenario.text_decimal) Scenario.text_decimal
                     [("billing_id", VStr "b1"); ("merchant_code", VStr "m1");
                      ("user_code", VStr "u1"); ("direct_debit_id", VStr "42");
                      ("amount", VStr "1000.99")] _ _ _)
                  false ["1"; "0"; "0"; "0"]%char (Some ["9"; "9"]%char) _ _ _ _ _).
    + reflexivity.
    + vm_compute; reflexivity.
    + reflexivity.
    + reflexivity.
    + discriminate.
    + reflexivity.
    + reflexivity.
    + vm_compute; reflexivity.
  - refine (proj1 (proj2 (amount_is_truncated_below_2_53
                     (Scenario.offline Scenario.text_word Scenario.message_word)
                     (Scenario.record_of Scenario.text_word) Scenario.text_word
                     [("billing_id", VStr "b1"); ("merchant_code", VStr "m1");
                      ("user_code", VStr "u1"); ("direct_debit_id", VStr "42");
                      ("amount", VStr "invalid_amount")] _ _ _)
                  "invalid_amount" _ _ _)).
    + reflexivity.
    + vm_compute; reflexivity.
    + reflexivity.
    + reflexivity.
    + reflexivity.
    + left. vm_compute; reflexivity.
Defined.

(** C5 as stated fails beyond 2^53: the integer text 9007199254740993 goes
    through the nearest binary64, which is 9007199254740992. *)
Lemma amount_beyond_2_53_is_rounded :
  exists msg,
    parse_message (Scenario.offline Scenario.text_big Scenario.message_big)
      (Scenario.record_of Scenario.text_big) = Ok msg
    /\ total_amount msg = "9007199254740992"
    /\ total_amount msg <> str_of_int 9007199254740993.
Proof.
  eexists. split; [vm_compute; reflexivity|]. cbn [total_amount].
  split; [reflexivity|]. vm_compute. discriminate.
Qed.

(** ** The guard of the UPDATE statements *)

Lemma append_assoc (a b c : string) : (a ++ b) ++ c = a ++ (b ++ c).
Proof. induction a as [|x a IH]; cbn; [reflexivity | rewrite IH; reflexivity]. Qed.

Lemma append_empty_r (a : string) : a ++ "" = a.
Proof. induction a as [|x a IH]; cbn; [reflexivity | rewrite IH; reflexivity]. Qed.

Lemma rstrip_app (a b : string) :
  rstrip b <> "" -> rstrip (a ++ b) = a ++ rstrip b /\ rstrip (a ++ b) <> "".
Proof.
  intros Hb. induction a as [|x a [IH IHne]]; [split; [reflexivity | assumption]|].
  cbn [append rstrip]. rewrite IH in *.
  destruct (a ++ rstrip b) eqn:E; [contradiction|].
  split; [reflexivity | discriminate].
Qed.

Lemma update_billing_to_settled_text_eq m u :
  update_billing_to_settled_text m u = settled_head ++ m ++ and_user ++ u ++ and_pending.
Proof.
  unfold update_billing_to_settled_text, py_strip.
  change (lstrip _) with (settled_head ++ m ++ and_user ++ u ++ and_pending ++ nl ++ "    ").
  assert (H0 : rstrip (and_pending ++ nl ++ "    ") <> "") by (vm_compute; discriminate).
  pose proof (rstrip_app u _ H0) as [E1 H1]. pose proof (rstrip_app and_user _ H1) as [E2 H2].
  pose proof (rstrip_app m _ H2) as [E3 H3]. pose proof (rstrip_app settled_head _ H3) as [E4 _].
  rewrite E4, E3, E2, E1. reflexivity.
Qed.

Lemma update_billing_error_text_eq m u e :
  update_billing_error_text m u e
  = error_head ++ e ++ where_merchant ++ m ++ and_user ++ u ++ and_pending.
Proof.
  unfold update_billing_error_text, py_strip.
  change (lstrip _)
    with (error_head ++ e ++ where_merchant ++ m ++ and_user ++ u ++ and_pending ++ nl ++ "    ").
  assert (H0 : rstrip (and_pending ++ nl ++ "    ") <> "") by (vm_compute; discriminate).
  pose proof (rstrip_app u _ H0) as [E1 H1]. pose proof (rstrip_app and_user _ H1) as [E2 H2].
  pose proof (rstrip_app m _ H2) as [E3 H3]. pose proof (rstrip_app where_merchant _ H3) as [E4 H4].
  pose proof (rstrip_app e _ H4) as [E5 H5]. pose proof (rstrip_app error_head _ H5) as [E6 _].
  rewrite E6, E5, E4, E3, E2, E1. reflexivity.
Qed.

(** A plain text is read as the body of the literal it stands in. *)
Lemma lex_literal (x : string) : forall acc rest,
  sql_plain x = true ->
  MySQL.lex (MySQL.InString acc) (x ++ rest) = MySQL.lex (MySQL.InString (acc ++ x)) rest.
Proof.
  induction x as [|c x IH]; intros acc rest H.
  - rewrite append_empty_r. reflexivity.
  - cbn [sql_plain] in H. apply andb_prop in H as [H Hx]. apply andb_prop in H as [Hq Hb].
    apply negb_true_iff in Hq, Hb.
    cbn [append MySQL.lex]. rewrite Hq, Hb, (IH _ _ Hx).
    unfold MySQL.snoc. rewrite append_assoc. reflexivity.
Qed.

Lemma lex_settled_head rest :
  MySQL.lex MySQL.Normal (settled_head ++ rest)
  = MySQL.emit
      [MySQL.TWord "UPDATE"; MySQL.TWord "TBL_USER_PAYMENT"; MySQL.TWord "SET";
       MySQL.TName "Billing_FLG"; MySQL.TEq; MySQL.TString "2"; MySQL.TComma;
       MySQL.TName "Settlement_FLG"; MySQL.TEq; MySQL.TString "1";
       MySQL.TWord "WHERE"; MySQL.TName "Merchant_Code"; MySQL.TEq]
      (MySQL.lex (MySQL.InString "") rest).
Proof. cbn. destruct (MySQL.lex (MySQL.InString "") rest); reflexivity. Qed.

Lemma lex_error_head rest :
  MySQL.lex MySQL.Normal (error_head ++ rest)
  = MySQL.emit
      [MySQL.TWord "UPDATE"; MySQL.TWord "TBL_USER_PAYMENT"; MySQL.TWord "SET";
       MySQL.TName "Billing_FLG"; MySQL.TEq; MySQL.TString "2"; MySQL.TComma;
       MySQL.TName "Settlement_FLG"; MySQL.TEq; MySQL.TString "2"; MySQL.TComma;
       MySQL.TName "Error_Comment"; MySQL.TEq]
      (MySQL.lex (MySQL.InString "") rest).
Proof. cbn. destruct (MySQL.lex (MySQL.InString "") rest); reflexivity. Qed.

Lemma lex_where_merchant e rest :
  MySQL.lex (MySQL.InString e) (where_merchant ++ rest)
  = MySQL.emit [MySQL.TString e; MySQL.TWord "WHERE"; MySQL.TName "Merchant_Code"; MySQL.TEq]
      (MySQL.lex (MySQL.InString "") rest).
Proof. cbn. destruct (MySQL.lex (MySQL.InString "") rest); reflexivity. Qed.

Lemma lex_and_user m rest :
  MySQL.lex (MySQL.InString m) (and_user ++ rest)
  = MySQL.emit [MySQL.TString m; MySQL.TWord "AND"; MySQL.TName "User_Code"; MySQL.TEq]
      (MySQL.lex (MySQL.InString "") rest).
Proof. cbn. destruct (MySQL.lex (MySQL.InString "") rest); reflexivity. Qed.

Lemma lex_and_pending u :
  MySQL.lex (MySQL.InString u) and_pending
  = Some [MySQL.TString u; MySQL.TWord "AND"; MySQL.TName "Billing_FLG"; MySQL.TEq;
          MySQL.TString "1"].
Proof. reflexivity. Qed.

Lemma parse_settled_text m u :
  sql_plain m = true -> sql_plain u = true ->
  option_map MySQL.parse (MySQL.lex MySQL.Normal (update_billing_to_settled_text m u))
  = Some (Some (settled_update m u)).
Proof.
  intros Hm Hu. rewrite update_billing_to_settled_text_eq.
  rewrite lex_settled_head, (lex_literal m) by assumption. cbn [append].
  rewrite lex_and_user, (lex_literal u) by assumption. cbn [append].
  rewrite lex_and_pending. reflexivity.
Qed.

Lemma parse_error_text m u e :
  sql_plain m = true -> sql_plain u = true -> sql_plain e = true ->
  option_map MySQL.parse (MySQL.lex MySQL.Normal (update_billing_error_text m u e))
  = Some (Some (error_update m u e)).
Proof.
  intros Hm Hu He. rewrite update_billing_error_text_eq.
  rewrite lex_error_head, (lex_literal e) by assumption. cbn [append].
  rewrite lex_where_merchant, (lex_literal m) by assumption. cbn [append].
  rewrite lex_and_user, (lex_literal u) by assumption. cbn [append].
  rewrite lex_and_pending. reflexivity.
Qed.

Lemma run_parsed query stmt rows :
  option_map MySQL.parse (MySQL.lex MySQL.Normal query) = Some (Some stmt) ->
  MySQL.table stmt = "TBL_USER_PAYMENT" ->
  MySQL.run query rows = MySQL.apply stmt rows.
Proof.
  intros H Ht. unfold MySQL.run.
  destruct (MySQL.lex MySQL.Normal query) as [ts|]; [|discriminate].
  cbn in H. injection H as ->. rewrite Ht. reflexivity.
Qed.

(** The condition of both statements on a row *)
Lemma eval_guard r m u :
  MySQL.eval_condition r (guard m u)
  = Some (String.eqb (Merchant_Code r) m
          && (String.eqb (User_Code r) u && (String.eqb (Billing_FLG r) "1" && true))
          || false).
Proof. reflexivity. Qed.

Lemma guard_misses_finished r m u :
  (Merchant_Code r = m -> User_Code r = u -> Billing_FLG r = BILLING_FLAG_FINISHED) ->
  MySQL.eval_condition r (guard m u) = Some false.
Proof.
  intros H. rewrite eval_guard. f_equal.
  destruct (String.eqb_spec (Merchant_Code r) m) as [Hm|]; [|reflexivity].
  destruct (String.eqb_spec (User_Code r) u) as [Hu|]; [|reflexivity].
  rewrite (H Hm Hu). reflexivity.
Qed.

(** A statement whose condition holds on no row changes nothing. *)
Lemma apply_without_hit stmt rows :
  (forall r, MySQL.assign r (MySQL.assignments stmt) <> None) ->
  (forall r, MySQL.eval_condition r (MySQL.condition stmt) <> None) ->
  Forall (fun r => MySQL.eval_condition r (MySQL.condition stmt) = Some false) rows ->
  MySQL.apply stmt rows = Some (rows, 0%Z).
Proof.
  intros Ha Hc H. induction H as [|r rows Hr _ IH]; cbn [MySQL.apply].
  - match goal with |- context [MySQL.eval_condition ?b _] => specialize (Hc b); specialize (Ha b) end.
    destruct (MySQL.eval_condition _ _); [|contradiction].
    destruct (MySQL.assign _ _); [reflexivity|contradiction].
  - rewrite Hr, IH. specialize (Ha r).
    destruct (MySQL.assign r _); [reflexivity|contradiction].
Qed.

Lemma finished_rows_missed m u rows :
  Forall (fun r => Merchant_Code r = m -> User_Code r = u ->
                   Billing_FLG r = BILLING_FLAG_FINISHED) rows ->
  Forall (fun r => MySQL.eval_condition r (guard m u) = Some false) rows.
Proof.
  intros H. eapply Forall_impl; [|exact H]. intros r. apply guard_misses_finished.
Qed.

Lemma run_settled_on_finished m u rows :
  sql_plain m = true -> sql_plain u = true ->
  Forall (fun r => Merchant_Code r = m -> User_Code r = u ->
                   Billing_FLG r = BILLING_FLAG_FINISHED) rows ->
  MySQL.run (update_billing_to_settled_text m u) rows = Some (rows, 0%Z).
Proof.
  intros Hm Hu H.
  rewrite (run_parsed _ _ rows (parse_settled_text m u Hm Hu) eq_refl).
  apply apply_without_hit.
  - intros r. discriminate.
  - intros r. cbn [settled_update MySQL.condition]. rewrite eval_guard. discriminate.
  - apply finished_rows_missed. assumption.
Qed.

Lemma run_error_on_finished m u e rows :
  sql_plain m = true -> sql_plain u = true -> sql_plain e = true ->
  Forall (fun r => Merchant_Code r = m -> User_Code r = u ->
                   Billing_FLG r = BILLING_FLAG_FINISHED) rows ->
  MySQL.run (update_billing_error_text m u e) rows = Some (rows, 0%Z).
Proof.
  intros Hm Hu He H.
  rewrite (run_parsed _ _ rows (parse_error_text m u e Hm Hu He) eq_refl).
  apply apply_without_hit.
  - intros r. discriminate.
  - intros r. cbn [error_update MySQL.condition]. rewrite eval_guard. discriminate.
  - apply finished_rows_missed. assumption.
Qed.

(** C9, as the code has it.  For merchant and user codes, and an error text,
    without quote or backslash, and a table in which every row with these
    merchant and user codes has [Billing_FLG = FINISHED]: each of the two
    statements runs without error and changes 0 rows, and each of the two
    operations returns normally with every row of the table as it was. *)
Theorem finished_records_are_left_alone :
  forall (w : World) (m u e : string) (rows : list BillingRow) (calls : list call),
    sql_plain m = true -> sql_plain u = true -> sql_plain e = true ->
    Forall (fun r => Merchant_Code r = m -> User_Code r = u ->
                     Billing_FLG r = BILLING_FLAG_FINISHED) rows ->
    let st := {| db := rows; trace := calls |} in
    let q1 := update_billing_to_settled_text m u in
    let q2 := update_billing_error_text m u e in
    MySQL.run q1 rows = Some (rows, 0%Z)
    /\ MySQL.run q2 rows = Some (rows, 0%Z)
    /\ update_billing_to_settled w MySQL.execute (VStr m) (VStr u) st
       = (Ok tt, {| db := rows; trace := (calls ++ [EvQuery q1])%list |})
    /\ update_billing_error w MySQL.execute (VStr m) (VStr u) (VStr e) st
       = (Ok tt, {| db := rows; trace := (calls ++ [EvQuery q2])%list |}).
Proof.
  intros w m u e rows calls Hm Hu He H. cbv zeta.
  pose proof (run_settled_on_finished m u rows Hm Hu H) as R1.
  pose proof (run_error_on_finished m u e rows Hm Hu He H) as R2.
  repeat split; try assumption.
  - rewrite update_billing_to_settled_eq. unfold ran, db_after, settled_query, MySQL.execute.
    cbn [py_format db trace]. rewrite R1. reflexivity.
  - rewrite update_billing_error_eq. unfold ran, db_after, error_query, MySQL.execute.
    cbn [py_format db trace]. rewrite R2. reflexivity.
Qed.

Lemma finished_records_are_left_alone_witness :
  MySQL.run (update_billing_to_settled_text "m1" "u1") Scenario.mixed2
  = Some (Scenario.mixed2, 0%Z)
  /\ MySQL.run (update_billing_error_text "m1" "u1" "E001") Scenario.mixed2
     = Some (Scenario.mixed2, 0%Z).
Proof.
  destruct (finished_records_are_left_alone
              (Scenario.offline Scenario.text1 Scenario.message1)
              "m1" "u1" "E001" Scenario.mixed2 [] eq_refl eq_refl eq_refl) as (H1 & H2 & _).
  - repeat constructor; cbn; intros; congruence.
  - split; [exact H1 | exact H2].
Defined.

(** C9 as stated fails for a code with a quote in it: every record of the
    table is finished, the one keyed by the codes included, and
    [update_billing_error] turns the settled record of another user into a
    failed one. *)
Lemma quoted_code_reaches_finished_record :
  Forall (fun r => Billing_FLG r = BILLING_FLAG_FINISHED) Scenario.finished2
  /\ update_billing_error (Scenario.offline Scenario.text1 Scenario.message1) MySQL.execute
       (VStr "m1") (VStr Scenario.quoted_user) (VStr "E001") (Scenario.start Scenario.finished2)
     = (Ok tt,
        {| db := [Scenario.row "m1" Scenario.quoted_user "2" "1" "";
                  Scenario.row "m1" "u2" "2" "2" "E001"];
           trace := [EvQuery (update_billing_error_text "m1" Scenario.quoted_user "E001")] |})
  /\ MySQL.run (update_billing_error_text "m1" Scenario.quoted_user "E001") Scenario.finished2
     <> Some (Scenario.finished2, 0%Z).
Proof.
  split; [repeat constructor|].
  split; [vm_compute; reflexivity|].
  vm_compute. discriminate.
Qed.

#[local] Open Scope Z_scope.

(** * Further properties of the handler *)

Section FailurePaths.

Context {DB : Type}.
Variable w : World.
Variable mysql_execute : string -> DB -> option DB.

#[local] Arguments insert_debit_history : simpl never.
#[local] Arguments update_billing_error : simpl never.
#[local] Arguments update_billing_to_settled : simpl never.

(** The history insert on a value that is not an object raises before any
    statement is made. *)
Lemma insert_debit_history_not_object data merchant_code user_code (st : State DB) :
  (forall d, data <> VDict d) ->
  insert_debit_history w mysql_execute data merchant_code user_code st
  = (Raise AttributeError, st).
Proof.
  intros H. unfold insert_debit_history, bind, lift.
  destruct data; try reflexivity. exfalso. eapply H. reflexivity.
Qed.

(** X1. When the message parses but [int(direct_debit_id)] raises, the
    request body is never built: the handler returns the failure response
    and the state is the one it started from, with nothing posted. *)
Theorem bad_debit_id_stops_before_post :
  forall (event record : value) (msg : Parsed) (e : exn) (st : State DB),
    py_get event "Records" (VList []) = Ok (VList [record]) ->
    parse_message w record = Ok msg ->
    py_int (direct_debit_id msg) = Raise e ->
    lambda_handler w mysql_execute event st = (Ok ERROR_CODE_REQUEST, st).
Proof.
  intros event record msg e st Hrec Hp Hid.
  rewrite (lambda_handler_single _ _ _ _ _ Hrec).
  unfold try_catch, process_record, bind, lift. rewrite Hp.
  unfold get_request_body. rewrite Hid. reflexivity.
Qed.

(** X2. When [requests.post] raises, the exception is passed on by
    [send_request_debit] and caught by the handler: the failure response is
    returned, the post is the only call made, and no statement is sent, so
    the billing record is left as it was. *)
Theorem transport_failure_leaves_record_untouched :
  forall (event record : value) (msg : Parsed) (req : DebitRequest) (e : exn) (st : State DB),
    py_get event "Records" (VList []) = Ok (VList [record]) ->
    parse_message w record = Ok msg ->
    get_request_body (direct_debit_id msg) (total_amount msg) = Ok req ->
    requests_post w req = Raise e ->
    lambda_handler w mysql_execute event st
    = (Ok ERROR_CODE_REQUEST, {| db := db st; trace := trace st ++ [EvPost req] |}).
Proof.
  intros event record msg req e st Hrec Hp Hb Hr.
  rewrite (lambda_handler_single _ _ _ _ _ Hrec).
  unfold try_catch, process_record.
  unfold bind at 1. unfold lift at 1. rewrite Hp.
  unfold bind at 1. unfold lift at 1. rewrite Hb.
  unfold bind at 1. rewrite send_request_debit_eq, Hr. reflexivity.
Qed.

(** X3. When the provider answers with a body that is not JSON, whatever
    the HTTP status, [response.json()] raises before the status is looked
    at: the failure response is returned and no statement is sent. *)
Theorem undecodable_answer_leaves_record_untouched :
  forall (event : value) (msg : Parsed) (req : DebitRequest) (resp : Response)
         (st : State DB),
    debit_answered w event msg req resp ->
    json resp = None ->
    lambda_handler w mysql_execute event st
    = (Ok ERROR_CODE_REQUEST, {| db := db st; trace := trace st ++ [EvPost req] |}).
Proof.
  intros event msg req resp st (record & Hrec & Hp & Hb & Hr) Hj.
  rewrite (lambda_handler_single _ _ _ _ _ Hrec). unfold try_catch.
  rewrite (process_record_answered _ _ _ _ _ _ _ _ _ Hp Hb Hr).
  unfold bind, lift, response_json. rewrite Hj. reflexivity.
Qed.

(** X4. When the answer is ok and its body is JSON but not an object, the
    history insert raises while building its text: no statement is sent and
    the failure response is returned. *)
Theorem ok_answer_without_object_sends_nothing :
  forall (event : value) (msg : Parsed) (req : DebitRequest) (resp : Response)
         (body : value) (st : State DB),
    debit_answered w event msg req resp ->
    ok resp = true ->
    json resp = Some body ->
    (forall d, body <> VDict d) ->
    lambda_handler w mysql_execute event st
    = (Ok ERROR_CODE_REQUEST, {| db := db st; trace := trace st ++ [EvPost req] |}).
Proof.
  intros event msg req resp body st (record & Hrec & Hp & Hb & Hr) Hok Hj Hbody.
  rewrite (lambda_handler_single _ _ _ _ _ Hrec). unfold try_catch.
  rewrite (process_record_answered _ _ _ _ _ _ _ _ _ Hp Hb Hr).
  unfold bind, lift, response_json. rewrite Hj, Hok. cbn.
  rewrite insert_debit_history_not_object by assumption. reflexivity.
Qed.

(** X5. When the answer is ok and its body is an object without [status],
    the history statement is sent and then the lookup of [status] raises:
    the failure response is returned and neither update of the billing
    record is sent. *)
Theorem ok_answer_without_status_records_history_only :
  forall (event : value) (msg : Parsed) (req : DebitRequest) (resp : Response)
         (d : list (string * value)) (st : State DB),
    debit_answered w event msg req resp ->
    ok resp = true ->
    json resp = Some (VDict d) ->
    dict_lookup "status" d = None ->
    let q := history_query w d (merchant_code msg) (user_code msg) in
    lambda_handler w mysql_execute event st
    = (Ok ERROR_CODE_REQUEST,
       {| db := db_after mysql_execute q (db st);
          trace := trace st ++ [EvPost req; EvQuery q] |}).
Proof.
  intros event msg req resp d st (record & Hrec & Hp & Hb & Hr) Hok Hj Hs q.
  rewrite (lambda_handler_single _ _ _ _ _ Hrec). unfold try_catch.
  rewrite (process_record_answered _ _ _ _ _ _ _ _ _ Hp Hb Hr).
  unfold bind, lift, response_json. rewrite Hj, Hok. cbn.
  rewrite insert_debit_history_eq. rewrite Hs.
  unfold ran, ret; cbn. rewrite <- app_assoc. reflexivity.
Qed.

(** The part of the [try] block after the provider's answer, case by case *)
Lemma after_answer_cases resp msg req success_count num_records (st : State DB) :
  let m :=
    (let merchant_code := merchant_code msg in
     let user_code := user_code msg in
     response_json <- lift (response_json resp) ;;
     (if negb (ok resp) then
        err <- lift (py_getitem response_json "err") ;;
        ec <- lift (py_getitem err "ec") ;;
        update_billing_error w mysql_execute merchant_code user_code ec ;;
        raise_for_status resp
      else ret tt) ;;
     insert_debit_history w mysql_execute response_json merchant_code user_code ;;
     status <- lift (py_getitem response_json "status") ;;
     (if py_eq_int status SUCCESS_FLAG then
        update_billing_to_settled w mysql_execute merchant_code user_code
      else
        update_billing_error w mysql_execute merchant_code user_code (VStr "error") ;;
        raise (ValueError StatusIsDisabled)) ;;
     log (EvSleep 1) ;;
     ret (success_response (success_count + 1) num_records))%M in
  let st0 := {| db := db st; trace := trace st ++ [EvPost req] |} in
  (exists e, m st0 = (Raise e, st0))
  \/ (exists e q, m st0 = (Raise e, ran mysql_execute q st0))
  \/ (exists e q1 q2, m st0 = (Raise e, ran mysql_execute q2 (ran mysql_execute q1 st0)))
  \/ (exists q1 q2 st2,
         st2 = ran mysql_execute q2 (ran mysql_execute q1 st0)
         /\ m st0 = (Ok (success_response (success_count + 1) num_records),
                     {| db := db st2; trace := trace st2 ++ [EvSleep 1] |})).
Proof.
  cbv zeta. unfold bind, lift, response_json.
  destruct (json resp) as [body|]; [|left; eexists; reflexivity].
  destruct (ok resp) eqn:Hok; cbn [negb].
  - cbn [ret]. destruct body as [ | | | | | |d];
      try (left; eexists; rewrite insert_debit_history_not_object by discriminate; reflexivity).
    rewrite insert_debit_history_eq.
    destruct (py_getitem (VDict d) "status") as [s|e];
      [|right; left; do 2 eexists; reflexivity].
    destruct (py_eq_int s SUCCESS_FLAG).
    + rewrite update_billing_to_settled_eq. right; right; right.
      do 3 eexists. split; reflexivity.
    + rewrite update_billing_error_eq. right; right; left.
      do 3 eexists. reflexivity.
  - destruct (py_getitem body "err") as [err|e]; [|left; eexists; reflexivity].
    destruct (py_getitem err "ec") as [ec|e]; [|left; eexists; reflexivity].
    rewrite update_billing_error_eq. unfold raise_for_status. rewrite Hok.
    right; left. do 2 eexists. reflexivity.
Qed.

(** X6. Every run of the handler on one record makes its calls in one of
    five shapes: nothing; the post alone; the post and one statement; the
    post and two statements; the post, two statements and the sleep.  The
    success response goes with the last shape and with no other, and the
    database is as it was when no statement was sent.  So there is never
    more than one post, never a statement before the post, and never more
    than two statements. *)
Theorem handler_calls_have_five_shapes :
  forall (event record : value) (st : State DB),
    py_get event "Records" (VList []) = Ok (VList [record]) ->
    exists (r : LambdaResponse) (st' : State DB) (calls : list call),
      lambda_handler w mysql_execute event st = (Ok r, st')
      /\ trace st' = (trace st ++ calls)%list
      /\ ((r = ERROR_CODE_REQUEST
           /\ ((calls = [] /\ db st' = db st)
               \/ (exists req, calls = [EvPost req] /\ db st' = db st)
               \/ (exists req q, calls = [EvPost req; EvQuery q])
               \/ (exists req q1 q2, calls = [EvPost req; EvQuery q1; EvQuery q2])))
          \/ (r = {| statusCode := 200;
                     body := "successed success_count / num_records = 1 / 1" |}
              /\ exists req q1 q2,
                  calls = [EvPost req; EvQuery q1; EvQuery q2; EvSleep 1])).
Proof.
  intros event record st Hrec.
  rewrite (lambda_handler_single _ _ _ _ _ Hrec). unfold try_catch.
  assert (Hnil : forall (s : State DB), trace s = (trace s ++ [])%list) by (intros; rewrite app_nil_r; reflexivity).
  destruct (parse_message w record) as [msg|e] eqn:Hp.
  2:{ exists ERROR_CODE_REQUEST, st, []. unfold process_record, bind, lift. rewrite Hp.
      split; [reflexivity|]. split; [apply Hnil|]. left. split; [reflexivity|]. left. auto. }
  destruct (get_request_body (direct_debit_id msg) (total_amount msg)) as [req|e] eqn:Hb.
  2:{ exists ERROR_CODE_REQUEST, st, []. unfold process_record, bind, lift. rewrite Hp, Hb.
      split; [reflexivity|]. split; [apply Hnil|]. left. split; [reflexivity|]. left. auto. }
  destruct (requests_post w req) as [resp|e] eqn:Hr.
  2:{ exists ERROR_CODE_REQUEST, {| db := db st; trace := trace st ++ [EvPost req] |}, [EvPost req].
      unfold process_record.
      unfold bind at 1. unfold lift at 1. rewrite Hp.
      unfold bind at 1. unfold lift at 1. rewrite Hb.
      unfold bind at 1. rewrite send_request_debit_eq, Hr.
      split; [reflexivity|]. split; [reflexivity|]. left. split; [reflexivity|].
      right; left. eauto. }
  rewrite (process_record_answered _ _ _ _ _ _ _ _ _ Hp Hb Hr).
  destruct (after_answer_cases resp msg req 0 1 st)
    as [(e & E) | [(e & q & E) | [(e & q1 & q2 & E) | (q1 & q2 & st2 & -> & E)]]];
    cbv zeta in E |- *; rewrite E; unfold ran; cbn [db trace ret].
  - exists ERROR_CODE_REQUEST, {| db := db st; trace := trace st ++ [EvPost req] |}, [EvPost req].
    split; [reflexivity|]. split; [reflexivity|]. left. split; [reflexivity|].
    right; left. eauto.
  - eexists ERROR_CODE_REQUEST, _, [EvPost req; EvQuery q].
    split; [reflexivity|]. split; [cbn; rewrite <- app_assoc; reflexivity|].
    left. split; [reflexivity|]. right; right; left. eauto.
  - eexists ERROR_CODE_REQUEST, _, [EvPost req; EvQuery q1; EvQuery q2].
    split; [reflexivity|]. split; [cbn; rewrite <- !app_assoc; reflexivity|].
    left. split; [reflexivity|]. right; right; right. eauto.
  - eexists _, _, [EvPost req; EvQuery q1; EvQuery q2; EvSleep 1].
    split; [reflexivity|]. split; [cbn; rewrite <- !app_assoc; reflexivity|].
    right. split; [reflexivity|]. eauto.
Qed.

End FailurePaths.

Section SuccessMeansSettled.

Context {DB : Type}.
Variable w : World.
Variable mysql_execute : string -> DB -> option DB.

#[local] Arguments insert_debit_history : simpl never.
#[local] Arguments update_billing_error : simpl never.
#[local] Arguments update_billing_to_settled : simpl never.

(** What must have happened for the [try] block to end normally *)
Lemma process_record_Ok_inv record success_count num_records (st st' : State DB) r :
  process_record w mysql_execute record success_count num_records st = (Ok r, st') ->
  exists msg req resp d s,
    parse_message w record = Ok msg
    /\ get_request_body (direct_debit_id msg) (total_amount msg) = Ok req
    /\ requests_post w req = Ok resp
    /\ ok resp = true
    /\ json resp = Some (VDict d)
    /\ dict_lookup "status" d = Some s
    /\ py_eq_int s 1 = true.
Proof.
  intros H.
  destruct (parse_message w record) as [msg|e] eqn:Hp.
  2:{ unfold process_record, bind, lift in H. rewrite Hp in H. discriminate. }
  destruct (get_request_body (direct_debit_id msg) (total_amount msg)) as [req|e] eqn:Hb.
  2:{ unfold process_record, bind, lift in H. rewrite Hp, Hb in H. discriminate. }
  destruct (requests_post w req) as [resp|e] eqn:Hr.
  2:{ unfold process_record in H.
      unfold bind at 1 in H. unfold lift at 1 in H. rewrite Hp in H.
      unfold bind at 1 in H. unfold lift at 1 in H. rewrite Hb in H.
      unfold bind at 1 in H. rewrite send_request_debit_eq, Hr in H. discriminate. }
  rewrite (process_record_answered _ _ _ _ _ _ _ _ _ Hp Hb Hr) in H.
  cbv zeta in H. unfold bind, lift, response_json in H.
  destruct (json resp) as [body|] eqn:Hj; [|discriminate].
  destruct (ok resp) eqn:Hok; cbn [negb] in H.
  - cbn [ret] in H.
    destruct body as [ | | | | | |d];
      try (rewrite insert_debit_history_not_object in H by discriminate; discriminate).
    rewrite insert_debit_history_eq in H.
    unfold py_getitem in H.
    destruct (dict_lookup "status" d) as [s|] eqn:Hs; [|discriminate].
    destruct (py_eq_int s SUCCESS_FLAG) eqn:H1.
    + exists msg, req, resp, d, s. repeat split; assumption.
    + rewrite update_billing_error_eq in H. discriminate.
  - destruct (py_getitem body "err") as [err|e]; [|discriminate].
    destruct (py_getitem err "ec") as [ec|e]; [|discriminate].
    rewrite update_billing_error_eq in H. unfold raise_for_status in H.
    rewrite Hok in H. discriminate.
Qed.

(** X7. The success response is returned only after a settlement: when the
    handler returns status 200, the event carried exactly one record that
    parsed, the provider's answer was ok with a [status] equal to 1, and the
    calls made were the post, the history statement, the statement of
    [update_billing_to_settled] and the sleep, in this order. *)
Theorem success_response_means_settled :
  forall (event : value) (r : LambdaResponse) (st st' : State DB),
    lambda_handler w mysql_execute event st = (Ok r, st') ->
    statusCode r = 200 ->
    exists msg req resp d s,
      debit_answered w event msg req resp
      /\ ok resp = true
      /\ json resp = Some (VDict d)
      /\ dict_lookup "status" d = Some s
      /\ py_eq_int s 1 = true
      /\ trace st'
         = (trace st
            ++ [EvPost req;
                EvQuery (history_query w d (merchant_code msg) (user_code msg));
                EvQuery (settled_query w (merchant_code msg) (user_code msg));
                EvSleep 1])%list.
Proof.
  intros event r st st' H H200.
  assert (Hproc : exists record,
             py_get event "Records" (VList []) = Ok (VList [record])
             /\ exists st1, process_record w mysql_execute record 0 1 st = (Ok r, st1)).
  { unfold lambda_handler in H. unfold bind at 1 in H. unfold lift at 1 in H.
    destruct (py_get event "Records" (VList [])) as [records|] eqn:Hrec; [|discriminate].
    unfold bind at 1 in H. unfold lift at 1 in H.
    destruct (py_len records) as [n|] eqn:Hlen; [|discriminate].
    unfold bind at 1 in H.
    destruct (Z.eqb_spec n 1) as [->|]; [|discriminate]. cbn [ret] in H.
    unfold bind at 1 in H. unfold lift at 1 in H.
    destruct (py_first records) as [record|] eqn:Hfirst; [|discriminate].
    unfold try_catch in H.
    destruct (process_record w mysql_execute record 0 1 st) as [[r0|e] st1] eqn:Hpr.
    2:{ unfold ret in H. injection H as <- _. discriminate. }
    injection H as -> ->.
    destruct (process_record_Ok_inv _ _ _ _ _ _ Hpr) as (msg & _ & _ & _ & _ & Hp & _).
    exists record. split; [|eauto].
    destruct records as [ | | | |s|l|d]; try discriminate.
    - destruct s as [|c s]; [discriminate|]. cbn in Hfirst. injection Hfirst as <-.
      unfold parse_message in Hp. cbn in Hp. discriminate Hp.
    - assert (Hone : List.length l = 1%nat)
        by (unfold py_len in Hlen; injection Hlen; lia).
      destruct l as [|x [|y l]]; try discriminate Hone.
      cbn in Hfirst. injection Hfirst as ->. reflexivity. }
  destruct Hproc as (record & Hrec & st1 & Hpr).
  destruct (process_record_Ok_inv _ _ _ _ _ _ Hpr) as (msg & req & resp & d & s & Hp & Hb & Hr & Hok & Hj & Hs & H1).
  exists msg, req, resp, d, s.
  assert (Hans : debit_answered w event msg req resp) by (exists record; auto).
  repeat split; try assumption.
  pose proof (lambda_handler_settled w mysql_execute event msg req resp d s st Hans Hok Hj Hs H1) as E.
  cbv zeta in E. rewrite E in H. injection H as _ <-. reflexivity.
Qed.

End SuccessMeansSettled.

(** * Further properties of the parser and of the request body *)

(** ** The text of an integer *)

Ltac eval_digit :=
  match goal with
  | |- context [digit_val ?c] =>
      let v := eval vm_compute in (digit_val c) in change (digit_val c) with v
  end.

Lemma uint_chars_digits (d : Decimal.uint) :
  forallb is_digit (list_ascii_of_string (NilEmpty.string_of_uint d)) = true.
Proof. induction d; cbn; try assumption; reflexivity. Qed.

Lemma uint_fold_acc (d : Decimal.uint) : forall acc : positive,
  fold_left (fun acc c => 10 * acc + digit_val c)
    (list_ascii_of_string (NilEmpty.string_of_uint d)) (Z.pos acc)
  = Z.pos (Pos.of_uint_acc d acc).
Proof.
  induction d; intros acc;
    cbn [NilEmpty.string_of_uint list_ascii_of_string fold_left Pos.of_uint_acc];
    try reflexivity;
    match goal with
    | |- fold_left _ _ ?a = Z.pos (Pos.of_uint_acc _ ?b) =>
        replace a with (Z.pos b) by (eval_digit; lia)
    end; apply IHd.
Qed.

Lemma uint_fold (d : Decimal.uint) :
  digits_val (list_ascii_of_string (NilEmpty.string_of_uint d)) = Z.of_N (Pos.of_uint d).
Proof.
  unfold digits_val.
  induction d; cbn [NilEmpty.string_of_uint list_ascii_of_string fold_left Pos.of_uint];
    try reflexivity;
    try (match goal with
         | |- fold_left _ _ ?a = Z.of_N (N.pos (Pos.of_uint_acc _ ?b)) =>
             replace a with (Z.pos b) by (eval_digit; lia)
         end; apply uint_fold_acc).
  replace (10 * 0 + digit_val "0") with 0 by reflexivity. exact IHd.
Qed.

(** [str(z)] is a plain decimal without point: a minus sign when [z] is
    negative, then the digits of its absolute value. *)
Lemma text_length (s : string) : List.length (list_ascii_of_string s) = String.length s.
Proof. induction s as [|c s IH]; cbn; congruence. Qed.

Lemma str_of_int_decimal (z : Z) :
  exists ds,
    str_of_int z = decimal_text (z <? 0) ds None
    /\ ds <> []
    /\ forallb is_digit ds = true
    /\ digits_val ds = Z.abs z
    /\ Z.of_nat (List.length ds) = num_digits z.
Proof.
  assert (Hlen : forall p,
             Z.of_nat (List.length
                         (list_ascii_of_string (NilEmpty.string_of_uint (Pos.to_uint p))))
             = num_digits (Z.pos p)).
  { intros p. rewrite num_digits_pos, text_length, uint_text_length. reflexivity. }
  destruct z as [|p|p].
  - exists ["0"%char]. repeat split; discriminate.
  - exists (list_ascii_of_string (NilEmpty.string_of_uint (Pos.to_uint p))).
    assert (Hn : Pos.to_uint p <> Decimal.Nil) by apply DecimalPos.Unsigned.to_uint_nonnil.
    repeat split.
    + unfold str_of_int, decimal_text, decimal_chars. cbn [Z.to_int Z.ltb Z.compare].
      rewrite app_nil_r. cbn [app]. rewrite string_of_list_ascii_of_string.
      unfold NilZero.string_of_int, NilZero.string_of_uint.
      destruct (Pos.to_uint p); [contradiction|reflexivity..].
    + destruct (Pos.to_uint p); [contradiction|discriminate..].
    + apply uint_chars_digits.
    + rewrite uint_fold, DecimalPos.Unsigned.of_to. reflexivity.
    + apply Hlen.
  - exists (list_ascii_of_string (NilEmpty.string_of_uint (Pos.to_uint p))).
    assert (Hn : Pos.to_uint p <> Decimal.Nil) by apply DecimalPos.Unsigned.to_uint_nonnil.
    repeat split.
    + unfold str_of_int, decimal_text, decimal_chars. cbn [Z.to_int Z.ltb Z.compare].
      rewrite app_nil_r. cbn [app string_of_list_ascii]. rewrite string_of_list_ascii_of_string.
      unfold NilZero.string_of_int, NilZero.string_of_uint.
      destruct (Pos.to_uint p); [contradiction|reflexivity..].
    + destruct (Pos.to_uint p); [contradiction|discriminate..].
    + apply uint_chars_digits.
    + rewrite uint_fold, DecimalPos.Unsigned.of_to. reflexivity.
    + apply Hlen.
Qed.

Lemma py_int_of_decimal_text neg ds :
  ds <> [] ->
  forallb is_digit ds = true ->
  py_int_of_str (decimal_text neg ds None)
  = if Z.of_nat (List.length ds) <=? int_max_str_digits
    then Some (signed neg (digits_val ds)) else None.
Proof.
  intros Hne Hds. unfold py_int_of_str, skip_blanks, decimal_text.
  pose proof (decimal_chars_plain neg ds None Hds eq_refl) as Hplain.
  rewrite skip_left_plain, skip_right_plain, list_ascii_of_string_of_list_ascii by assumption.
  rewrite remove_underscores_plain by (assumption || reflexivity).
  destruct ds as [|c ds]; [contradiction|].
  pose proof Hds as Hds'. cbn [forallb] in Hds. apply andb_prop in Hds as [Hc _].
  destruct (is_digit_facts c Hc) as (Hm & Hp & _).
  assert (Hsign : split_sign (decimal_chars neg (c :: ds) None) = (neg, c :: ds)).
  { unfold decimal_chars. rewrite app_nil_r.
    destruct neg; cbn; [reflexivity|]. rewrite Hm, Hp. reflexivity. }
  rewrite Hsign.
  rewrite <- (app_nil_r (c :: ds)) at 1.
  rewrite span_digits_app by (assumption || exact I). reflexivity.
Qed.

Lemma signed_abs (z : Z) : signed (z <? 0) (Z.abs z) = z.
Proof. unfold signed. destruct (Z.ltb_spec z 0); lia. Qed.

(** [int(str(z)) = z], up to the limit on the number of digits *)
Lemma py_int_of_str_of_int (z : Z) :
  py_int_of_str (str_of_int z)
  = if num_digits z <=? int_max_str_digits then Some z else None.
Proof.
  destruct (str_of_int_decimal z) as (ds & E & Hne & Hds & Hv & Hn).
  rewrite E, py_int_of_decimal_text by assumption. rewrite Hn, Hv, signed_abs. reflexivity.
Qed.

(** X8. [get_request_body] on the decimal texts of two integers of at most
    4300 digits each gives back these integers as [customer_id] and
    [amount], with [tax] and [ship_fee] 0 and [transfer_type] and [status] 1.
    When one of the two has more digits, [int()] refuses its text and
    [get_request_body] raises the [ValueError] of [int()]. *)
Theorem get_request_body_of_integer_texts :
  forall cid amt : Z,
    (num_digits cid <= int_max_str_digits ->
     num_digits amt <= int_max_str_digits ->
     get_request_body (VStr (str_of_int cid)) (str_of_int amt)
     = Ok {| customer_id := cid; amount := amt; tax := 0; ship_fee := 0;
             transfer_type := 1; status := 1 |})
    /\ (int_max_str_digits < num_digits cid \/ int_max_str_digits < num_digits amt ->
        get_request_body (VStr (str_of_int cid)) (str_of_int amt)
        = Raise (ValueError ConversionError)).
Proof.
  intros cid amt. unfold get_request_body. cbn [py_int].
  rewrite !py_int_of_str_of_int.
  destruct (Z.leb_spec (num_digits cid) int_max_str_digits) as [Hc|Hc];
    destruct (Z.leb_spec (num_digits amt) int_max_str_digits) as [Ha|Ha];
    split; intros; try reflexivity; lia.
Qed.

(** ** What a successful parse guarantees *)

(** Only an object passes the loop over the required fields. *)
Lemma check_required_object v :
  check_required v required_fields = Ok tt -> exists d, v = VDict d.
Proof.
  intros H. destruct v as [ | | | |s|l|d]; try discriminate H.
  - unfold required_fields in H. cbn [check_required py_in res_bind] in H.
    destruct (is_substring "billing_id" s); discriminate H.
  - unfold required_fields in H. cbn [check_required py_in res_bind] in H.
    destruct (existsb (is_VStr "billing_id") l); discriminate H.
  - eauto.
Qed.

(** A successful parse, read backwards *)
Lemma parse_message_Ok_inv :
  forall (w : World) (record : value) (msg : Parsed),
    parse_message w record = Ok msg ->
    exists (text : string) (d : list (string * value)) (raw : value) (f : pyfloat) (z : Z),
      py_get record "body" (VStr "") = Ok (VStr text)
      /\ json_loads w text = Some (VDict d)
      /\ Forall (fun g => exists v, dict_lookup g d = Some v /\ is_None v = false)
           required_fields
      /\ dict_lookup "amount" d = Some raw
      /\ py_float raw = Ok f
      /\ py_int_of_float f = Ok z
      /\ msg = {| message_data := VDict d;
                  billing_id := field d "billing_id";
                  merchant_code := field d "merchant_code";
                  user_code := field d "user_code";
                  direct_debit_id := field d "direct_debit_id";
                  total_amount := str_of_int z |}
      /\ num_digits z <= int_max_str_digits.
Proof.
  intros w record msg H.
  destruct (py_get record "body" (VStr "")) as [body_str|] eqn:Hb;
    [|unfold parse_message in H; rewrite Hb in H; discriminate H].
  destruct body_str as [ | | | |text| | ];
    try (unfold parse_message in H; rewrite Hb in H; discriminate H).
  destruct (json_loads w text) as [v|] eqn:Hj;
    [|unfold parse_message in H; rewrite Hb in H; cbn in H; rewrite Hj in H; cbn in H;
      destruct (is_JSONDecodeError (json_loads_error w text)); discriminate H].
  destruct (check_required v required_fields) as [[]|e] eqn:Hc.
  2:{ unfold parse_message in H. rewrite Hb in H. cbn [res_bind loads] in H.
      rewrite Hj in H. cbn [try_except res_bind] in H. rewrite Hc in H. discriminate H. }
  destruct (check_required_object v Hc) as (d & ->).
  pose proof (check_required_Ok _ _ Hc) as F.
  assert (Ha : exists raw, dict_lookup "amount" d = Some raw).
  { unfold required_fields in F.
    repeat match goal with
           | H : Forall _ (_ :: _) |- _ => inversion H; subst; clear H
           end.
    match goal with
    | H : exists v, dict_lookup "amount" d = Some v /\ _ |- _ =>
        destruct H as (raw & ? & _); exists raw; assumption
    end. }
  destruct Ha as (raw & Ha).
  rewrite (parse_message_checked w record text d raw Hb Hj Hc Ha) in H.
  unfold convert_amount in H.
  destruct (py_float raw) as [f|e] eqn:Hf; cbn [res_bind] in H.
  2:{ destruct (is_ValueError e); discriminate H. }
  destruct (py_int_of_float f) as [z|e] eqn:Hz; cbn [res_bind] in H.
  2:{ destruct (is_ValueError e); discriminate H. }
  unfold py_str_of_int in H.
  destruct (Z.leb_spec (num_digits z) int_max_str_digits) as [Hn|Hn]; [|discriminate H].
  injection H as <-.
  exists text, d, raw, f, z. repeat split; assumption.
Qed.

(** X9. Whatever [parse_message] returns comes from a JSON object that has the
    five required fields, none of them null: the object is returned as
    [message_data], the four identifying fields are returned as the object
    has them, and the amount returned is the decimal text of the integer
    [int(float(amount))].  In particular no payload that decodes to anything
    but an object is accepted. *)
Theorem parse_message_result_is_well_formed :
  forall (w : World) (record : value) (msg : Parsed),
    parse_message w record = Ok msg ->
    exists (text : string) (d : list (string * value)) (raw : value) (f : pyfloat) (z : Z),
      py_get record "body" (VStr "") = Ok (VStr text)
      /\ json_loads w text = Some (VDict d)
      /\ Forall (fun g => exists v, dict_lookup g d = Some v /\ is_None v = false)
           required_fields
      /\ dict_lookup "amount" d = Some raw
      /\ py_float raw = Ok f
      /\ py_int_of_float f = Ok z
      /\ msg = {| message_data := VDict d;
                  billing_id := field d "billing_id";
                  merchant_code := field d "merchant_code";
                  user_code := field d "user_code";
                  direct_debit_id := field d "direct_debit_id";
                  total_amount := str_of_int z |}.
Proof.
  intros w record msg H.
  destruct (parse_message_Ok_inv w record msg H)
    as (text & d & raw & f & z & H1 & H2 & H3 & H4 & H5 & H6 & H7 & _).
  exists text, d, raw, f, z. repeat split; assumption.
Qed.

(** X10. After a successful parse the request body can fail only on the
    debit id: [int()] always reads the amount the parser made, so
    [get_request_body] raises exactly what [int(direct_debit_id)] raises, and
    otherwise returns the body with that integer as [customer_id]. *)
Theorem request_body_fails_only_on_debit_id :
  forall (w : World) (record : value) (msg : Parsed),
    parse_message w record = Ok msg ->
    exists amt : Z,
      total_amount msg = str_of_int amt
      /\ (forall cid, py_int (direct_debit_id msg) = Ok cid ->
            get_request_body (direct_debit_id msg) (total_amount msg)
            = Ok {| customer_id := cid; amount := amt; tax := 0; ship_fee := 0;
                    transfer_type := 1; status := 1 |})
      /\ (forall e, py_int (direct_debit_id msg) = Raise e ->
            get_request_body (direct_debit_id msg) (total_amount msg) = Raise e).
Proof.
  intros w record msg H.
  destruct (parse_message_Ok_inv w record msg H)
    as (text & d & raw & f & z & _ & _ & _ & _ & _ & _ & -> & Hn).
  exists z. cbn [total_amount direct_debit_id].
  split; [reflexivity|]. unfold get_request_body. split.
  - intros cid Hc. rewrite Hc. cbn [res_bind py_int]. rewrite py_int_of_str_of_int.
    destruct (Z.leb_spec (num_digits z) int_max_str_digits); [reflexivity|lia].
  - intros e He. rewrite He. reflexivity.
Qed.

(** ** The body of the record *)

(** X11. When [json.loads] raises on the text of [body], a
    [JSONDecodeError] becomes the invalid-JSON [ValueError], and anything
    else it raises (the [ValueError] of an integer of too many digits, a
    [RecursionError]) passes the [except json.JSONDecodeError] clause and
    leaves [parse_message] as it is; so it is for a record without [body],
    on the empty text.  A [body] that is not a text makes [json.loads] raise
    [TypeError], which is passed on as it is; a record that is not an object
    has no [get] and fails with [AttributeError]. *)
Theorem unreadable_body_errors :
  forall (w : World) (record : value),
    (forall text,
        py_get record "body" (VStr "") = Ok (VStr text) ->
        json_loads w text = None ->
        parse_message w record
        = Raise (if is_JSONDecodeError (json_loads_error w text)
                 then ValueError InvalidJSONFormat
                 else json_loads_error w text))
    /\ (forall d,
           record = VDict d ->
           dict_lookup "body" d = None ->
           json_loads w "" = None ->
           parse_message w record
           = Raise (if is_JSONDecodeError (json_loads_error w "")
                    then ValueError InvalidJSONFormat
                    else json_loads_error w ""))
    /\ (forall v,
           py_get record "body" (VStr "") = Ok v ->
           (forall text, v <> VStr text) ->
           parse_message w record = Raise TypeError)
    /\ ((forall d, record <> VDict d) ->
        parse_message w record = Raise AttributeError).
Proof.
  intros w record. repeat split.
  - intros text Hb Hj. unfold parse_message. rewrite Hb. cbn. rewrite Hj. cbn.
    destruct (is_JSONDecodeError (json_loads_error w text)); reflexivity.
  - intros d -> Hb Hj. unfold parse_message. cbn. rewrite Hb. cbn. rewrite Hj. cbn.
    destruct (is_JSONDecodeError (json_loads_error w "")); reflexivity.
  - intros v Hb Hv. unfold parse_message. rewrite Hb.
    destruct v; try reflexivity. exfalso. eapply Hv. reflexivity.
  - intros Hr. unfold parse_message.
    destruct record; try reflexivity. exfalso. eapply Hr. reflexivity.
Qed.

(** ** Amounts that are not texts, and conversions that raise something else *)

Lemma convert_amount_int (z : Z) :
  Z.abs z < 2 ^ 53 -> convert_amount (VInt z) = Ok (str_of_int z).
Proof.
  intros Hz. unfold convert_amount. cbn [py_float].
  pose proof (int_of_binary64_round (z <? 0) (Z.abs z) 1 ltac:(lia) ltac:(lia)) as E.
  rewrite Z.div_1_r, signed_abs in E.
  destruct (binary64_round (z <? 0) (Z.abs z) 1); try discriminate E;
    cbn [res_bind]; rewrite E; cbn [res_bind]; apply py_str_of_int_small; assumption.
Qed.

(** X12. For a message with its five fields, none null, whose amount is a
    JSON integer of absolute value below 2^53, parsing succeeds and the
    amount returned is the decimal text of that integer. *)
Theorem integer_amount_is_kept :
  forall (w : World) (record : value) (text : string) (d : list (string * value)) (z : Z),
    py_get record "body" (VStr "") = Ok (VStr text) ->
    json_loads w text = Some (VDict d) ->
    check_required (VDict d) required_fields = Ok tt ->
    dict_lookup "amount" d = Some (VInt z) ->
    Z.abs z < 2 ^ 53 ->
    parse_message w record
    = Ok {| message_data := VDict d;
            billing_id := field d "billing_id";
            merchant_code := field d "merchant_code";
            user_code := field d "user_code";
            direct_debit_id := field d "direct_debit_id";
            total_amount := str_of_int z |}.
Proof.
  intros w record text d z Hb Hj Hc Ha Hz.
  rewrite (parse_message_checked _ _ _ _ _ Hb Hj Hc Ha), convert_amount_int by assumption.
  reflexivity.
Qed.

(** X13. The conversion of the amount is idempotent below 2^53: the text
    it returns for such an integer converts to itself, so an amount that was
    normalised once is kept when it is parsed again. *)
Theorem amount_conversion_is_idempotent :
  forall z : Z,
    Z.abs z < 2 ^ 53 ->
    convert_amount (VStr (str_of_int z)) = Ok (str_of_int z).
Proof.
  intros z Hz.
  destruct (str_of_int_decimal z) as (ds & E & Hne & Hds & Hv & _).
  rewrite E at 1. rewrite convert_amount_decimal; try assumption; try reflexivity.
  - rewrite Hv, signed_abs. reflexivity.
  - cbn [frac_of]. rewrite app_nil_r. lia.
Qed.

(** X14. The [except] clause around the conversion catches [ValueError]
    alone.  For a message with its five fields, none null: an amount that is
    a list or an object makes [float()] raise [TypeError], and an amount
    whose float is infinite makes [int()] raise [OverflowError]; either
    leaves [parse_message] as it is, not as the invalid-amount error, and
    the handler returns the failure response with nothing posted. *)
Theorem other_conversion_errors_escape :
  forall (w : World) (record : value) (text : string) (d : list (string * value))
         (raw : value),
    py_get record "body" (VStr "") = Ok (VStr text) ->
    json_loads w text = Some (VDict d) ->
    check_required (VDict d) required_fields = Ok tt ->
    dict_lookup "amount" d = Some raw ->
    ((exists l, raw = VList l) \/ (exists o, raw = VDict o) ->
     parse_message w record = Raise TypeError)
    /\ (forall neg, py_float raw = Ok (FInf neg) ->
        parse_message w record = Raise OverflowError)
    /\ (forall e, convert_amount raw = Raise e -> is_ValueError e = false ->
        forall DB (engine : string -> DB -> option DB) (event : value) (st : State DB),
          py_get event "Records" (VList []) = Ok (VList [record]) ->
          lambda_handler w engine event st = (Ok ERROR_CODE_REQUEST, st)).
Proof.
  intros w record text d raw Hb Hj Hc Ha.
  pose proof (parse_message_checked _ _ _ _ _ Hb Hj Hc Ha) as E.
  repeat split.
  - intros [(l & ->) | (o & ->)]; rewrite E; reflexivity.
  - intros neg Hf. rewrite E. unfold convert_amount. rewrite Hf. reflexivity.
  - intros e He Hv DB engine event st Hrec.
    rewrite He, Hv in E.
    exact (lambda_handler_parse_failure w engine event record e st Hrec E).
Qed.

(** * Further properties of the two updates, run on the table *)

Lemma guard_is_pending_for r m u :
  MySQL.eval_condition r (guard m u) = Some (pending_for m u r).
Proof.
  rewrite eval_guard. unfold pending_for, BILLING_FLAG_PENDING. f_equal.
  destruct (String.eqb (Merchant_Code r) m), (String.eqb (User_Code r) u),
    (String.eqb (Billing_FLG r) "1"); reflexivity.
Qed.

(** A statement guarded by the key and the pending flag rewrites the rows it
    selects, and each of them counts as changed when the statement sets the
    flag to finished. *)
Lemma apply_guarded stmt m u (f : BillingRow -> BillingRow) rows :
  MySQL.condition stmt = guard m u ->
  (forall r, MySQL.assign r (MySQL.assignments stmt) = Some (f r)) ->
  (forall r, Billing_FLG (f r) = BILLING_FLAG_FINISHED) ->
  MySQL.apply stmt rows
  = Some (rewrite_rows (pending_for m u) f rows, count_rows (pending_for m u) rows).
Proof.
  intros Hc Ha Hf. unfold rewrite_rows, count_rows.
  induction rows as [|r rows IH]; cbn [MySQL.apply map filter List.length].
  - rewrite Hc, guard_is_pending_for, Ha. reflexivity.
  - rewrite Hc, guard_is_pending_for, Ha, IH.
    destruct (pending_for m u r) eqn:Hp; [|reflexivity].
    assert (Hne : MySQL.row_eqb r (f r) = false).
    { unfold MySQL.row_eqb.
      unfold pending_for in Hp. apply andb_prop in Hp as [_ Hb].
      apply String.eqb_eq in Hb.
      replace (String.eqb (Billing_FLG r) (Billing_FLG (f r))) with false
        by (rewrite Hf, Hb; reflexivity).
      destruct (String.eqb (Merchant_Code r) (Merchant_Code (f r))),
        (String.eqb (User_Code r) (User_Code (f r))); reflexivity. }
    rewrite Hne. cbn [List.length]. rewrite Nat2Z.inj_succ. reflexivity.
Qed.

Lemma run_settled m u rows :
  sql_plain m = true -> sql_plain u = true ->
  MySQL.run (update_billing_to_settled_text m u) rows
  = Some (rewrite_rows (pending_for m u) settled_row rows,
          count_rows (pending_for m u) rows).
Proof.
  intros Hm Hu.
  rewrite (run_parsed _ _ rows (parse_settled_text m u Hm Hu) eq_refl).
  apply apply_guarded; reflexivity.
Qed.

Lemma run_error m u e rows :
  sql_plain m = true -> sql_plain u = true -> sql_plain e = true ->
  MySQL.run (update_billing_error_text m u e) rows
  = Some (rewrite_rows (pending_for m u) (failed_row e) rows,
          count_rows (pending_for m u) rows).
Proof.
  intros Hm Hu He.
  rewrite (run_parsed _ _ rows (parse_error_text m u e Hm Hu He) eq_refl).
  apply apply_guarded; reflexivity.
Qed.

(** Once the pending rows of a key are finished, none is pending. *)
Lemma rewrite_rows_fixed m u (f : BillingRow -> BillingRow) rows :
  (forall r, Merchant_Code (f r) = Merchant_Code r) ->
  (forall r, User_Code (f r) = User_Code r) ->
  (forall r, Billing_FLG (f r) = BILLING_FLAG_FINISHED) ->
  forall g,
    rewrite_rows (pending_for m u) g (rewrite_rows (pending_for m u) f rows)
    = rewrite_rows (pending_for m u) f rows
    /\ count_rows (pending_for m u) (rewrite_rows (pending_for m u) f rows) = 0.
Proof.
  intros HM HU HB g. unfold rewrite_rows, count_rows.
  induction rows as [|r rows [IH1 IH2]]; [split; reflexivity|].
  cbn [map filter].
  destruct (pending_for m u r) eqn:Hp.
  - assert (E : pending_for m u (f r) = false).
    { unfold pending_for. rewrite HB. cbn. apply andb_false_r. }
    rewrite E, IH1. split; [reflexivity | exact IH2].
  - rewrite Hp, IH1. split; [reflexivity | exact IH2].
Qed.

(** X15. For merchant and user codes without quote or backslash,
    [update_billing_to_settled] rewrites exactly the rows of the table that
    have these codes and [Billing_FLG = PENDING]: it sets their
    [Billing_FLG] to FINISHED and their [Settlement_FLG] to SUCCESS, keeps
    their [Error_Comment], leaves every other row as it is, and the number of
    rows changed is the number of rows selected. *)
Theorem update_billing_to_settled_effect :
  forall (w : World) (m u : string) (rows : list BillingRow) (calls : list call),
    sql_plain m = true -> sql_plain u = true ->
    MySQL.run (update_billing_to_settled_text m u) rows
    = Some (rewrite_rows (pending_for m u) settled_row rows,
            count_rows (pending_for m u) rows)
    /\ update_billing_to_settled w MySQL.execute (VStr m) (VStr u)
         {| db := rows; trace := calls |}
       = (Ok tt,
          {| db := rewrite_rows (pending_for m u) settled_row rows;
             trace := calls ++ [EvQuery (update_billing_to_settled_text m u)] |}).
Proof.
  intros w m u rows calls Hm Hu.
  pose proof (run_settled m u rows Hm Hu) as R. split; [exact R|].
  rewrite update_billing_to_settled_eq. unfold ran, db_after, settled_query, MySQL.execute.
  cbn [py_format db trace]. rewrite R. reflexivity.
Qed.

(** X16. For codes and an error text without quote or backslash,
    [update_billing_error] rewrites exactly the rows that have these codes
    and [Billing_FLG = PENDING]: it sets their [Billing_FLG] to FINISHED,
    their [Settlement_FLG] to FAILURE and their [Error_Comment] to the error
    text, and leaves every other row as it is. *)
Theorem update_billing_error_effect :
  forall (w : World) (m u e : string) (rows : list BillingRow) (calls : list call),
    sql_plain m = true -> sql_plain u = true -> sql_plain e = true ->
    MySQL.run (update_billing_error_text m u e) rows
    = Some (rewrite_rows (pending_for m u) (failed_row e) rows,
            count_rows (pending_for m u) rows)
    /\ update_billing_error w MySQL.execute (VStr m) (VStr u) (VStr e)
         {| db := rows; trace := calls |}
       = (Ok tt,
          {| db := rewrite_rows (pending_for m u) (failed_row e) rows;
             trace := calls ++ [EvQuery (update_billing_error_text m u e)] |}).
Proof.
  intros w m u e rows calls Hm Hu He.
  pose proof (run_error m u e rows Hm Hu He) as R. split; [exact R|].
  rewrite update_billing_error_eq. unfold ran, db_after, error_query, MySQL.execute.
  cbn [py_format db trace]. rewrite R. reflexivity.
Qed.

(** X17. The first update of a key wins.  For codes and error texts without
    quote or backslash, after either update has run on a table, running
    either update again for the same codes changes 0 rows and leaves the
    table as the first one made it: a settled record is not turned into a
    failed one, nor a failed one into a settled one, and a repeated update is
    a no-op. *)
Theorem first_update_wins :
  forall (m u e e' : string) (rows : list BillingRow),
    sql_plain m = true -> sql_plain u = true ->
    sql_plain e = true -> sql_plain e' = true ->
    forall first,
      first = rewrite_rows (pending_for m u) settled_row rows
      \/ first = rewrite_rows (pending_for m u) (failed_row e) rows ->
      MySQL.run (update_billing_to_settled_text m u) first = Some (first, 0)
      /\ MySQL.run (update_billing_error_text m u e') first = Some (first, 0).
Proof.
  intros m u e e' rows Hm Hu He He' first Hfirst.
  rewrite run_settled, run_error by assumption.
  destruct Hfirst as [-> | ->].
  - destruct (rewrite_rows_fixed m u settled_row rows) with (g := settled_row)
      as [E1 E0]; try reflexivity.
    destruct (rewrite_rows_fixed m u settled_row rows) with (g := failed_row e')
      as [E2 _]; try reflexivity.
    rewrite E1, E2, E0. split; reflexivity.
  - destruct (rewrite_rows_fixed m u (failed_row e) rows) with (g := settled_row)
      as [E1 E0]; try reflexivity.
    destruct (rewrite_rows_fixed m u (failed_row e) rows) with (g := failed_row e')
      as [E2 _]; try reflexivity.
    rewrite E1, E2, E0. split; reflexivity.
Qed.

(** * The handler on the billing table *)

(** The history statement is no UPDATE of the billing table: the engine of
    that table refuses it, and the table stays as it is. *)
Lemma history_leaves_billing_table w d merchant_code user_code rows :
  MySQL.execute (history_query w d merchant_code user_code) rows = None.
Proof. reflexivity. Qed.

(** X18. The handler on the table, for a message whose merchant and user
    codes are texts without quote or backslash.  After an ok answer with
    [status] 1 the rows with these codes that were pending are finished and
    settled; after an ok answer with another [status] they are finished and
    failed with the comment ["error"]; after an answer that is not ok, with
    an error code that is such a text, they are finished and failed with that
    code.  In each case every other row is as it was. *)
Theorem handler_effect_on_table :
  forall (w : World) (event : value) (msg : Parsed) (req : DebitRequest)
         (resp : Response) (m u : string) (rows : list BillingRow) (calls : list call),
    debit_answered w event msg req resp ->
    merchant_code msg = VStr m -> user_code msg = VStr u ->
    sql_plain m = true -> sql_plain u = true ->
    let run := lambda_handler w MySQL.execute event {| db := rows; trace := calls |} in
    (forall d s,
        ok resp = true -> json resp = Some (VDict d) -> dict_lookup "status" d = Some s ->
        (py_eq_int s 1 = true ->
         db (snd run) = rewrite_rows (pending_for m u) settled_row rows)
        /\ (py_eq_int s 1 = false ->
            db (snd run) = rewrite_rows (pending_for m u) (failed_row "error") rows))
    /\ (forall body err ec,
           ok resp = false -> json resp = Some body ->
           py_getitem body "err" = Ok err -> py_getitem err "ec" = Ok (VStr ec) ->
           sql_plain ec = true ->
           db (snd run) = rewrite_rows (pending_for m u) (failed_row ec) rows).
Proof.
  intros w event msg req resp m u rows calls Hans Hm Hu Pm Pu run. split.
  - intros d s Hok Hj Hs. split; intros H1; subst run.
    + rewrite (lambda_handler_settled w MySQL.execute event msg req resp d s _ Hans Hok Hj Hs H1).
      cbn [snd db]. unfold db_after at 2. rewrite history_leaves_billing_table.
      unfold db_after, settled_query, MySQL.execute. rewrite Hm, Hu. cbn [py_format].
      rewrite run_settled by assumption. reflexivity.
    + destruct Hans as (record & Hrec & Hp & Hb & Hr).
      rewrite (lambda_handler_single _ _ _ _ _ Hrec). unfold try_catch.
      rewrite (process_record_answered _ _ _ _ _ _ _ _ _ Hp Hb Hr).
      cbv zeta. unfold bind at 1. unfold lift at 1. unfold response_json. rewrite Hj.
      unfold bind at 1. rewrite Hok. cbn [negb ret].
      unfold bind at 1. rewrite insert_debit_history_eq.
      unfold bind at 1. unfold lift at 1. unfold py_getitem. rewrite Hs.
      unfold bind at 1. unfold SUCCESS_FLAG. rewrite H1.
      unfold bind at 1. rewrite update_billing_error_eq. unfold raise, ret.
      cbn [snd db ran]. unfold db_after at 2. rewrite history_leaves_billing_table.
      unfold db_after, error_query, MySQL.execute. rewrite Hm, Hu. cbn [py_format].
      rewrite run_error by (assumption || reflexivity). reflexivity.
  - intros body err ec Hok Hj He Hc Pc. subst run.
    destruct Hans as (record & Hrec & Hp & Hb & Hr).
    rewrite (lambda_handler_single _ _ _ _ _ Hrec). unfold try_catch.
    rewrite (process_record_answered _ _ _ _ _ _ _ _ _ Hp Hb Hr).
    cbv zeta. unfold bind at 1. unfold lift at 1. unfold response_json. rewrite Hj.
    unfold bind at 1. rewrite Hok. cbn [negb].
    unfold bind at 1. unfold lift at 1. rewrite He.
    unfold bind at 1. unfold lift at 1. rewrite Hc.
    unfold bind at 1. rewrite update_billing_error_eq.
    unfold raise_for_status. rewrite Hok. unfold raise, ret.
    cbn [snd db ran].
    unfold db_after, error_query, MySQL.execute. rewrite Hm, Hu. cbn [py_format].
    rewrite run_error by assumption. reflexivity.
Qed.

(** * The history insert on the server *)

Lemma insert_debit_history_text_eq r m u a t s cc nt tt tc st ic :
  insert_debit_history_text r m u a t s cc nt tt tc st ic
  = history_head ++ r ++ quote_to_quote ++ m ++ quote_to_quote ++ u ++ quote_to_bare
    ++ a ++ bare_to_bare ++ t ++ bare_to_bare ++ s ++ bare_to_quote
    ++ cc ++ quote_to_quote ++ nt ++ quote_to_quote ++ tt ++ quote_to_bare
    ++ tc ++ bare_to_quote ++ st ++ quote_to_quote ++ ic ++ history_tail.
Proof. reflexivity. Qed.

Lemma emit_emit ts ts' r :
  Server.emit ts (Server.emit ts' r) = Server.emit (ts ++ ts') r.
Proof. destruct r as [l|]; cbn; [rewrite app_assoc|]; reflexivity. Qed.

(** A plain text is read as the body of the literal it stands in. *)
Lemma server_lex_literal (x : string) : forall acc rest,
  sql_plain x = true ->
  Server.lex (Server.InString acc) (x ++ rest) = Server.lex (Server.InString (acc ++ x)) rest.
Proof.
  induction x as [|c x IH]; intros acc rest H.
  - rewrite append_empty_r. reflexivity.
  - cbn [sql_plain] in H. apply andb_prop in H as [H Hx]. apply andb_prop in H as [Hq Hb].
    apply negb_true_iff in Hq, Hb.
    cbn [append Server.lex]. rewrite Hq, Hb, (IH _ _ Hx).
    unfold MySQL.snoc. rewrite append_assoc. reflexivity.
Qed.

Lemma digit_is_word_char c : is_digit c = true -> MySQL.is_word_char c = true.
Proof.
  destruct c as [[|] [|] [|] [|] [|] [|] [|] [|]]; cbn; intros; try reflexivity; discriminate.
Qed.

Lemma digit_starts_word c :
  is_digit c = true -> Server.start c = Some ([], Server.InWord (String c EmptyString)).
Proof.
  destruct c as [[|] [|] [|] [|] [|] [|] [|] [|]]; cbn; intros; try reflexivity; discriminate.
Qed.

(** Digits are read into the word they stand in. *)
Lemma server_lex_digits (ds : list ascii) : forall acc rest,
  forallb is_digit ds = true ->
  Server.lex (Server.InWord acc) (string_of_list_ascii ds ++ rest)
  = Server.lex (Server.InWord (acc ++ string_of_list_ascii ds)) rest.
Proof.
  induction ds as [|c ds IH]; intros acc rest H.
  - cbn. rewrite append_empty_r. reflexivity.
  - cbn [forallb] in H. apply andb_prop in H as [Hc Hds].
    cbn [string_of_list_ascii append Server.lex].
    rewrite (digit_is_word_char c Hc), (IH _ _ Hds).
    unfold MySQL.snoc. rewrite append_assoc. reflexivity.
Qed.

(** The text of an integer: a minus sign when it is negative, then that of
    its absolute value, which is a number. *)
Lemma str_of_int_sign (z : Z) :
  str_of_int z = (if z <? 0 then "-" else "") ++ str_of_int (Z.abs z).
Proof. destruct z; reflexivity. Qed.

Lemma str_of_int_abs (z : Z) :
  exists ds,
    str_of_int (Z.abs z) = string_of_list_ascii ds
    /\ ds <> []
    /\ forallb is_digit ds = true
    /\ digits_val ds = Z.abs z.
Proof.
  destruct (str_of_int_decimal (Z.abs z)) as (ds & E & Hne & Hds & Hv & _).
  exists ds. replace (Z.abs z <? 0) with false in E by (symmetry; apply Z.ltb_ge; lia).
  unfold decimal_text, decimal_chars in E. cbn [app] in E. rewrite app_nil_r in E.
  rewrite Z.abs_idemp in Hv. auto.
Qed.

Lemma word_value_int (z : Z) :
  Server.is_number (str_of_int (Z.abs z)) = true
  /\ digits_val (list_ascii_of_string (str_of_int (Z.abs z))) = Z.abs z.
Proof.
  destruct (str_of_int_abs z) as (ds & E & Hne & Hds & Hv).
  rewrite E. unfold Server.is_number. rewrite list_ascii_of_string_of_list_ascii.
  destruct ds as [|c ds]; [contradiction|]. auto.
Qed.

(** An integer followed by a comma *)
Lemma server_lex_int (z : Z) (rest : string) :
  Server.lex Server.Normal (str_of_int z ++ String "," rest)
  = Server.emit (int_tokens z ++ [Server.TComma]) (Server.lex Server.Normal rest).
Proof.
  assert (H : Server.lex Server.Normal (str_of_int (Z.abs z) ++ String "," rest)
              = Server.emit [Server.TWord (str_of_int (Z.abs z)); Server.TComma]
                  (Server.lex Server.Normal rest)).
  { destruct (str_of_int_abs z) as (ds & E & Hne & Hds & _). rewrite E.
    destruct ds as [|c ds]; [contradiction|].
    cbn [forallb] in Hds. apply andb_prop in Hds as [Hc Hds].
    cbn [string_of_list_ascii append Server.lex]. rewrite (digit_starts_word c Hc).
    cbn [Server.emit option_map app].
    rewrite (server_lex_digits ds _ _ Hds).
    cbn. destruct (Server.lex Server.Normal rest); reflexivity. }
  rewrite str_of_int_sign. unfold int_tokens.
  destruct (z <? 0).
  - cbn [append Server.lex]. change (Server.start "-") with (Some ([Server.TMinus], Server.Normal)).
    cbv iota beta. change (String "," rest) with (String "," rest) in H.
    replace ("" ++ str_of_int (Z.abs z) ++ String "," rest)
      with (str_of_int (Z.abs z) ++ String "," rest) by reflexivity.
    rewrite H, emit_emit. reflexivity.
  - cbn [append app]. exact H.
Qed.

Lemma server_lex_head rest :
  Server.lex Server.Normal (history_head ++ rest)
  = Server.emit
      ([Server.TWord "INSERT"; Server.TWord "INTO"; Server.TWord "TBL_DEBITHISTORY";
        Server.TOpen]
       ++ [Server.TWord "request_id"; Server.TComma; Server.TWord "Merchant_Code";
           Server.TComma; Server.TWord "User_Code"; Server.TComma; Server.TWord "amount";
           Server.TComma; Server.TWord "tax"; Server.TComma; Server.TWord "ship_fee";
           Server.TComma; Server.TWord "custom_code"; Server.TComma;
           Server.TWord "next_transfer"; Server.TComma; Server.TWord "transfer_type";
           Server.TComma; Server.TWord "transfer_count"; Server.TComma;
           Server.TWord "status"; Server.TComma; Server.TWord "item_code"; Server.TClose;
           Server.TWord "VALUES"; Server.TOpen])
      (Server.lex (Server.InString "") rest).
Proof. cbn. destruct (Server.lex (Server.InString "") rest); reflexivity. Qed.

Lemma server_lex_quote_to_quote acc rest :
  Server.lex (Server.InString acc) (quote_to_quote ++ rest)
  = Server.emit [Server.TString acc; Server.TComma] (Server.lex (Server.InString "") rest).
Proof. cbn. destruct (Server.lex (Server.InString "") rest); reflexivity. Qed.

Lemma server_lex_quote_to_bare acc rest :
  Server.lex (Server.InString acc) (quote_to_bare ++ rest)
  = Server.emit [Server.TString acc; Server.TComma] (Server.lex Server.Normal rest).
Proof. cbn. destruct (Server.lex Server.Normal rest); reflexivity. Qed.

Lemma server_lex_indent rest :
  Server.lex Server.Normal (nl ++ "        " ++ rest) = Server.lex Server.Normal rest.
Proof. cbn. destruct (Server.lex Server.Normal rest); reflexivity. Qed.

Lemma server_lex_indent_quote rest :
  Server.lex Server.Normal (nl ++ "        '" ++ rest)
  = Server.lex (Server.InString "") rest.
Proof. cbn. destruct (Server.lex (Server.InString "") rest); reflexivity. Qed.

Lemma server_lex_bare_to_bare z rest :
  Server.lex Server.Normal (str_of_int z ++ bare_to_bare ++ rest)
  = Server.emit (int_tokens z ++ [Server.TComma]) (Server.lex Server.Normal rest).
Proof.
  change (bare_to_bare ++ rest) with (String "," (nl ++ "        " ++ rest)).
  rewrite server_lex_int, server_lex_indent. reflexivity.
Qed.

Lemma server_lex_bare_to_quote z rest :
  Server.lex Server.Normal (str_of_int z ++ bare_to_quote ++ rest)
  = Server.emit (int_tokens z ++ [Server.TComma]) (Server.lex (Server.InString "") rest).
Proof.
  change (bare_to_quote ++ rest) with (String "," (nl ++ "        '" ++ rest)).
  rewrite server_lex_int, server_lex_indent_quote. reflexivity.
Qed.

Lemma server_lex_tail acc :
  Server.lex (Server.InString acc) history_tail
  = Some [Server.TString acc; Server.TClose; Server.TSemicolon].
Proof. reflexivity. Qed.

#[local] Arguments int_tokens : simpl never.

(** An integer among the values *)
Lemma parse_values_int z sep rest :
  Server.parse_values (int_tokens z ++ sep :: rest)
  = Server.after_value (SqlInt z) sep rest (Server.parse_values rest).
Proof.
  destruct (word_value_int z) as [Hn Hv]. unfold int_tokens.
  destruct (Z.ltb_spec z 0) as [Hz|Hz]; cbn [app Server.parse_values].
  - rewrite Hn, Hv. replace (- Z.abs z) with z by lia. reflexivity.
  - unfold Server.word_value. rewrite Hn, Hv. replace (Z.abs z) with z by lia. reflexivity.
Qed.

(** The statement [insert_debit_history] builds from four integers and eight
    plain texts is one the server accepts, and the row it adds holds them. *)
Lemma insert_row_of_text r m u a t s cc nt tt tc st ic :
  forallb sql_plain [r; m; u; cc; nt; tt; st; ic] = true ->
  Server.insert_row
    (insert_debit_history_text r m u (str_of_int a) (str_of_int t) (str_of_int s)
       cc nt tt (str_of_int tc) st ic)
  = Some [("request_id", SqlText r); ("Merchant_Code", SqlText m); ("User_Code", SqlText u);
          ("amount", SqlInt a); ("tax", SqlInt t); ("ship_fee", SqlInt s);
          ("custom_code", SqlText cc); ("next_transfer", SqlText nt);
          ("transfer_type", SqlText tt); ("transfer_count", SqlInt tc);
          ("status", SqlText st); ("item_code", SqlText ic)].
Proof.
  intros H. cbn [forallb] in H.
  repeat match type of H with (_ && _ = true) => apply andb_prop in H as [? H] end.
  unfold Server.insert_row. rewrite insert_debit_history_text_eq.
  rewrite server_lex_head, (server_lex_literal r) by assumption. cbn [append].
  rewrite server_lex_quote_to_quote, (server_lex_literal m) by assumption. cbn [append].
  rewrite server_lex_quote_to_quote, (server_lex_literal u) by assumption. cbn [append].
  rewrite server_lex_quote_to_bare, server_lex_bare_to_bare, server_lex_bare_to_bare,
    server_lex_bare_to_quote.
  rewrite (server_lex_literal cc) by assumption. cbn [append].
  rewrite server_lex_quote_to_quote, (server_lex_literal nt) by assumption. cbn [append].
  rewrite server_lex_quote_to_quote, (server_lex_literal tt) by assumption. cbn [append].
  rewrite server_lex_quote_to_bare, server_lex_bare_to_quote.
  rewrite (server_lex_literal st) by assumption. cbn [append].
  rewrite server_lex_quote_to_quote, (server_lex_literal ic) by assumption. cbn [append].
  rewrite server_lex_tail.
  cbn [Server.emit option_map app].
  cbn [Server.parse String.eqb Ascii.eqb Bool.eqb andb Server.parse_names].
  repeat rewrite <- app_assoc. cbn [app].
  cbn [Server.parse_values Server.after_value].
  rewrite !parse_values_int. cbn [Server.parse_values Server.after_value].
  rewrite !parse_values_int. cbn [Server.parse_values Server.after_value].
  reflexivity.
Qed.

Lemma insert_row_of_answer w d mc uc row :
  history_row w d mc uc = Some row ->
  Server.insert_row (history_query w d mc uc) = Some row.
Proof.
  unfold history_row, history_query. intros H.
  destruct (field d "amount") as [ | |a| | | | ]; try discriminate H.
  destruct (field d "tax") as [ | |t| | | | ]; try discriminate H.
  destruct (field d "ship_fee") as [ | |s| | | | ]; try discriminate H.
  destruct (field d "transfer_count") as [ | |tc| | | | ]; try discriminate H.
  match type of H with (if ?b then _ else _) = _ => destruct b eqn:Hp end; [|discriminate H].
  injection H as <-. cbn [py_format].
  apply insert_row_of_text. exact Hp.
Qed.

(** ** The two tables after the handler *)

Lemma history_row_plain w d mc uc row :
  history_row w d mc uc = Some row ->
  sql_plain (py_format w mc) = true /\ sql_plain (py_format w uc) = true.
Proof.
  unfold history_row. intros H.
  destruct (field d "amount") as [ | |a| | | | ]; try discriminate H.
  destruct (field d "tax") as [ | |t| | | | ]; try discriminate H.
  destruct (field d "ship_fee") as [ | |s| | | | ]; try discriminate H.
  destruct (field d "transfer_count") as [ | |tc| | | | ]; try discriminate H.
  match type of H with (if ?b then _ else _) = _ => destruct b eqn:Hp end; [|discriminate H].
  cbn [forallb] in Hp.
  repeat match type of Hp with (_ && _ = true) => apply andb_prop in Hp as [? Hp] end.
  auto.
Qed.

(** The history statement is no statement on the billing table: the server
    reads it as an INSERT, and adds the row or refuses it. *)
Lemma server_execute_history w d mc uc t :
  Server.execute (history_query w d mc uc) t
  = match Server.insert_row (history_query w d mc uc) with
    | Some row =>
        Some {| user_payment := user_payment t;
                debit_history := (debit_history t ++ [row])%list |}
    | None => None
    end.
Proof. reflexivity. Qed.

Lemma server_execute_update query t rows n :
  MySQL.run query (user_payment t) = Some (rows, n) ->
  Server.execute query t
  = Some {| user_payment := rows; debit_history := debit_history t |}.
Proof. intros H. unfold Server.execute. rewrite H. reflexivity. Qed.

(** The two tables after the history statement and an update, when the
    server accepts both *)
Lemma tables_after w d mc uc row query rows n t :
  history_row w d mc uc = Some row ->
  MySQL.run query (user_payment t) = Some (rows, n) ->
  db_after Server.execute query (db_after Server.execute (history_query w d mc uc) t)
  = {| user_payment := rows; debit_history := (debit_history t ++ [row])%list |}.
Proof.
  intros Hrow Hrun. unfold db_after at 2.
  rewrite server_execute_history, (insert_row_of_answer _ _ _ _ _ Hrow).
  unfold db_after. rewrite (server_execute_update _ _ rows n); [reflexivity|exact Hrun].
Qed.







(** * The cached connection *)

Section ConnectionFacts.

Import Connection.

Context {Net : Type}.
Variable drv : Driver Net.

(** The process after a call to the driver *)
Lemma call_driver_eq {A} ev (f : Net -> res A * Net) (st : State (Process Net)) :
  call_driver ev f st
  = (fst (f (net (db st))),
     {| db := {| net := snd (f (net (db st)));
                 _mysql_connection := _mysql_connection (db st);
                 driver_calls := driver_calls (db st) ++ [ev] |};
        trace := trace st |}).
Proof. unfold call_driver. destruct (f (net (db st))); reflexivity. Qed.

(** The two ways of [get_mysql_connection] *)
Lemma get_mysql_connection_cases_aux :
  forall (st : State (Process Net)),
    let p := db st in
    (forall c, _mysql_connection p = Some c -> is_open drv c (net p) = true ->
               get_mysql_connection drv st = (Ok c, st))
    /\ ((_mysql_connection p = None
         \/ exists c, _mysql_connection p = Some c /\ is_open drv c (net p) = false) ->
        forall r n', connect drv (net p) = (r, n') ->
          match r with
          | Ok c' =>
              get_mysql_connection drv st
              = (Ok c',
                 {| db := {| net := n'; _mysql_connection := Some c';
                             driver_calls := (driver_calls p ++ [Connect])%list |};
                    trace := trace st |})
          | Raise e =>
              get_mysql_connection drv st
              = (Raise e,
                 {| db := {| net := n'; _mysql_connection := _mysql_connection p;
                             driver_calls := (driver_calls p ++ [Connect])%list |};
                    trace := trace st |})
          end).
Proof.
  intros st p. subst p. split.
  - intros c Hc Ho. unfold get_mysql_connection, bind, get_process.
    rewrite Hc, Ho. reflexivity.
  - intros Hstale r n' Hconn.
    assert (E : match _mysql_connection (db st) with
                | Some c => if is_open drv c (net (db st)) then Some c else None
                | None => None
                end = None).
    { destruct Hstale as [-> | (c & -> & ->)]; reflexivity. }
    destruct r; unfold get_mysql_connection, bind, get_process; cbv zeta;
      rewrite E, call_driver_eq, Hconn; reflexivity.
Qed.

(** X19. [get_mysql_connection] returns the cached connection, with no call
    to the driver and no change of state, exactly when there is one and it
    is open.  Otherwise it calls [connect] once: when that returns a
    connection, this one is cached and returned; when it raises, the
    exception is passed on and the cache is left as it was. *)
Theorem get_mysql_connection_cases :
  forall (st : State (Process Net)),
    let p := db st in
    (forall c, _mysql_connection p = Some c -> is_open drv c (net p) = true ->
               get_mysql_connection drv st = (Ok c, st))
    /\ ((_mysql_connection p = None
         \/ exists c, _mysql_connection p = Some c /\ is_open drv c (net p) = false) ->
        forall r n', connect drv (net p) = (r, n') ->
          match r with
          | Ok c' =>
              get_mysql_connection drv st
              = (Ok c',
                 {| db := {| net := n'; _mysql_connection := Some c';
                             driver_calls := (driver_calls p ++ [Connect])%list |};
                    trace := trace st |})
          | Raise e =>
              get_mysql_connection drv st
              = (Raise e,
                 {| db := {| net := n'; _mysql_connection := _mysql_connection p;
                             driver_calls := (driver_calls p ++ [Connect])%list |};
                    trace := trace st |})
          end).
Proof. exact get_mysql_connection_cases_aux. Qed.

(** The outcome of [execution_query] once the connection is known *)
Lemma execution_query_on (query : string) (st st1 : State (Process Net)) c :
  get_mysql_connection drv st = (Ok c, st1) ->
  let p1 := db st1 in
  let x := execute drv c query (net p1) in
  let y := commit drv c (snd x) in
  execution_query drv query st
  = match fst x with
    | Raise _ =>
        (Ok false,
         {| db := {| net := snd x; _mysql_connection := _mysql_connection p1;
                     driver_calls := (driver_calls p1 ++ [Execute c query])%list |};
            trace := trace st1 |})
    | Ok _ =>
        (Ok (match fst y with Ok _ => true | Raise _ => false end),
         {| db := {| net := snd y; _mysql_connection := _mysql_connection p1;
                     driver_calls :=
                       (driver_calls p1 ++ [Execute c query; Commit c])%list |};
            trace := trace st1 |})
    end.
Proof.
  intros Hg. cbv zeta. unfold execution_query, try_catch.
  unfold bind at 1. rewrite Hg.
  unfold bind at 1. rewrite call_driver_eq.
  destruct (execute drv c query (net (db st1))) as [[[]|e] n2]; cbn [fst snd]; [|reflexivity].
  unfold bind. rewrite call_driver_eq. cbn [db net _mysql_connection driver_calls trace].
  destruct (commit drv c n2) as [[[]|e] n3]; cbn [fst snd ret];
    rewrite <- app_assoc; reflexivity.
Qed.

(** X20. [execution_query] never raises, and its calls to the driver follow
    one protocol: at most one [connect], first; then, only if a connection
    was obtained, one [execute] of the query on it; then, only if that did
    not raise, one [commit] on the same connection.  It returns [True] only
    when the commit was reached, and when nothing was executed a [connect]
    was tried and failed. *)
Theorem execution_query_protocol :
  forall (query : string) (st : State (Process Net)),
    exists (flag : bool) (st' : State (Process Net)) (pre rest : list driver_call),
      execution_query drv query st = (Ok flag, st')
      /\ trace st' = trace st
      /\ driver_calls (db st') = (driver_calls (db st) ++ pre ++ rest)%list
      /\ (pre = [] \/ pre = [Connect])
      /\ ((rest = [] /\ pre = [Connect] /\ flag = false)
          \/ (exists c, rest = [Execute c query] /\ flag = false)
          \/ (exists c, rest = [Execute c query; Commit c])).
Proof.
  intros query st.
  destruct (_mysql_connection (db st)) as [c|] eqn:Hc.
  1: destruct (is_open drv c (net (db st))) eqn:Ho.
  - (* an open cached connection *)
    pose proof (proj1 (get_mysql_connection_cases_aux st) c Hc Ho) as Hg.
    pose proof (execution_query_on query st st c Hg) as E. cbv zeta in E.
    destruct (fst (execute drv c query (net (db st)))).
    + eexists _, _, [], [Execute c query; Commit c]. rewrite E.
      repeat split; [left; reflexivity | right; right; eauto].
    + eexists _, _, [], [Execute c query]. rewrite E.
      repeat split; [left; reflexivity | right; left; eauto].
  - (* a closed one *)
    destruct (connect drv (net (db st))) as [[c'|e] n'] eqn:Hconn.
    + pose proof (proj2 (get_mysql_connection_cases_aux st)
                    (or_intror (ex_intro _ c (conj Hc Ho))) _ _ Hconn) as Hg.
      cbv beta iota in Hg.
      pose proof (execution_query_on query st _ c' Hg) as E. cbv zeta in E.
      cbn [db net _mysql_connection driver_calls trace] in E.
      destruct (fst (execute drv c' query n')).
      * eexists _, _, [Connect], [Execute c' query; Commit c']. rewrite E.
        repeat split; [cbn; rewrite <- app_assoc; reflexivity
                      | right; reflexivity | right; right; eauto].
      * eexists _, _, [Connect], [Execute c' query]. rewrite E.
        repeat split; [cbn; rewrite <- app_assoc; reflexivity
                      | right; reflexivity | right; left; eauto].
    + pose proof (proj2 (get_mysql_connection_cases_aux st)
                    (or_intror (ex_intro _ c (conj Hc Ho))) _ _ Hconn) as Hg.
      cbv beta iota in Hg.
      eexists false, _, [Connect], []. unfold execution_query, try_catch.
      unfold bind at 1. rewrite Hg.
      repeat split; [right; reflexivity | left; auto].
  - (* none *)
    destruct (connect drv (net (db st))) as [[c'|e] n'] eqn:Hconn.
    + pose proof (proj2 (get_mysql_connection_cases_aux st) (or_introl Hc) _ _ Hconn) as Hg.
      cbv beta iota in Hg.
      pose proof (execution_query_on query st _ c' Hg) as E. cbv zeta in E.
      cbn [db net _mysql_connection driver_calls trace] in E.
      destruct (fst (execute drv c' query n')).
      * eexists _, _, [Connect], [Execute c' query; Commit c']. rewrite E.
        repeat split; [cbn; rewrite <- app_assoc; reflexivity
                      | right; reflexivity | right; right; eauto].
      * eexists _, _, [Connect], [Execute c' query]. rewrite E.
        repeat split; [cbn; rewrite <- app_assoc; reflexivity
                      | right; reflexivity | right; left; eauto].
    + pose proof (proj2 (get_mysql_connection_cases_aux st) (or_introl Hc) _ _ Hconn) as Hg.
      cbv beta iota in Hg.
      eexists false, _, [Connect], []. unfold execution_query, try_catch.
      unfold bind at 1. rewrite Hg.
      repeat split; [right; reflexivity | left; auto].
Qed.

End ConnectionFacts.

Section ConnectionReuse.

Import Connection.

Context {Net : Type}.
Variable drv : Driver Net.

(** The connection [get_mysql_connection] returns is the cached one. *)
Lemma get_mysql_connection_caches (st st1 : State (Process Net)) c :
  get_mysql_connection drv st = (Ok c, st1) ->
  _mysql_connection (db st1) = Some c
  /\ trace st1 = trace st
  /\ (driver_calls (db st1) = driver_calls (db st)
      \/ driver_calls (db st1) = (driver_calls (db st) ++ [Connect])%list).
Proof.
  intros H.
  destruct (_mysql_connection (db st)) as [c0|] eqn:Hc.
  1: destruct (is_open drv c0 (net (db st))) eqn:Ho.
  - rewrite (proj1 (get_mysql_connection_cases_aux drv st) c0 Hc Ho) in H.
    injection H as <- <-. auto.
  - destruct (connect drv (net (db st))) as [[c'|e] n'] eqn:Hconn;
      pose proof (proj2 (get_mysql_connection_cases_aux drv st)
                    (or_intror (ex_intro _ c0 (conj Hc Ho))) _ _ Hconn) as Hg;
      cbv beta iota in Hg; rewrite Hg in H; [|discriminate].
    injection H as <- <-. cbn. auto.
  - destruct (connect drv (net (db st))) as [[c'|e] n'] eqn:Hconn;
      pose proof (proj2 (get_mysql_connection_cases_aux drv st) (or_introl Hc) _ _ Hconn) as Hg;
      cbv beta iota in Hg; rewrite Hg in H; [|discriminate].
    injection H as <- <-. cbn. auto.
Qed.

(** A successful [execution_query] leaves in the cache the connection it
    committed on. *)
Lemma execution_query_true (query : string) (st st1 : State (Process Net)) :
  execution_query drv query st = (Ok true, st1) ->
  exists c, _mysql_connection (db st1) = Some c.
Proof.
  intros H.
  destruct (get_mysql_connection drv st) as [[c|e] st0] eqn:Hg.
  - destruct (get_mysql_connection_caches _ _ _ Hg) as (Hc & _).
    rewrite (execution_query_on drv query st st0 c Hg) in H. cbv zeta in H.
    exists c.
    destruct (fst (execute drv c query (net (db st0)))); injection H as _ <-; exact Hc.
  - unfold execution_query, try_catch in H. unfold bind at 1 in H. rewrite Hg in H.
    discriminate H.
Qed.

(** X21. The connection is reused.  When an [execution_query] has succeeded,
    the connection it used is in the cache; and as long as that connection
    is open, the next [execution_query] makes no [connect]: it executes its
    query on the cached connection, commits on it if the execution did not
    raise, and leaves it in the cache. *)
Theorem connection_is_reused :
  forall (q1 q2 : string) (st st1 : State (Process Net)),
    execution_query drv q1 st = (Ok true, st1) ->
    exists c,
      _mysql_connection (db st1) = Some c
      /\ (is_open drv c (net (db st1)) = true ->
          exists (flag : bool) (st2 : State (Process Net)) (rest : list driver_call),
            execution_query drv q2 st1 = (Ok flag, st2)
            /\ _mysql_connection (db st2) = Some c
            /\ driver_calls (db st2) = (driver_calls (db st1) ++ Execute c q2 :: rest)%list
            /\ (rest = [] \/ rest = [Commit c])).
Proof.
  intros q1 q2 st st1 H.
  destruct (execution_query_true q1 st st1 H) as (c & Hc).
  exists c. split; [exact Hc|]. intros Ho.
  pose proof (proj1 (get_mysql_connection_cases_aux drv st1) c Hc Ho) as Hg.
  pose proof (execution_query_on drv q2 st1 st1 c Hg) as E. cbv zeta in E.
  destruct (fst (execute drv c q2 (net (db st1)))).
  - eexists _, _, [Commit c]. rewrite E. repeat split; [exact Hc | right; reflexivity].
  - eexists _, _, []. rewrite E. repeat split; [exact Hc | left; reflexivity].
Qed.

End ConnectionReuse.

(** * What can leave the handler, and the texts of the updates *)

(** X22. Only what is raised before the [try] block leaves the handler: an
    event that is no object ([AttributeError]), [Records] without a length
    ([TypeError]) or with a length other than 1 ([AssertionError]), or
    [Records] an object with one key ([KeyError]).  When an exception leaves
    the handler, nothing was posted and no statement was sent. *)
Theorem escaping_exceptions :
  forall DB (w : World) (engine : string -> DB -> option DB) (event : value)
         (e : exn) (st st' : State DB),
    lambda_handler w engine event st = (Raise e, st') ->
    st' = st
    /\ (e = AttributeError \/ e = TypeError \/ e = AssertionError \/ e = KeyError "0").
Proof.
  intros DB w engine event e st st' H.
  unfold lambda_handler in H. unfold bind at 1 in H. unfold lift at 1 in H.
  destruct (py_get event "Records" (VList [])) as [records|e0] eqn:Hrec.
  2:{ injection H as <- <-. split; [reflexivity|].
      destruct event; cbn in Hrec; try (injection Hrec as <-; auto); discriminate. }
  unfold bind at 1 in H. unfold lift at 1 in H.
  destruct (py_len records) as [n|e0] eqn:Hlen.
  2:{ injection H as <- <-. split; [reflexivity|].
      destruct records; cbn in Hlen; try (injection Hlen as <-; auto); discriminate. }
  unfold bind at 1 in H.
  destruct (Z.eqb_spec n 1) as [->|Hn].
  2:{ injection H as <- <-. auto. }
  cbn [ret] in H. unfold bind at 1 in H. unfold lift at 1 in H.
  destruct (py_first records) as [record|e0] eqn:Hfirst.
  2:{ injection H as <- <-. split; [reflexivity|].
      destruct records as [ | | | |s|l|d]; try discriminate Hlen.
      - destruct s; [discriminate Hlen|discriminate Hfirst].
      - destruct l; [discriminate Hlen|discriminate Hfirst].
      - cbn in Hfirst. injection Hfirst as <-. auto. }
  unfold try_catch in H.
  destruct (process_record w engine record 0 1 st) as [[r|e1] st1]; discriminate H.
Qed.

(** X23. [.strip()] takes away only the blank lines around the two UPDATE
    texts: the merchant code, the user code and the error text stand in the
    statement exactly as they were given, between quotes, also when they
    begin or end with blanks. *)
Theorem update_texts_are_verbatim :
  forall m u e : string,
    update_billing_to_settled_text m u
    = "UPDATE TBL_USER_PAYMENT" ++ nl ++
      "    SET `Billing_FLG` = '2', `Settlement_FLG` = '1'" ++ nl ++
      "    WHERE `Merchant_Code` = '" ++ m ++ "'" ++ nl ++
      "      AND `User_Code` = '" ++ u ++ "'" ++ nl ++
      "      AND `Billing_FLG` = '1'"
    /\ update_billing_error_text m u e
       = "UPDATE TBL_USER_PAYMENT" ++ nl ++
         "    SET `Billing_FLG` = '2', `Settlement_FLG` = '2', `Error_Comment` = '" ++ e ++ "'" ++ nl ++
         "    WHERE `Merchant_Code` = '" ++ m ++ "'" ++ nl ++
         "      AND `User_Code` = '" ++ u ++ "'" ++ nl ++
         "      AND `Billing_FLG` = '1'".
Proof.
  intros m u e. split.
  - rewrite update_billing_to_settled_text_eq. reflexivity.
  - rewrite update_billing_error_text_eq. reflexivity.
Qed.

(** * The further properties on concrete runs *)

Lemma bad_debit_id_stops_before_post_witness :
  lambda_handler (Scenario.offline Cases.text_debit_word Cases.message_debit_word)
    MySQL.execute (Scenario.sqs_event Cases.text_debit_word)
    (Scenario.start Scenario.pending1)
  = (Ok ERROR_CODE_REQUEST, Scenario.start Scenario.pending1).
Proof.
  eapply (bad_debit_id_stops_before_post
            (Scenario.offline Cases.text_debit_word Cases.message_debit_word)
            MySQL.execute _ (Scenario.record_of Cases.text_debit_word) _
            (ValueError ConversionError)).
  - reflexivity.
  - vm_compute; reflexivity.
  - vm_compute; reflexivity.
Defined.

Lemma transport_failure_leaves_record_untouched_witness :
  lambda_handler (Scenario.offline Scenario.text1 Scenario.message1)
    MySQL.execute (Scenario.sqs_event Scenario.text1) (Scenario.start Scenario.pending1)
  = (Ok ERROR_CODE_REQUEST,
     {| db := Scenario.pending1; trace := [EvPost Scenario.request1] |}).
Proof.
  apply (transport_failure_leaves_record_untouched
           (Scenario.offline Scenario.text1 Scenario.message1) MySQL.execute
           (Scenario.sqs_event Scenario.text1) (Scenario.record_of Scenario.text1)
           Scenario.parsed1 Scenario.request1 RequestException
           (Scenario.start Scenario.pending1)).
  - reflexivity.
  - vm_compute; reflexivity.
  - vm_compute; reflexivity.
  - reflexivity.
Defined.

Lemma undecodable_answer_leaves_record_untouched_witness :
  lambda_handler (Scenario.world Scenario.text1 Scenario.message1 (Ok Cases.answer_page))
    MySQL.execute (Scenario.sqs_event Scenario.text1) (Scenario.start Scenario.pending1)
  = (Ok ERROR_CODE_REQUEST,
     {| db := Scenario.pending1; trace := [EvPost Scenario.request1] |}).
Proof.
  apply (undecodable_answer_leaves_record_untouched _ MySQL.execute _ _ _ _
           (Scenario.start Scenario.pending1)
           (debit_answered_scenario Cases.answer_page)).
  reflexivity.
Defined.

Lemma ok_answer_without_object_sends_nothing_witness :
  lambda_handler (Scenario.world Scenario.text1 Scenario.message1 (Ok Cases.answer_list))
    MySQL.execute (Scenario.sqs_event Scenario.text1) (Scenario.start Scenario.pending1)
  = (Ok ERROR_CODE_REQUEST,
     {| db := Scenario.pending1; trace := [EvPost Scenario.request1] |}).
Proof.
  apply (ok_answer_without_object_sends_nothing _ MySQL.execute _ _ _ _ (VList [])
           (Scenario.start Scenario.pending1)
           (debit_answered_scenario Cases.answer_list)).
  - reflexivity.
  - reflexivity.
  - discriminate.
Defined.

Lemma ok_answer_without_status_records_history_only_witness :
  lambda_handler (Scenario.world Scenario.text1 Scenario.message1 (Ok Cases.answer_no_status))
    MySQL.execute (Scenario.sqs_event Scenario.text1) (Scenario.start Scenario.pending1)
  = (Ok ERROR_CODE_REQUEST,
     {| db := Scenario.pending1;
        trace := [EvPost Scenario.request1;
                  EvQuery (history_query
                             (Scenario.world Scenario.text1 Scenario.message1
                                (Ok Cases.answer_no_status))
                             [("request_id", VStr "r1")] (VStr "m1") (VStr "u1"))] |}).
Proof.
  rewrite (ok_answer_without_status_records_history_only _ MySQL.execute _ _ _ _
             [("request_id", VStr "r1")] (Scenario.start Scenario.pending1)
             (debit_answered_scenario Cases.answer_no_status) eq_refl eq_refl eq_refl).
  reflexivity.
Defined.

Lemma handler_calls_have_five_shapes_witness :
  exists r st' calls,
    lambda_handler (Scenario.world Scenario.text1 Scenario.message1 (Ok Scenario.answer_settled))
      MySQL.execute (Scenario.sqs_event Scenario.text1) (Scenario.start Scenario.pending1)
    = (Ok r, st')
    /\ trace st' = calls.
Proof.
  destruct (handler_calls_have_five_shapes
              (Scenario.world Scenario.text1 Scenario.message1 (Ok Scenario.answer_settled))
              MySQL.execute (Scenario.sqs_event Scenario.text1)
              (Scenario.record_of Scenario.text1) (Scenario.start Scenario.pending1) eq_refl)
    as (r & st' & calls & H & Ht & _).
  exists r, st', calls. split; [exact H | exact Ht].
Defined.

Lemma success_response_means_settled_witness :
  exists msg req resp,
    debit_answered
      (Scenario.world Scenario.text1 Scenario.message1 (Ok Scenario.answer_settled))
      (Scenario.sqs_event Scenario.text1) msg req resp
    /\ ok resp = true.
Proof.
  destruct (success_response_means_settled
              (Scenario.world Scenario.text1 Scenario.message1 (Ok Scenario.answer_settled))
              MySQL.execute (Scenario.sqs_event Scenario.text1)
              {| statusCode := 200; body := "successed success_count / num_records = 1 / 1" |}
              (Scenario.start Scenario.pending1)
              {| db := [Scenario.row "m1" "u1" "2" "1" ""];
                 trace := [EvPost Scenario.request1;
                           EvQuery (history_query
                                      (Scenario.world Scenario.text1 Scenario.message1
                                         (Ok Scenario.answer_settled))
                                      [("status", VInt 1); ("request_id", VStr "r1")]
                                      (VStr "m1") (VStr "u1"));
                           EvQuery (update_billing_to_settled_text "m1" "u1");
                           EvSleep 1] |})
    as (msg & req & resp & d & s & Hans & Hok & _).
  - vm_compute; reflexivity.
  - reflexivity.
  - exists msg, req, resp. split; assumption.
Defined.

Lemma parse_message_result_is_well_formed_witness :
  exists z,
    Scenario.parsed1
    = {| message_data := Scenario.message1;
         billing_id := VStr "b1"; merchant_code := VStr "m1"; user_code := VStr "u1";
         direct_debit_id := VStr "42"; total_amount := str_of_int z |}.
Proof.
  destruct (parse_message_result_is_well_formed
              (Scenario.offline Scenario.text1 Scenario.message1)
              (Scenario.record_of Scenario.text1) Scenario.parsed1)
    as (text & d & raw & f & z & Hb & Hj & _ & _ & _ & _ & E).
  - vm_compute; reflexivity.
  - exists z. injection Hb as <-. vm_compute in Hj. injection Hj as <-. exact E.
Defined.

Lemma request_body_fails_only_on_debit_id_witness :
  exists amt : Z,
    total_amount Scenario.parsed1 = str_of_int amt
    /\ get_request_body (VStr "42") "500"
       = Ok {| customer_id := 42; amount := amt; tax := 0; ship_fee := 0;
               transfer_type := 1; status := 1 |}.
Proof.
  destruct (request_body_fails_only_on_debit_id
              (Scenario.offline Scenario.text1 Scenario.message1)
              (Scenario.record_of Scenario.text1) Scenario.parsed1)
    as (amt & E & Hok & _).
  - vm_compute; reflexivity.
  - exists amt. split; [exact E|]. apply (Hok 42). reflexivity.
Defined.

Lemma unreadable_body_errors_witness :
  parse_message Cases.refusing_world (Scenario.record_of "invalid json")
  = Raise (ValueError InvalidJSONFormat)
  /\ parse_message Cases.refusing_world (Scenario.record_of "[[[[")
     = Raise RecursionError
  /\ parse_message Cases.refusing_world (Scenario.record_of "99999")
     = Raise (ValueError ConversionError)
  /\ parse_message Cases.refusing_world (VDict [])
     = Raise (ValueError InvalidJSONFormat)
  /\ parse_message Cases.refusing_world (VDict [("body", VInt 5)])
     = Raise TypeError
  /\ parse_message Cases.refusing_world (VStr "record")
     = Raise AttributeError.
Proof.
  refine (conj _ (conj _ (conj _ (conj _ (conj _ _))))).
  - apply (proj1 (unreadable_body_errors Cases.refusing_world
                    (Scenario.record_of "invalid json")) "invalid json");
      reflexivity.
  - apply (proj1 (unreadable_body_errors Cases.refusing_world
                    (Scenario.record_of "[[[[")) "[[[[");
      reflexivity.
  - apply (proj1 (unreadable_body_errors Cases.refusing_world
                    (Scenario.record_of "99999")) "99999");
      reflexivity.
  - apply (proj1 (proj2 (unreadable_body_errors Cases.refusing_world (VDict []))) []);
      reflexivity.
  - apply (proj1 (proj2 (proj2 (unreadable_body_errors Cases.refusing_world
                                  (VDict [("body", VInt 5)])))) (VInt 5)).
    + reflexivity.
    + discriminate.
  - apply (proj2 (proj2 (proj2 (unreadable_body_errors Cases.refusing_world
                                  (VStr "record"))))).
    discriminate.
Defined.

Lemma get_request_body_of_integer_texts_witness :
  get_request_body (VStr (str_of_int 42)) (str_of_int 500)
  = Ok {| customer_id := 42; amount := 500; tax := 0; ship_fee := 0;
          transfer_type := 1; status := 1 |}
  /\ get_request_body (VStr (str_of_int (10 ^ 4300))) (str_of_int 500)
     = Raise (ValueError ConversionError).
Proof.
  split.
  - apply (proj1 (get_request_body_of_integer_texts 42 500)); vm_compute; discriminate.
  - apply (proj2 (get_request_body_of_integer_texts (10 ^ 4300) 500)).
    left. vm_compute. reflexivity.
Defined.

Lemma integer_amount_is_kept_witness :
  parse_message (Scenario.offline Cases.text_amount (Cases.with_amount (VInt 1000)))
    (Scenario.record_of Cases.text_amount)
  = Ok {| message_data := Cases.with_amount (VInt 1000);
          billing_id := VStr "b1"; merchant_code := VStr "m1"; user_code := VStr "u1";
          direct_debit_id := VStr "42"; total_amount := "1000" |}.
Proof.
  refine (integer_amount_is_kept
            (Scenario.offline Cases.text_amount (Cases.with_amount (VInt 1000)))
            (Scenario.record_of Cases.text_amount) Cases.text_amount
            [("billing_id", VStr "b1"); ("merchant_code", VStr "m1");
             ("user_code", VStr "u1"); ("direct_debit_id", VStr "42");
             ("amount", VInt 1000)] 1000 _ _ _ _ _).
  - reflexivity.
  - vm_compute; reflexivity.
  - reflexivity.
  - reflexivity.
  - vm_compute; reflexivity.
Defined.

Lemma amount_conversion_is_idempotent_witness :
  convert_amount (VStr (str_of_int 1000)) = Ok (str_of_int 1000).
Proof. apply amount_conversion_is_idempotent. vm_compute; reflexivity. Defined.

Lemma other_conversion_errors_escape_witness :
  parse_message (Scenario.offline Cases.text_amount (Cases.with_amount (VStr "1e400")))
    (Scenario.record_of Cases.text_amount)
  = Raise OverflowError
  /\ parse_message (Scenario.offline Cases.text_amount (Cases.with_amount (VList [VInt 1])))
       (Scenario.record_of Cases.text_amount)
     = Raise TypeError.
Proof.
  split.
  - refine (proj1 (proj2 (other_conversion_errors_escape
              (Scenario.offline Cases.text_amount (Cases.with_amount (VStr "1e400")))
              (Scenario.record_of Cases.text_amount) Cases.text_amount
              [("billing_id", VStr "b1"); ("merchant_code", VStr "m1");
               ("user_code", VStr "u1"); ("direct_debit_id", VStr "42");
               ("amount", VStr "1e400")] (VStr "1e400") _ _ _ _)) false _).
    + reflexivity.
    + vm_compute; reflexivity.
    + reflexivity.
    + reflexivity.
    + vm_compute; reflexivity.
  - refine (proj1 (other_conversion_errors_escape
              (Scenario.offline Cases.text_amount (Cases.with_amount (VList [VInt 1])))
              (Scenario.record_of Cases.text_amount) Cases.text_amount
              [("billing_id", VStr "b1"); ("merchant_code", VStr "m1");
               ("user_code", VStr "u1"); ("direct_debit_id", VStr "42");
               ("amount", VList [VInt 1])] (VList [VInt 1]) _ _ _ _) _).
    + reflexivity.
    + vm_compute; reflexivity.
    + reflexivity.
    + reflexivity.
    + left. exists [VInt 1]. reflexivity.
Defined.

Lemma update_billing_to_settled_effect_witness :
  MySQL.run (update_billing_to_settled_text "m2" "u1") Scenario.mixed2
  = Some ([Scenario.row "m1" "u1" "2" "1" ""; Scenario.row "m2" "u1" "2" "1" ""], 1).
Proof.
  rewrite (proj1 (update_billing_to_settled_effect
                    (Scenario.offline Scenario.text1 Scenario.message1)
                    "m2" "u1" Scenario.mixed2 [] eq_refl eq_refl)).
  reflexivity.
Defined.

Lemma update_billing_error_effect_witness :
  MySQL.run (update_billing_error_text "m2" "u1" "E001") Scenario.mixed2
  = Some ([Scenario.row "m1" "u1" "2" "1" ""; Scenario.row "m2" "u1" "2" "2" "E001"], 1).
Proof.
  rewrite (proj1 (update_billing_error_effect
                    (Scenario.offline Scenario.text1 Scenario.message1)
                    "m2" "u1" "E001" Scenario.mixed2 [] eq_refl eq_refl eq_refl)).
  reflexivity.
Defined.

Lemma first_update_wins_witness :
  MySQL.run (update_billing_error_text "m2" "u1" "late")
    [Scenario.row "m1" "u1" "2" "1" ""; Scenario.row "m2" "u1" "2" "1" ""]
  = Some ([Scenario.row "m1" "u1" "2" "1" ""; Scenario.row "m2" "u1" "2" "1" ""], 0).
Proof.
  apply (proj2 (first_update_wins "m2" "u1" "E001" "late" Scenario.mixed2
                  eq_refl eq_refl eq_refl eq_refl
                  [Scenario.row "m1" "u1" "2" "1" ""; Scenario.row "m2" "u1" "2" "1" ""]
                  (or_introl eq_refl))).
Defined.

Lemma handler_effect_on_table_witness :
  db (snd (lambda_handler
             (Scenario.world Scenario.text1 Scenario.message1 (Ok Scenario.answer_settled))
             MySQL.execute (Scenario.sqs_event Scenario.text1)
             {| db := Scenario.pending1; trace := [] |}))
  = [Scenario.row "m1" "u1" "2" "1" ""].
Proof.
  rewrite (proj1 (proj1 (handler_effect_on_table
             (Scenario.world Scenario.text1 Scenario.message1 (Ok Scenario.answer_settled))
             (Scenario.sqs_event Scenario.text1) Scenario.parsed1 Scenario.request1
             Scenario.answer_settled "m1" "u1" Scenario.pending1 []
             (debit_answered_scenario Scenario.answer_settled)
             eq_refl eq_refl eq_refl eq_refl)
           [("status", VInt 1); ("request_id", VStr "r1")] (VInt 1)
           eq_refl eq_refl eq_refl) eq_refl).
  reflexivity.
Defined.

Lemma get_mysql_connection_cases_witness :
  Connection.get_mysql_connection (Cases.driver false) Cases.fresh
  = (Ok 1%nat,
     {| db := {| Connection.net := 1%nat; Connection._mysql_connection := Some 1%nat;
                 Connection.driver_calls := [Connection.Connect] |};
        trace := [] |})
  /\ Connection.get_mysql_connection (Cases.driver true) Cases.fresh
     = (Raise RequestException,
        {| db := {| Connection.net := 0%nat; Connection._mysql_connection := None;
                    Connection.driver_calls := [Connection.Connect] |};
           trace := [] |}).
Proof.
  split.
  - exact (proj2 (get_mysql_connection_cases (Cases.driver false) Cases.fresh)
             (or_introl eq_refl) (Ok 1%nat) 1%nat eq_refl).
  - exact (proj2 (get_mysql_connection_cases (Cases.driver true) Cases.fresh)
             (or_introl eq_refl) (Raise RequestException) 0%nat eq_refl).
Defined.

Lemma connection_is_reused_witness :
  exists c,
    Connection._mysql_connection
      (db (snd (Connection.execution_query (Cases.driver false) "q1" Cases.fresh)))
    = Some c
    /\ exists flag st2 rest,
        Connection.execution_query (Cases.driver false) "q2"
          (snd (Connection.execution_query (Cases.driver false) "q1" Cases.fresh))
        = (Ok flag, st2)
        /\ Connection._mysql_connection (db st2) = Some c
        /\ Connection.driver_calls (db st2)
           = ([Connection.Connect; Connection.Execute 1%nat "q1"; Connection.Commit 1%nat]
              ++ Connection.Execute c "q2" :: rest)%list.
Proof.
  destruct (connection_is_reused (Cases.driver false) "q1" "q2" Cases.fresh
              (snd (Connection.execution_query (Cases.driver false) "q1" Cases.fresh)))
    as (c & Hc & Hnext).
  - vm_compute; reflexivity.
  - exists c. split; [exact Hc|].
    destruct (Hnext eq_refl) as (flag & st2 & rest & E & Hc2 & Hcalls & _).
    exists flag, st2, rest. repeat split; assumption.
Defined.

Lemma escaping_exceptions_witness :
  lambda_handler (Scenario.offline Scenario.text1 Scenario.message1) MySQL.execute
    (VDict []) (Scenario.start Scenario.pending1)
  = (Raise AssertionError, Scenario.start Scenario.pending1)
  /\ (AssertionError = AttributeError \/ AssertionError = TypeError
      \/ AssertionError = AssertionError \/ AssertionError = KeyError "0").
Proof.
  split; [vm_compute; reflexivity|].
  apply (escaping_exceptions (list BillingRow)
           (Scenario.offline Scenario.text1 Scenario.message1) MySQL.execute (VDict [])
           AssertionError (Scenario.start Scenario.pending1)
           (Scenario.start Scenario.pending1)).
  vm_compute; reflexivity.
Defined.
